(** * complexsplit/techniques: the notebooks' own code, embedded and verified

    The repository is a set of tutorial notebooks (Dask, Ray RLlib, RaySGD,
    Ray Tune, MLflow) and one shell script.  Almost every cell calls a
    third-party library; the little code the repository owns is embedded
    below, function by function, under the names it has in the notebooks:

    - [objective], [training_function]              (Ray Tune notebook)
    - [linear_dataset], [simple_dataset], [create_config],
      [create_diamonds_config], [train_example], [train_diamonds],
      [train_diamonds_mlflow]                       (RaySGD + MLflow notebook)
    - [dqn_config], [dqn_training]                  (modeling notebook, DQN cells)
    - [config_cell]                                 (PPO and DQN configuration
                                                     cells, dictionaries shared)
    - [start_script]                                (binder start script, sed line)

    Python values are modelled as the interpreter has them: [int] is [Z],
    [float] is IEEE binary64 ([PrimFloat.float]), exceptions are an error
    monad, calls into libraries are events of a free monad whose answers are
    chosen by an arbitrary library behaviour. *)

From Stdlib Require Import ZArith QArith Lia List String Ascii Bool.
From Stdlib Require Import Floats.
Import ListNotations.

Set Warnings "-inexact-float,-register-all".
Local Open Scope Z_scope.

(* ===================================================================== *)
(** * Part I: the embedding *)
(* ===================================================================== *)

(* ===================================================================== *)
(** ** Exceptions and the error monad *)
(* ===================================================================== *)

(** The Python exceptions the embedded code can raise by itself or receive
    from a library call. *)
Inductive exn : Type :=
| ZeroDivisionError
| OverflowError
| ValueError
| IndexError
| KeyError (key : string)
| LibraryError (what : string).

Inductive result (A : Type) : Type :=
| Ok (a : A)
| Err (e : exn).

Arguments Ok {A} a.
Arguments Err {A} e.

Definition rbind {A B : Type} (r : result A) (k : A -> result B) : result B :=
  match r with
  | Ok a => k a
  | Err e => Err e
  end.

Declare Scope result_scope.
Delimit Scope result_scope with result.
Notation "x <- r ;; k" := (rbind r (fun x => k))
  (at level 61, r at next level, right associativity) : result_scope.

(* ===================================================================== *)
(** ** Python's number protocol, as far as [objective] uses it *)
(* ===================================================================== *)

(** [objective] is written once against Python's arithmetic operators; which
    arithmetic runs depends on the type of the arguments.  The class lists
    the operations the function body uses. *)
Class PyNumber (F : Type) : Type := {
  (** conversion of an [int] operand in mixed arithmetic *)
  num_of_int : Z -> result F;
  (** the literal [0.1] *)
  num_tenth : F;
  num_add : F -> F -> F;
  num_mul : F -> F -> F;
  (** true division [/] *)
  num_div : F -> F -> result F;
  (** [x ** (-1)] *)
  num_pow_neg1 : F -> result F
}.

Module Tune.

Section Objective.
Context {F : Type} `{PyNumber F}.
Local Open Scope result_scope.

(** [0.1 + alpha * step / 100], the base of the power in [objective]. *)
Definition denominator (step : Z) (alpha : F) : result F :=
  s <- num_of_int step ;;
  hundred <- num_of_int 100 ;;
  q <- num_div (num_mul alpha s) hundred ;;
  Ok (num_add num_tenth q).

(** [def objective(step, alpha, beta):
     return (0.1 + alpha * step / 100)**(-1) + beta * 0.1] *)
Definition objective (step : Z) (alpha : F) (beta : Z) : result F :=
  d <- denominator step alpha ;;
  r <- num_pow_neg1 d ;;
  b <- num_of_int beta ;;
  Ok (num_add r (num_mul b num_tenth)).
End Objective.

End Tune.

(* ===================================================================== *)
(** ** binary64: the arithmetic the notebooks run in *)
(* ===================================================================== *)

Module Float64.

(** [float(z)] for a Python [int]: round to nearest even; a value that
    rounds past the largest finite double raises [OverflowError]
    ("int too large to convert to float"). *)
Definition of_int (z : Z) : result float :=
  let f := SF2Prim (binary_normalize prec emax z 0 false) in
  if is_infinity f then Err OverflowError else Ok f.

(** [x / y] on floats raises on a zero divisor and otherwise is the IEEE
    quotient. *)
Definition div (x y : float) : result float :=
  if PrimFloat.eqb y 0%float then Err ZeroDivisionError
  else Ok (PrimFloat.div x y).

(** IEEE reciprocal. *)
Definition recip (x : float) : float := PrimFloat.div 1%float x.

(** [x ** (-1)] as CPython's [float_pow] evaluates it: NaN and the
    infinities are answered directly, a zero base raises
    [ZeroDivisionError], anything else goes to the C library's
    [pow(x, -1.0)], here the parameter [cpow]; an infinite answer is
    reported as [OverflowError]. *)
Definition pow_neg1 (cpow : float -> float) (x : float) : result float :=
  if is_nan x then Ok x
  else if is_infinity x then Ok (recip x)
  else if PrimFloat.eqb x 0%float then Err ZeroDivisionError
  else
    let r := cpow x in
    if is_infinity r then Err OverflowError else Ok r.

(** The floats a C library may return for [pow(x, -1.0)]: the correctly
    rounded reciprocal or one of its two neighbours (an error below one
    unit in the last place). *)
Definition candidates (x : float) : list float :=
  [next_down (recip x); recip x; next_up (recip x)].

Definition faithful_pow (cpow : float -> float) : Prop :=
  forall x, PrimFloat.ltb 0%float x = true ->
            PrimFloat.ltb x infinity = true ->
            In (cpow x) (candidates x).

Definition number (cpow : float -> float) : PyNumber float := {|
  num_of_int := of_int;
  num_tenth := 0.1%float;
  num_add := PrimFloat.add;
  num_mul := PrimFloat.mul;
  num_div := div;
  num_pow_neg1 := pow_neg1 cpow
|}.

End Float64.

(* ===================================================================== *)
(** ** Exact rationals: the arithmetic without rounding *)
(* ===================================================================== *)

Module Exact.

Definition div (x y : Q) : result Q :=
  if Qeq_bool y 0 then Err ZeroDivisionError else Ok (x / y)%Q.

Definition pow_neg1 (x : Q) : result Q :=
  if Qeq_bool x 0 then Err ZeroDivisionError else Ok (/ x)%Q.

Definition number : PyNumber Q := {|
  num_of_int := fun z => Ok (inject_Z z);
  num_tenth := (1 # 10)%Q;
  num_add := Qplus;
  num_mul := Qmult;
  num_div := div;
  num_pow_neg1 := pow_neg1
|}.

End Exact.

Module TuneRun.

(** The objective as the notebook runs it, on binary64. *)
Definition objective64 (cpow : float -> float) :=
  @Tune.objective float (Float64.number cpow).

(** The denominator does not involve the power, so it is the same under
    every C library. *)
Definition denominator64 : Z -> float -> result float :=
  @Tune.denominator float (Float64.number Float64.recip).

(** The same source text read over exact rationals. *)
Definition objectiveQ := @Tune.objective Q Exact.number.
Definition denominatorQ := @Tune.denominator Q Exact.number.

(** The hyperparameters the notebook hands to [tune.run]:
    [tune.grid_search([0.001, 0.01, 0.1])] and [tune.choice([1, 2, 3])]. *)
Definition alpha_grid : list float := [0.001%float; 0.01%float; 0.1%float].
Definition beta_choices : list Z := [1; 2; 3].

(** [range(10)], the steps of [training_function]. *)
Definition steps : list Z := map Z.of_nat (seq 0 10).

(** A denominator in the general case of [float_pow]: finite and positive. *)
Definition regular (d : float) : bool :=
  negb (is_nan d) && negb (is_infinity d) && negb (PrimFloat.eqb d 0%float)
  && PrimFloat.ltb 0%float d && PrimFloat.ltb d infinity.

(** One cell of the notebook's grid, checked for every float the C
    library may answer at the two denominators. *)
Definition cell_check (alpha : float) (beta s1 s2 : Z) : bool :=
  match denominator64 s1 alpha, denominator64 s2 alpha, Float64.of_int beta with
  | Ok d1, Ok d2, Ok b =>
      regular d1 && regular d2 &&
      forallb (fun c1 =>
        forallb (fun c2 =>
          negb (is_infinity c1) && negb (is_infinity c2) &&
          PrimFloat.ltb (PrimFloat.add c2 (PrimFloat.mul b 0.1%float))
                        (PrimFloat.add c1 (PrimFloat.mul b 0.1%float)))
          (Float64.candidates d2))
        (Float64.candidates d1)
  | _, _, _ => false
  end.

Definition grid_check : bool :=
  forallb (fun alpha =>
    forallb (fun beta =>
      forallb (fun s1 =>
        forallb (fun s2 => if s1 <? s2 then cell_check alpha beta s1 s2 else true)
          steps) steps) beta_choices) alpha_grid.

End TuneRun.

(* ===================================================================== *)
(** ** Python values and dictionaries *)
(* ===================================================================== *)

(** The Python objects the repository's functions build or pass around.
    [VObject] is a reference to an object owned by a library (a trainer, an
    MLflow run, a dataset); everything else is built by the interpreter from
    the repository's own expressions.  A [dict] keeps its insertion order. *)
Inductive value : Type :=
| VInt (z : Z)
| VFloat (f : float)
| VBool (b : bool)
| VStr (s : string)
| VList (items : list value)
| VDict (items : list (string * value))
| VObject (id : nat).

(** [a // b] on [int]: the quotient rounded towards minus infinity
    ([Z.div] rounds the same way), [ZeroDivisionError] on a zero divisor. *)
Definition floordiv (a b : Z) : result Z :=
  if b =? 0 then Err ZeroDivisionError else Ok (a / b).

Fixpoint assoc (k : string) (items : list (string * value)) : option value :=
  match items with
  | [] => None
  | (k', v) :: rest => if String.eqb k k' then Some v else assoc k rest
  end.

(** [d[k]] *)
Definition getitem (d : value) (k : string) : result value :=
  match d with
  | VDict items =>
      match assoc k items with
      | Some v => Ok v
      | None => Err (KeyError k)
      end
  | _ => Err (LibraryError "TypeError")
  end.

(** [d[k1][k2]] *)
Definition getitem2 (d : value) (k1 k2 : string) : result value :=
  rbind (getitem d k1) (fun inner => getitem inner k2).

(** [d[k] = v] on a dictionary: replaces the value under an existing key in
    place, appends a new key at the end. *)
Fixpoint assoc_set (k : string) (v : value) (items : list (string * value))
  : list (string * value) :=
  match items with
  | [] => [(k, v)]
  | (k', v') :: rest =>
      if String.eqb k k' then (k, v) :: rest else (k', v') :: assoc_set k v rest
  end.

Definition setitem (d : value) (k : string) (v : value) : result value :=
  match d with
  | VDict items => Ok (VDict (assoc_set k v items))
  | _ => Err (LibraryError "TypeError")
  end.



(* ===================================================================== *)
(** ** RaySGD notebook: configuration builders *)
(* ===================================================================== *)

Module RaySGD.
Local Open Scope result_scope.
Local Open Scope string_scope.

Definition NUM_TRAIN_SAMPLES : Z := 1000.
Definition NUM_TEST_SAMPLES : Z := 400.

(** [def create_config(batch_size):
       return {
           "batch_size": batch_size,
           "fit_config": {"steps_per_epoch": NUM_TRAIN_SAMPLES // batch_size},
           "evaluate_config": {"steps": NUM_TEST_SAMPLES // batch_size}}] *)
Definition create_config (batch_size : Z) : result value :=
  steps_per_epoch <- floordiv NUM_TRAIN_SAMPLES batch_size ;;
  steps <- floordiv NUM_TEST_SAMPLES batch_size ;;
  Ok (VDict [ ("batch_size", VInt batch_size);
              ("fit_config", VDict [("steps_per_epoch", VInt steps_per_epoch)]);
              ("evaluate_config", VDict [("steps", VInt steps)]) ]).

(** [def create_diamonds_config(batch_size):
       return {
           "batch_size": batch_size,
           "fit_config": {"steps_per_epoch": 40000 // batch_size},
           "evaluate_config": {"steps": 13940 // batch_size}}] *)
Definition create_diamonds_config (batch_size : Z) : result value :=
  steps_per_epoch <- floordiv 40000 batch_size ;;
  steps <- floordiv 13940 batch_size ;;
  Ok (VDict [ ("batch_size", VInt batch_size);
              ("fit_config", VDict [("steps_per_epoch", VInt steps_per_epoch)]);
              ("evaluate_config", VDict [("steps", VInt steps)]) ]).


End RaySGD.

(* ===================================================================== *)
(** ** NumPy arrays, as far as [linear_dataset] uses them *)
(* ===================================================================== *)

Module Numpy.

(** A [float64] array: its shape and its elements in row-major order. *)
Record ndarray : Type := {
  shape : list Z;
  data : list float
}.

(** The global generator behind [np.random]: the stream of samples it will
    produce and how many have been consumed. *)
Record generator : Type := {
  samples : nat -> float;
  consumed : nat
}.

(** [np.random.rand(size)]: a one-dimensional array of [size] fresh
    samples; a negative [size] raises [ValueError]. *)
Definition rand (size : Z) (g : generator) : result ndarray * generator :=
  if size <? 0 then (Err ValueError, g)
  else
    let n := Z.to_nat size in
    (Ok {| shape := [size];
           data := map (samples g) (seq (consumed g) n) |},
     {| samples := samples g; consumed := (consumed g + n)%nat |}).

(** [c * a] for an [int] scalar [c]: elementwise product with [float(c)]. *)
Definition scalar_mul (c : Z) (a : ndarray) : result ndarray :=
  rbind (Float64.of_int c) (fun cf =>
  Ok {| shape := shape a; data := map (PrimFloat.mul cf) (data a) |}).

(** [a.reshape((-1, cols))]: the number of rows is inferred from the number
    of elements; it must divide evenly, and [cols] may not be zero. *)
Definition reshape_rows (a : ndarray) (cols : Z) : result ndarray :=
  let n := Z.of_nat (List.length (data a)) in
  if cols <=? 0 then Err ValueError
  else if n mod cols =? 0
       then Ok {| shape := [n / cols; cols]; data := data a |}
       else Err ValueError.

(** [a[i]] on a two-dimensional array: row [i], with Python's negative
    indices; [IndexError] outside. *)
Definition row (a : ndarray) (i : Z) : result (list float) :=
  match shape a with
  | [rows; cols] =>
      let j := if i <? 0 then i + rows else i in
      if (0 <=? j) && (j <? rows)
      then Ok (firstn (Z.to_nat cols) (skipn (Z.to_nat (j * cols)) (data a)))
      else Err IndexError
  | _ => Err (LibraryError "not two-dimensional")
  end.

(** [def linear_dataset(size=100):
       x = np.random.rand(size)
       y = 2 * x
       x = x.reshape((-1, 1))
       y = y.reshape((-1, 1))
       return x, y] *)
Definition linear_dataset (size : Z) (g : generator)
  : result (ndarray * ndarray) * generator :=
  match rand size g with
  | (Err e, g') => (Err e, g')
  | (Ok x, g') =>
      (rbind (scalar_mul 2 x) (fun y =>
       rbind (reshape_rows x 1) (fun x' =>
       rbind (reshape_rows y 1) (fun y' =>
       Ok (x', y')))), g')
  end.

(** A generator for the examples: the samples 0.25, 0.5, 0.25, 0.5, ... *)
Definition alternating : generator :=
  {| samples := fun n => if Nat.even n then 0.25%float else 0.5%float;
     consumed := 0 |}.

End Numpy.

(* ===================================================================== *)
(** ** The binder start script: the [sed] line *)
(* ===================================================================== *)

(** [sed -i -e "s|DASK_DASHBOARD_URL|${JUPYTERHUB_BASE_URL}user/${JUPYTERHUB_USER}/proxy/8787|g"
       binder/jupyterlab-workspace.json]

    The shell expands the two variables inside the double quotes and hands
    the resulting text to [sed], which parses it as an [s] command and runs
    it on every line of the file. *)
Module Binder.

Definition text : Type := list ascii.

Definition txt (s : string) : text := list_ascii_of_string s.

Definition newline : ascii := "010"%char.

(** The process environment: a variable is unset or has a value. *)
Definition environment : Type := string -> option text.

(** [${NAME}] inside double quotes: the value, or nothing when unset. *)
Definition expand (env : environment) (name : string) : text :=
  match env name with
  | Some v => v
  | None => []
  end.

Definition PLACEHOLDER : text := txt "DASK_DASHBOARD_URL".

(** The text the script's comment calls the proxy location. *)
Definition proxy_location (env : environment) : text :=
  expand env "JUPYTERHUB_BASE_URL" ++ txt "user/"
  ++ expand env "JUPYTERHUB_USER" ++ txt "/proxy/8787".

(** What [sed] receives after the second [|] of the expression: the
    replacement, the closing [|] and the flag [g]. *)
Definition expression_tail (env : environment) : text :=
  proxy_location env ++ txt "|g".

(** A parsed replacement: literal characters and [&], the matched text. *)
Inductive ritem : Type :=
| Lit (c : ascii)
| Matched.

(** [sed]'s reading of the replacement up to the closing delimiter.  An
    unescaped [&] stands for the matched text, a backslash quotes the next
    character, a newline or the end of the text before the delimiter is an
    unterminated command.  [None] also stands for the escapes this model
    leaves out (back-references, case conversion, numeric escapes). *)
Fixpoint parse_replacement (delim : ascii) (s : text) : option (list ritem * text) :=
  match s with
  | [] => None
  | c :: rest =>
      if Ascii.eqb c delim then Some ([], rest)
      else if Ascii.eqb c newline then None
      else if Ascii.eqb c "&"%char then
        match parse_replacement delim rest with
        | Some (items, tail) => Some (Matched :: items, tail)
        | None => None
        end
      else if Ascii.eqb c "\"%char then
        match rest with
        | c2 :: rest2 =>
            if Ascii.eqb c2 delim || Ascii.eqb c2 "&"%char || Ascii.eqb c2 "\"%char
            then match parse_replacement delim rest2 with
                 | Some (items, tail) => Some (Lit c2 :: items, tail)
                 | None => None
                 end
            else None
        | [] => None
        end
      else
        match parse_replacement delim rest with
        | Some (items, tail) => Some (Lit c :: items, tail)
        | None => None
        end
  end.

(** The flags after the closing delimiter: none, or [g].  [None] for
    anything else: [sed] rejects most of it as an unknown option, but it
    also knows further flags and goes on to another command after [;],
    which this model leaves out. *)
Definition parse_flags (s : text) : option bool :=
  match s with
  | [] => Some false
  | [c] => if Ascii.eqb c "g"%char then Some true else None
  | _ => None
  end.

(** The text a replacement produces for a match. *)
Definition instantiate (items : list ritem) (matched : text) : text :=
  flat_map (fun it => match it with Lit c => [c] | Matched => matched end) items.

(** [strip_prefix p s]: what follows [p] at the front of [s]. *)
Fixpoint strip_prefix (p s : text) : option text :=
  match p, s with
  | [], _ => Some s
  | _ :: _, [] => None
  | a :: p', b :: s' => if Ascii.eqb a b then strip_prefix p' s' else None
  end.

(** The [s] command on one line.  The pattern [DASK_DASHBOARD_URL] has only
    ordinary characters, so the regular expression matches exactly that
    text.  The line is scanned from the left; at a match the replacement is
    written and the scan resumes behind the match (with [g]) or the rest of
    the line is copied (without).  [fuel] bounds the number of scan steps. *)
Fixpoint substitute_fuel (fuel : nat) (pat : text) (items : list ritem)
         (global : bool) (line : text) : text :=
  match fuel with
  | O => line
  | S fuel' =>
      match line with
      | [] => []
      | c :: tl =>
          match strip_prefix pat line with
          | Some rest =>
              instantiate items pat
              ++ (if global then substitute_fuel fuel' pat items global rest else rest)
          | None => c :: substitute_fuel fuel' pat items global tl
          end
      end
  end.

Definition substitute (pat : text) (items : list ritem) (global : bool)
           (line : text) : text :=
  substitute_fuel (List.length line) pat items global line.

(** The lines of a file, split at every newline (so a file that ends in a
    newline has an empty last piece), and their reassembly. *)
Fixpoint lines (s : text) : list text :=
  match s with
  | [] => [[]]
  | c :: tl =>
      if Ascii.eqb c newline then [] :: lines tl
      else match lines tl with
           | l :: ls => (c :: l) :: ls
           | [] => [[c]]
           end
  end.

Fixpoint unlines (ls : list text) : text :=
  match ls with
  | [] => []
  | l :: ls' =>
      match ls' with
      | [] => l
      | _ :: _ => l ++ newline :: unlines ls'
      end
  end.

(** [sed -i -e expression file]: every line goes through the command. *)
Definition sed_lines (pat : text) (items : list ritem) (global : bool)
           (content : text) : text :=
  unlines (map (substitute pat items global) (lines content)).

(** The content of [binder/jupyterlab-workspace.json] after the [sed] line
    of the script.  [None] when the model gives no content: [sed] rejects
    the expression and leaves the file as it was, or the values of the
    variables lead the expression out of the part of [sed] that is
    modelled (one [s] command with the flag [g], a replacement with [&]
    and quoted [|], [&] and backslash).  The theorems say for which values
    [None] is a rejection. *)
Definition start_script (env : environment) (content : text) : option text :=
  match parse_replacement "|"%char (expression_tail env) with
  | Some (items, flags) =>
      match parse_flags flags with
      | Some global => Some (sed_lines PLACEHOLDER items global content)
      | None => None
      end
  | None => None
  end.

(** Characters [sed] and the delimiter give no special meaning to. *)
Definition plain_char (c : ascii) : bool :=
  negb (Ascii.eqb c "|"%char || Ascii.eqb c "&"%char
        || Ascii.eqb c "\"%char || Ascii.eqb c newline).

Definition plain (s : text) : bool := forallb plain_char s.

(** [first ++ sep ++ p1 ++ sep ++ p2 ...]: pieces joined by a separator. *)
Definition join (sep : text) (first : text) (more : list text) : text :=
  first ++ flat_map (fun p => sep ++ p) more.

(** [p] occurs in [s]. *)
Definition occurs (p s : text) : Prop := exists pre post, s = pre ++ p ++ post.

(** No proper nonempty end of [p] is also a beginning of [p], so two
    occurrences of [p] cannot overlap. *)
Definition unbordered (p : text) : Prop :=
  forall u v w, p = u ++ v -> p = v ++ w -> v = [] \/ u = [].

Definition border_free (p : text) : bool :=
  forallb (fun k => if list_eq_dec Ascii.ascii_dec
                         (firstn k p) (skipn (List.length p - k) p)
                    then false else true)
          (seq 1 (List.length p - 1)).

(** A file for the examples: two lines, three occurrences of the
    placeholder, two of them adjacent. *)
Definition sample_workspace : text :=
  txt "a DASK_DASHBOARD_URL/status b" ++ newline
  :: txt "DASK_DASHBOARD_URLDASK_DASHBOARD_URL".

(** An environment for the examples: base URL [/] and a given user name. *)
Definition hub (user : string) : environment :=
  fun name =>
    if String.eqb name "JUPYTERHUB_BASE_URL" then Some (txt "/")
    else if String.eqb name "JUPYTERHUB_USER" then Some (txt user)
    else None.

End Binder.

(* ===================================================================== *)
(** ** Calls into the libraries *)
(* ===================================================================== *)

(** What the notebooks read from the dictionaries the libraries return. *)
Record validation_stats : Type := {
  validation_loss : float;
  validation_mean_squared_error : float
}.

Record train_stats : Type := {
  train_loss : float
}.

Record rl_result : Type := {
  episode_reward_min : float;
  episode_reward_mean : float;
  episode_reward_max : float
}.

(** The argument of a [print]: a statistics dictionary, a string literal,
    or a format string with the values filled in. *)
Inductive printed : Type :=
| PStats (stats : validation_stats)
| PText (message : string)
| PFormat (template : string) (args : list value).

(** The library calls (and [print]) the embedded cells make; the index is
    the type of the answer.  Trainers and runs are named by a number. *)
Inductive call : Type -> Type :=
| TFTrainer (model_creator data_creator : string) (num_replicas : Z)
            (use_gpu verbose : bool) (config : value) : call nat
| TFTrainer_validate (trainer : nat) : call validation_stats
| TFTrainer_train (trainer : nat) : call train_stats
| DQNTrainer (config : value) (env : string) : call nat
| DQNTrainer_train (trainer : nat) : call rl_result
| DQNTrainer_save (trainer : nat) (checkpoint_dir : string) : call string
| Client_create_run (experiment_id : string) : call string
| Client_log_metric (run_id key : string) (metric : float) (step : Z) : call unit
| Client_set_terminated (run_id : string) : call unit
| Tune_report (mean_loss : float) : call unit
| Print (p : printed) : call unit.

(** A cell or function of a notebook: it returns, raises, or makes a call
    and continues with the answer.  There is no constructor that catches an
    exception: the notebooks have no [try]. *)
Inductive prog (R : Type) : Type :=
| Ret (r : R)
| Raise (e : exn)
| Do {X : Type} (c : call X) (k : X -> prog R).

Arguments Ret {R} r.
Arguments Raise {R} e.
Arguments Do {R X} c k.

Fixpoint bind {A B : Type} (p : prog A) (f : A -> prog B) : prog B :=
  match p with
  | Ret r => f r
  | Raise e => Raise e
  | Do c k => Do c (fun x => bind (k x) f)
  end.

Definition perform {X : Type} (c : call X) : prog X := Do c Ret.

Definition lift {A : Type} (r : result A) : prog A :=
  match r with
  | Ok a => Ret a
  | Err e => Raise e
  end.

Declare Scope prog_scope.
Delimit Scope prog_scope with prog.
Notation "x <- p ;; k" := (bind p (fun x => k))
  (at level 61, p at next level, right associativity) : prog_scope.
Notation "p ;; k" := (bind p (fun _ => k))
  (at level 61, right associativity) : prog_scope.

(** [for x in l: body(x)] *)
Fixpoint for_each {A : Type} (l : list A) (body : A -> prog unit) : prog unit :=
  match l with
  | [] => Ret tt
  | a :: rest => bind (body a) (fun _ => for_each rest body)
  end.

(** [for x in l: v = body(x, v)], for a loop that reassigns a variable. *)
Fixpoint for_each_with {A V : Type} (l : list A) (body : A -> V -> prog V) (v : V)
  : prog V :=
  match l with
  | [] => Ret v
  | a :: rest => bind (body a v) (fun v' => for_each_with rest body v')
  end.

(** [range(n)] *)
Definition range (n : nat) : list Z := map Z.of_nat (seq 0 n).

(** *** Running a program against a library *)

(** A library behaviour answers every call, or raises, and keeps a state of
    its own. *)
Definition behaviour (S : Type) : Type := forall X, call X -> S -> result X * S.

(** One call with the answer it got. *)
Inductive event : Type :=
| Event {X : Type} (c : call X) (answer : result X).

Record run_result (S R : Type) : Type := {
  outcome : result R;
  final : S;
  trace : list event
}.

Arguments outcome {S R} r.
Arguments final {S R} r.
Arguments trace {S R} r.

Fixpoint run {S R : Type} (lib : behaviour S) (p : prog R) (s : S) : run_result S R :=
  match p with
  | Ret r => {| outcome := Ok r; final := s; trace := [] |}
  | Raise e => {| outcome := Err e; final := s; trace := [] |}
  | Do c k =>
      match lib _ c s with
      | (Ok x, s') =>
          let rest := run lib (k x) s' in
          {| outcome := outcome rest; final := final rest;
             trace := Event c (Ok x) :: trace rest |}
      | (Err e, s') =>
          {| outcome := Err e; final := s'; trace := [Event c (Err e)] |}
      end
  end.

Definition succeeded {A : Type} (r : result A) : bool :=
  match r with
  | Ok _ => true
  | Err _ => false
  end.

(** The traces a program can produce, whatever the library answers. *)
Fixpoint exec {R : Type} (p : prog R) (tr : list event) (res : result R) : Prop :=
  match p with
  | Ret r => tr = [] /\ res = Ok r
  | Raise e => tr = [] /\ res = Err e
  | Do c k =>
      (exists x tr', tr = Event c (Ok x) :: tr' /\ exec (k x) tr' res)
      \/ (exists e, tr = [Event c (Err e)] /\ res = Err e)
  end.

(** *** Reading a trace *)


(** What a completed call leaves behind after the notebook session: a
    checkpoint written by [trainer.save], and the records the MLflow client
    sends to the tracking store. *)
Inductive durable : Type :=
| Checkpoint (checkpoint_dir path : string)
| RunCreated (experiment_id run_id : string)
| MetricLogged (run_id key : string) (metric : float) (step : Z)
| RunTerminated (run_id : string).

Definition written (e : event) : list durable :=
  match e with
  | Event c (Ok x) =>
      match c in call X return X -> list durable with
      | DQNTrainer_save _ dir => fun path => [Checkpoint dir path]
      | Client_create_run experiment => fun id => [RunCreated experiment id]
      | Client_log_metric id key m step => fun _ => [MetricLogged id key m step]
      | Client_set_terminated id => fun _ => [RunTerminated id]
      | _ => fun _ => []
      end x
  | Event _ (Err _) => []
  end.

Definition persisted (tr : list event) : list durable := flat_map written tr.

Definition prints (e : event) : list printed :=
  match e with
  | Event c (Ok _) =>
      match c with
      | Print p => [p]
      | _ => []
      end
  | Event _ (Err _) => []
  end.

(** Everything printed in a run, in order. *)
Definition output (tr : list event) : list printed := flat_map prints tr.

(** The string literals among the printed lines. *)
Definition messages (tr : list event) : list string :=
  flat_map (fun p => match p with PText m => [m] | _ => [] end) (output tr).

Definition is_rl_train (e : event) : bool :=
  match e with
  | Event c _ => match c with DQNTrainer_train _ => true | _ => false end
  end.

(** The number of [trainer.train()] invocations on a DQN trainer. *)
Definition rl_train_calls (tr : list event) : nat :=
  List.length (filter is_rl_train tr).

(* ===================================================================== *)
(** ** RaySGD + MLflow notebook: the training functions *)
(* ===================================================================== *)

Module Training.
Import RaySGD.
Local Open Scope prog_scope.
Local Open Scope string_scope.

Definition sanity_failed : string := "training sanity check failed. loss increased!".
Definition sanity_passed : string := "success!".

(** [dloss = end_stats["validation_loss"] - start_stats["validation_loss"]] *)
Definition dloss (start_stats end_stats : validation_stats) : float :=
  PrimFloat.sub (validation_loss end_stats) (validation_loss start_stats).

(** [dmse = (end_stats["validation_mean_squared_error"] -
            start_stats["validation_mean_squared_error"])] *)
Definition dmse (start_stats end_stats : validation_stats) : float :=
  PrimFloat.sub (validation_mean_squared_error end_stats)
                (validation_mean_squared_error start_stats).

(** [dloss > 0 or dmse > 0] *)
Definition loss_increased (start_stats end_stats : validation_stats) : bool :=
  PrimFloat.ltb 0%float (dloss start_stats end_stats)
  || PrimFloat.ltb 0%float (dmse start_stats end_stats).

(** The message [train_example] ends with. *)
Definition verdict (start_stats end_stats : validation_stats) : string :=
  if loss_increased start_stats end_stats then sanity_failed else sanity_passed.

(** [def train_example(num_replicas=1, batch_size=128, use_gpu=False):
       trainer = TFTrainer(model_creator=simple_model, data_creator=simple_dataset,
                           num_replicas=num_replicas, use_gpu=use_gpu, verbose=True,
                           config=create_config(batch_size))
       start_stats = trainer.validate()
       print(start_stats)
       trainer.train()
       trainer.train()
       end_stats = trainer.validate()
       print(end_stats)
       dloss = ...; dmse = ...
       print(f"dLoss: {dloss}, dMSE: {dmse}")
       if dloss > 0 or dmse > 0:
           print("training sanity check failed. loss increased!")
       else:
           print("success!")] *)
Definition train_example (num_replicas batch_size : Z) (use_gpu : bool) : prog unit :=
  config <- lift (create_config batch_size) ;;
  trainer <- perform (TFTrainer "simple_model" "simple_dataset"
                                num_replicas use_gpu true config) ;;
  start_stats <- perform (TFTrainer_validate trainer) ;;
  perform (Print (PStats start_stats)) ;;
  perform (TFTrainer_train trainer) ;;
  perform (TFTrainer_train trainer) ;;
  end_stats <- perform (TFTrainer_validate trainer) ;;
  perform (Print (PStats end_stats)) ;;
  perform (Print (PFormat "dLoss: {dloss}, dMSE: {dmse}"
                          [VFloat (dloss start_stats end_stats);
                           VFloat (dmse start_stats end_stats)])) ;;
  if loss_increased start_stats end_stats
  then perform (Print (PText sanity_failed))
  else perform (Print (PText sanity_passed)).

(** The body of the loop in [train_diamonds_mlflow]:
    [train_stats = trainer.train()
     if i % 2 == 0:
         val_stats = trainer.validate()
         client.log_metric(ml_run.info.run_id, "validation_loss",
                           val_stats["validation_loss"], step=i)
         client.log_metric(ml_run.info.run_id, "training_loss",
                           train_stats["train_loss"], step=i)] *)
Definition mlflow_step (trainer : nat) (run_id : string) (i : Z) : prog unit :=
  train_stats <- perform (TFTrainer_train trainer) ;;
  if Z.eqb (i mod 2) 0
  then
    val_stats <- perform (TFTrainer_validate trainer) ;;
    perform (Client_log_metric run_id "validation_loss"
                               (validation_loss val_stats) i) ;;
    perform (Client_log_metric run_id "training_loss"
                               (train_loss train_stats) i)
  else Ret tt.

(** [def train_diamonds_mlflow(num_replicas=1, batch_size=128, use_gpu=False):
       trainer = TFTrainer(model_creator=diamonds_simple_model,
                           data_creator=diamonds_dataset, ..., verbose=False,
                           config=create_diamonds_config(batch_size))
       start_stats = trainer.validate()
       print(start_stats)
       ml_run = client.create_run(experiment_id)
       for i in range(32):
           ...
       client.set_terminated(ml_run.info.run_id)
       end_stats = trainer.validate()
       print(end_stats)]
    [experiment_id] is the notebook's global of that name. *)
Definition train_diamonds_mlflow (experiment_id : string)
           (num_replicas batch_size : Z) (use_gpu : bool) : prog unit :=
  config <- lift (create_diamonds_config batch_size) ;;
  trainer <- perform (TFTrainer "diamonds_simple_model" "diamonds_dataset"
                                num_replicas use_gpu false config) ;;
  start_stats <- perform (TFTrainer_validate trainer) ;;
  perform (Print (PStats start_stats)) ;;
  run_id <- perform (Client_create_run experiment_id) ;;
  for_each (range 32) (mlflow_step trainer run_id) ;;
  perform (Client_set_terminated run_id) ;;
  end_stats <- perform (TFTrainer_validate trainer) ;;
  perform (Print (PStats end_stats)).

(** The steps at which [train_diamonds_mlflow] logs: the even [i] of
    [range(32)]. *)
Definition logged_steps : list Z := filter (fun i => Z.eqb (i mod 2) 0) (range 32).

(** The metrics a pass over the steps [l] logs, by key and step. *)
Definition expected_metrics (l : list Z) : list (string * Z) :=
  flat_map (fun i => if Z.eqb (i mod 2) 0
                     then [("validation_loss", i); ("training_loss", i)]
                     else []) l.

(** [d] is the record of metric [m] in run [run_id], whatever its value. *)
Definition logged (run_id : string) (d : durable) (m : string * Z) : Prop :=
  exists v, d = MetricLogged run_id (fst m) v (snd m).

End Training.

(* ===================================================================== *)
(** ** Modeling notebook: the DQN cells *)
(* ===================================================================== *)

Module DQN.
Local Open Scope string_scope.

Definition SELECT_ENV : string := "CartPole-v1".
Definition N_ITER : nat := 50.
Definition checkpoint_dir : string := "checkpoints".
Definition fmt : string := "{:3d},{:8.4f},{:8.4f},{:8.4f}".

(** [config = dqn.DEFAULT_CONFIG.copy()
     config["log_level"] = "WARN"
     config['num_workers'] = 2
     config['model']['fcnet_hiddens'] = [40,20]
     config['num_cpus_per_worker'] = 0]
    [default_config] is the library's [DEFAULT_CONFIG]. *)
Definition dqn_config (default_config : value) : result value :=
  (config <- setitem default_config "log_level" (VStr "WARN") ;;
   config <- setitem config "num_workers" (VInt 2) ;;
   model <- getitem config "model" ;;
   model <- setitem model "fcnet_hiddens" (VList [VInt 40; VInt 20]) ;;
   config <- setitem config "model" model ;;
   setitem config "num_cpus_per_worker" (VInt 0))%result.

Local Open Scope prog_scope.

(** One iteration of the training loop:
    [result = trainer.train()
     min  = result['episode_reward_min']
     mean = result['episode_reward_mean']
     max  = result['episode_reward_max']
     last_checkpoint = trainer.save(checkpoint_dir)
     print(fmt.format(n, min, mean, max))] *)
Definition dqn_iteration (trainer : nat) (n : Z) (last_checkpoint : string)
  : prog string :=
  result <- perform (DQNTrainer_train trainer) ;;
  last_checkpoint <- perform (DQNTrainer_save trainer checkpoint_dir) ;;
  perform (Print (PFormat fmt [VInt n;
                               VFloat (episode_reward_min result);
                               VFloat (episode_reward_mean result);
                               VFloat (episode_reward_max result)])) ;;
  Ret last_checkpoint.

(** [trainer = dqn.DQNTrainer(config, SELECT_ENV)
     last_checkpoint = ''
     for n in range(N_ITER):
         ...
     print(f'last checkpoint file: {last_checkpoint}')] *)
Definition dqn_training (config : value) : prog string :=
  trainer <- perform (DQNTrainer config SELECT_ENV) ;;
  last_checkpoint <- for_each_with (range N_ITER) (dqn_iteration trainer) EmptyString ;;
  perform (Print (PFormat "last checkpoint file: {last_checkpoint}"
                          [VStr last_checkpoint])) ;;
  Ret last_checkpoint.

End DQN.

(* ===================================================================== *)
(** ** Ray Tune notebook: the training function *)
(* ===================================================================== *)

Module Tuning.
Import TuneRun.
Local Open Scope prog_scope.
Local Open Scope string_scope.

(** A point of the notebook's search space, as Tune passes it:
    [{"alpha": alpha, "beta": beta}] with a [float] and an [int]. *)
Definition tune_config (alpha : float) (beta : Z) : value :=
  VDict [("alpha", VFloat alpha); ("beta", VInt beta)].

(** [def training_function(config):
       alpha, beta = config["alpha"], config["beta"]
       for step in range(10):
           intermediate_score = objective(step, alpha, beta)
           tune.report(mean_loss=intermediate_score)]
    Only a [float] alpha and an [int] beta are modelled, the types of the
    notebook's search space. *)
Definition training_function (cpow : float -> float) (config : value) : prog unit :=
  a <- lift (getitem config "alpha") ;;
  b <- lift (getitem config "beta") ;;
  match a, b with
  | VFloat alpha, VInt beta =>
      for_each (range 10) (fun step =>
        intermediate_score <- lift (objective64 cpow step alpha beta) ;;
        perform (Tune_report intermediate_score))
  | _, _ => Raise (LibraryError "operand types outside the model")
  end.

Definition reports (e : event) : list float :=
  match e with
  | Event c (Ok _) =>
      match c with
      | Tune_report mean_loss => [mean_loss]
      | _ => []
      end
  | Event _ (Err _) => []
  end.

(** The losses a run reported to Tune, in order. *)
Definition reported (tr : list event) : list float := flat_map reports tr.

End Tuning.

(* ===================================================================== *)
(** ** Libraries for the examples *)
(* ===================================================================== *)

Module Example.
Local Open Scope string_scope.

(** A library that answers the [n]-th call with the loss [losses n] (in
    every statistic) and never raises; its state counts the calls. *)
Definition scripted (losses : nat -> float) : behaviour nat :=
  fun X c n =>
    (match c in call X return result X with
     | TFTrainer _ _ _ _ _ _ => Ok 0%nat
     | TFTrainer_validate _ =>
         Ok {| validation_loss := losses n;
               validation_mean_squared_error := losses n |}
     | TFTrainer_train _ => Ok {| train_loss := losses n |}
     | DQNTrainer _ _ => Ok 0%nat
     | DQNTrainer_train _ =>
         Ok {| episode_reward_min := losses n;
               episode_reward_mean := losses n;
               episode_reward_max := losses n |}
     | DQNTrainer_save _ dir => Ok (dir ++ "/checkpoint")
     | Client_create_run _ => Ok "run"
     | Client_log_metric _ _ _ _ => Ok tt
     | Client_set_terminated _ => Ok tt
     | Tune_report _ => Ok tt
     | Print _ => Ok tt
     end, S n).

(** The validation loss halves with every call, or doubles. *)
Definition improving : behaviour nat :=
  scripted (fun n => Z.ldexp 1%float (- Z.of_nat n)).

Definition worsening : behaviour nat :=
  scripted (fun n => Z.ldexp 1%float (Z.of_nat n)).

(** A library whose [validate] raises. *)
Definition broken : behaviour nat :=
  fun X c n =>
    match c in call X return result X * nat with
    | TFTrainer_validate _ => (Err (LibraryError "validate"), S n)
    | c' => scripted (fun _ => 0%float) _ c' n
    end.

End Example.

(* ===================================================================== *)
(** ** RaySGD notebook: the data creator and the plain diamonds training *)
(* ===================================================================== *)

Module Datasets.
Import RaySGD Numpy.

(** A [tf.data] pipeline as the notebook builds it: each constructor is one
    call of the [tf.data.Dataset] interface with its arguments.  The calls
    only describe the pipeline; TensorFlow evaluates it later. *)
Inductive dataset : Type :=
| from_tensor_slices (x y : ndarray)
| shuffle (buffer_size : Z) (d : dataset)
| repeat (d : dataset)
| batched (batch_size : Z) (d : dataset).

(** [d.batch(batch_size)].  TensorFlow turns the argument into an [int64]
    scalar and checks it when the call is made: a batch size that is not
    positive raises [InvalidArgumentError].  Only [int] batch sizes are
    modelled; for any other value, and for an [int] outside [int64], the
    call raises as well, with an exception the model does not name. *)
Definition batch (batch_size : value) (d : dataset) : result dataset :=
  match batch_size with
  | VInt n =>
      if (n <? - 2 ^ 63) || (2 ^ 63 <=? n)
      then Err (LibraryError "batch_size outside int64")
      else if n <=? 0 then Err (LibraryError "InvalidArgumentError")
      else Ok (batched n d)
  | _ => Err (LibraryError "batch_size is not an int")
  end.

(** [def simple_dataset(config):
       batch_size = config["batch_size"]
       x_train, y_train = linear_dataset(size=NUM_TRAIN_SAMPLES)
       x_test, y_test = linear_dataset(size=NUM_TEST_SAMPLES)
       train_dataset = tf.data.Dataset.from_tensor_slices((x_train, y_train))
       test_dataset = tf.data.Dataset.from_tensor_slices((x_test, y_test))
       train_dataset = train_dataset.shuffle(NUM_TRAIN_SAMPLES).repeat().batch(
           batch_size)
       test_dataset = test_dataset.repeat().batch(batch_size)
       return train_dataset, test_dataset] *)
Definition simple_dataset (config : value) (g : generator)
  : result (dataset * dataset) * generator :=
  match getitem config "batch_size" with
  | Err e => (Err e, g)
  | Ok batch_size =>
      match linear_dataset NUM_TRAIN_SAMPLES g with
      | (Err e, g1) => (Err e, g1)
      | (Ok (x_train, y_train), g1) =>
          match linear_dataset NUM_TEST_SAMPLES g1 with
          | (Err e, g2) => (Err e, g2)
          | (Ok (x_test, y_test), g2) =>
              let train_dataset := from_tensor_slices x_train y_train in
              let test_dataset := from_tensor_slices x_test y_test in
              (rbind (batch batch_size
                        (repeat (shuffle NUM_TRAIN_SAMPLES train_dataset)))
                 (fun train_dataset =>
               rbind (batch batch_size (repeat test_dataset))
                 (fun test_dataset =>
               Ok (train_dataset, test_dataset))), g2)
          end
      end
  end.

End Datasets.

Module Diamonds.
Import RaySGD.
Local Open Scope prog_scope.

(** [def train_diamonds(num_replicas=1, batch_size=128, use_gpu=False):
       trainer = TFTrainer(model_creator=diamonds_simple_model,
                           data_creator=diamonds_dataset,
                           num_replicas=num_replicas, use_gpu=use_gpu,
                           verbose=False,
                           config=create_diamonds_config(batch_size))
       start_stats = trainer.validate()
       print(start_stats)
       for i in range(32):
           trainer.train()
       end_stats = trainer.validate()
       print(end_stats)] *)
Definition train_diamonds (num_replicas batch_size : Z) (use_gpu : bool) : prog unit :=
  config <- lift (create_diamonds_config batch_size) ;;
  trainer <- perform (TFTrainer "diamonds_simple_model" "diamonds_dataset"
                                num_replicas use_gpu false config) ;;
  start_stats <- perform (TFTrainer_validate trainer) ;;
  perform (Print (PStats start_stats)) ;;
  for_each (range 32) (fun i => perform (TFTrainer_train trainer) ;; Ret tt) ;;
  end_stats <- perform (TFTrainer_validate trainer) ;;
  perform (Print (PStats end_stats)).

Definition is_tf_train (e : event) : bool :=
  match e with
  | Event c _ => match c with TFTrainer_train _ => true | _ => false end
  end.

Definition is_validate (e : event) : bool :=
  match e with
  | Event c _ => match c with TFTrainer_validate _ => true | _ => false end
  end.

(** The number of [trainer.train()] and of [trainer.validate()] invocations
    on a RaySGD trainer. *)
Definition tf_train_calls (tr : list event) : nat :=
  List.length (filter is_tf_train tr).

Definition validate_calls (tr : list event) : nat :=
  List.length (filter is_validate tr).

Definition is_metric (d : durable) : bool :=
  match d with
  | MetricLogged _ _ _ _ => true
  | _ => false
  end.

Definition is_terminated (d : durable) : bool :=
  match d with
  | RunTerminated _ => true
  | _ => false
  end.

Definition is_created (d : durable) : bool :=
  match d with
  | RunCreated _ _ => true
  | _ => false
  end.

(** The number of metric records a run sent to the tracking store, and
    whether it created and terminated an MLflow run. *)
Definition metrics_logged (tr : list event) : nat :=
  List.length (filter is_metric (persisted tr)).

Definition run_terminated (tr : list event) : bool :=
  existsb is_terminated (persisted tr).

Definition run_created (tr : list event) : bool :=
  existsb is_created (persisted tr).

(** A library for the examples: it answers like [Example.scripted] with
    constant losses, except that its call number [n] raises. *)
Definition failing_at (n : nat) : behaviour nat :=
  fun X c k =>
    if Nat.eqb k n then (Err (LibraryError "library call failed"), S k)
    else Example.scripted (fun _ => 1%float) X c k.

End Diamonds.

(* ===================================================================== *)
(** ** Who fixes an entity: the repository's code or a library *)
(* ===================================================================== *)

Module Entities.
Import Example.






End Entities.

(* ===================================================================== *)
(** ** The start script: values that cannot rebuild the placeholder *)
(* ===================================================================== *)

Module BinderValues.
Import Binder.

(** No character of [s] is a character of the placeholder (its capital
    letters and the underscore). *)
Definition foreign_char (c : ascii) : bool :=
  negb (existsb (Ascii.eqb c) PLACEHOLDER).

Definition foreign (s : text) : bool := forallb foreign_char s.




End BinderValues.

(* ===================================================================== *)
(** ** The configuration cells, with dictionaries as shared objects *)
(* ===================================================================== *)

(** [dict.copy()] is shallow: the copy is a new dictionary whose keys are
    bound to the same objects as the original's.  To follow the
    assignments of the configuration cells through the nested ["model"]
    dictionary, dictionaries are objects in a store and a dictionary
    inside another is a reference. *)
Module Store.
Local Open Scope string_scope.

(** What a key of a configuration is bound to.  [IRef a] is the
    dictionary at address [a] of the store; the other constructors are
    values that are not dictionaries. *)
Inductive item : Type :=
| IBool (b : bool)
| IInt (z : Z)
| IFloat (f : float)
| IStr (s : string)
| IList (items : list Z)
| IRef (address : nat).

Definition dict : Type := list (string * item).
Definition store : Type := list dict.

Fixpoint lookup (k : string) (d : dict) : option item :=
  match d with
  | [] => None
  | (k', v) :: rest => if String.eqb k k' then Some v else lookup k rest
  end.

(** An existing key keeps its place, a new key goes to the end. *)
Fixpoint update (k : string) (v : item) (d : dict) : dict :=
  match d with
  | [] => [(k, v)]
  | (k', v') :: rest =>
      if String.eqb k k' then (k, v) :: rest else (k', v') :: update k v rest
  end.

Fixpoint put (a : nat) (d : dict) (h : store) {struct h} : store :=
  match h with
  | [] => []
  | d0 :: rest =>
      match a with
      | O => d :: rest
      | S a' => d0 :: put a' d rest
      end
  end.

(** Statements run on the store and may raise; the store survives an
    exception. *)
Definition action (A : Type) : Type := store -> result A * store.

Definition ret {A : Type} (a : A) : action A := fun h => (Ok a, h).

Definition throw {A : Type} (e : exn) : action A := fun h => (Err e, h).

Definition and_then {A B : Type} (m : action A) (f : A -> action B) : action B :=
  fun h =>
    match m h with
    | (Ok a, h') => f a h'
    | (Err e, h') => (Err e, h')
    end.

Declare Scope store_scope.
Delimit Scope store_scope with store.
Notation "x <- m ;; k" := (and_then m (fun x => k))
  (at level 61, m at next level, right associativity) : store_scope.
Notation "m ;; k" := (and_then m (fun _ => k))
  (at level 61, right associativity) : store_scope.
Local Open Scope store_scope.

(** The dictionary at an address.  Python has no dangling reference: an
    address that the store does not hold is an error of the caller, and
    the theorems below assume the addresses they use are held. *)
Definition fetch (a : nat) : action dict :=
  fun h =>
    match nth_error h a with
    | Some d => (Ok d, h)
    | None => (Err (LibraryError "dangling reference"), h)
    end.

(** [d.copy()] *)
Definition copy (a : nat) : action nat :=
  d <- fetch a ;;
  fun h => (Ok (List.length h), h ++ [d])%list.

(** [d[k]] *)
Definition getitem (a : nat) (k : string) : action item :=
  d <- fetch a ;;
  match lookup k d with
  | Some v => ret v
  | None => throw (KeyError k)
  end.

(** [d[k] = v] *)
Definition setitem (a : nat) (k : string) (v : item) : action unit :=
  d <- fetch a ;;
  fun h => (Ok tt, put a (update k v d) h).

(** The object an expression evaluated to, about to be subscripted with a
    string: anything but a dictionary raises [TypeError]. *)
Definition subscriptable (v : item) : action nat :=
  match v with
  | IRef a => ret a
  | _ => throw (LibraryError "TypeError")
  end.

(** [d[k1][k2]] *)
Definition getitem2 (a : nat) (k1 k2 : string) : action item :=
  inner <- getitem a k1 ;;
  m <- subscriptable inner ;;
  getitem m k2.

(** [config = ppo.DEFAULT_CONFIG.copy()]
    ([dqn.DEFAULT_CONFIG.copy()] in the modeling notebook)
    [config["log_level"] = "WARN"
     config['num_workers'] = 2
     config['model']['fcnet_hiddens'] = [40,20]
     config['num_cpus_per_worker'] = 0]
    [DEFAULT_CONFIG] is the address of the library's dictionary; the
    result is the address bound to [config]. *)
Definition config_cell (DEFAULT_CONFIG : nat) : action nat :=
  config <- copy DEFAULT_CONFIG ;;
  setitem config "log_level" (IStr "WARN") ;;
  setitem config "num_workers" (IInt 2) ;;
  model <- getitem config "model" ;;
  model <- subscriptable model ;;
  setitem model "fcnet_hiddens" (IList [40; 20]) ;;
  setitem config "num_cpus_per_worker" (IInt 0) ;;
  ret config.

(** The dictionary that the three assignments to [config] itself make of
    a copy of [dflt]. *)
Definition configured (dflt : dict) : dict :=
  update "num_cpus_per_worker" (IInt 0)
    (update "num_workers" (IInt 2) (update "log_level" (IStr "WARN") dflt)).

(** A store for the examples: the library's defaults at address 0, their
    ["model"] dictionary at address 1. *)
Definition sample_store : store :=
  [ [("num_workers", IInt 0); ("log_level", IStr "INFO"); ("model", IRef 1);
     ("lr", IFloat 0.0005%float)];
    [("fcnet_hiddens", IList [256; 256]); ("fcnet_activation", IStr "tanh")] ].

End Store.

(* ===================================================================== *)
(** * Part II: theorems *)
(* ===================================================================== *)

Module TuneFacts.
Import Tune TuneRun.

(** *** Exact arithmetic *)

Lemma denominatorQ_eq (step : Z) (alpha : Q) :
  denominatorQ step alpha
  = Ok ((1 # 10) + alpha * inject_Z step / inject_Z 100)%Q.
Proof. reflexivity. Qed.

Lemma denominatorQ_pos (step : Z) (alpha : Q) :
  (0 < alpha)%Q -> 0 <= step ->
  (0 < (1 # 10) + alpha * inject_Z step / inject_Z 100)%Q.
Proof.
  intros Ha Hs.
  assert (Hstep : (0 <= inject_Z step)%Q)
    by (unfold Qle; simpl; lia).
  assert (Hq : (0 <= alpha * inject_Z step / inject_Z 100)%Q).
  { apply Qle_shift_div_l; [reflexivity|].
    rewrite Qmult_0_l. apply Qmult_le_0_compat; [apply Qlt_le_weak|]; assumption. }
  apply Qlt_le_trans with (y := ((1 # 10) + 0)%Q); [reflexivity|].
  apply Qplus_le_r. exact Hq.
Qed.

Lemma denominatorQ_mono (s1 s2 : Z) (alpha : Q) :
  (0 < alpha)%Q -> s1 < s2 ->
  ((1 # 10) + alpha * inject_Z s1 / inject_Z 100
   < (1 # 10) + alpha * inject_Z s2 / inject_Z 100)%Q.
Proof.
  intros Ha Hs.
  apply Qplus_lt_r.
  apply Qmult_lt_compat_r; [reflexivity|].
  apply Qmult_lt_l; [assumption|].
  unfold Qlt; simpl; lia.
Qed.

Lemma objectiveQ_eq (step : Z) (alpha : Q) (beta : Z) (d : Q) :
  denominatorQ step alpha = Ok d -> (0 < d)%Q ->
  objectiveQ step alpha beta = Ok (/ d + inject_Z beta * (1 # 10))%Q.
Proof.
  intros Hd Hpos. unfold objectiveQ, objective.
  unfold denominatorQ in Hd. rewrite Hd. simpl. unfold Exact.pow_neg1.
  destruct (Qeq_bool d 0) eqn:E; [|reflexivity].
  apply Qeq_bool_iff in E. rewrite E in Hpos. discriminate Hpos.
Qed.

(** *** binary64 *)

Lemma SFcompare_refl_not_Lt (f : spec_float) : SFcompare f f <> Some Lt.
Proof.
  destruct f as [s|s| |s m e]; simpl; try destruct s; try discriminate.
  - rewrite Z.compare_refl, Pos.compare_cont_refl. discriminate.
  - rewrite Z.compare_refl, Pos.compare_cont_refl. discriminate.
Qed.

Lemma ltb_irrefl (x : float) : PrimFloat.ltb x x = false.
Proof.
  rewrite ltb_spec. unfold SFltb.
  pose proof (SFcompare_refl_not_Lt (Prim2SF x)) as H.
  destruct (SFcompare (Prim2SF x) (Prim2SF x)) as [[ | | ]|]; congruence.
Qed.

(** [objective] consults the C library only through the value of [cpow]
    at the denominator. *)
Lemma objective64_eq (cpow : float -> float) (step : Z) (alpha : float) (beta : Z) :
  objective64 cpow step alpha beta
  = rbind (denominator64 step alpha) (fun d =>
    rbind (Float64.pow_neg1 cpow d) (fun r =>
    rbind (Float64.of_int beta) (fun b =>
    Ok (PrimFloat.add r (PrimFloat.mul b 0.1%float))))).
Proof. reflexivity. Qed.

Lemma pow_neg1_regular (cpow : float -> float) (d : float) :
  regular d = true -> is_infinity (cpow d) = false ->
  Float64.pow_neg1 cpow d = Ok (cpow d).
Proof.
  unfold regular, Float64.pow_neg1. intros Hr Hi.
  repeat (apply andb_prop in Hr; destruct Hr as [Hr ?]).
  destruct (is_nan d); [discriminate|].
  destruct (is_infinity d); [discriminate|].
  destruct (PrimFloat.eqb d 0%float); [discriminate|].
  rewrite Hi. reflexivity.
Qed.

Lemma grid_check_true : grid_check = true.
Proof. vm_compute. reflexivity. Qed.

Lemma cell_check_sound (cpow : float -> float) (alpha : float) (beta s1 s2 : Z) :
  Float64.faithful_pow cpow ->
  cell_check alpha beta s1 s2 = true ->
  exists d1 d2 v1 v2,
    denominator64 s1 alpha = Ok d1 /\ PrimFloat.ltb 0%float d1 = true /\
    denominator64 s2 alpha = Ok d2 /\ PrimFloat.ltb 0%float d2 = true /\
    objective64 cpow s1 alpha beta = Ok v1 /\
    objective64 cpow s2 alpha beta = Ok v2 /\
    PrimFloat.ltb v2 v1 = true.
Proof.
  intros Hpow Hc. unfold cell_check in Hc.
  destruct (denominator64 s1 alpha) as [d1|] eqn:E1; [|discriminate].
  destruct (denominator64 s2 alpha) as [d2|] eqn:E2; [|discriminate].
  destruct (Float64.of_int beta) as [b|] eqn:Eb; [|discriminate].
  apply andb_prop in Hc. destruct Hc as [Hreg Hall].
  apply andb_prop in Hreg. destruct Hreg as [Hr1 Hr2].
  assert (Hd : forall d, regular d = true ->
             PrimFloat.ltb 0%float d = true /\ PrimFloat.ltb d infinity = true).
  { intros d Hr. unfold regular in Hr.
    apply andb_prop in Hr. destruct Hr as [Hr Hfin].
    apply andb_prop in Hr. destruct Hr as [_ Hpos]. split; assumption. }
  destruct (Hd d1 Hr1) as [Hp1 Hf1]. destruct (Hd d2 Hr2) as [Hp2 Hf2].
  rewrite forallb_forall in Hall.
  specialize (Hall (cpow d1) (Hpow d1 Hp1 Hf1)).
  rewrite forallb_forall in Hall.
  specialize (Hall (cpow d2) (Hpow d2 Hp2 Hf2)).
  apply andb_prop in Hall. destruct Hall as [Hinf Hlt].
  apply andb_prop in Hinf. destruct Hinf as [Hi1 Hi2].
  apply negb_true_iff in Hi1. apply negb_true_iff in Hi2.
  exists d1, d2.
  exists (PrimFloat.add (cpow d1) (PrimFloat.mul b 0.1%float)).
  exists (PrimFloat.add (cpow d2) (PrimFloat.mul b 0.1%float)).
  rewrite !objective64_eq, E1, E2. simpl.
  rewrite (pow_neg1_regular cpow d1 Hr1 Hi1), (pow_neg1_regular cpow d2 Hr2 Hi2).
  simpl. rewrite Eb. simpl. repeat split; assumption.
Qed.

(** The two runs that refute strict decrease: with [alpha = 1e-300] the
    term [alpha * step / 100] is absorbed by [0.1], so steps 0 and 1 have
    the same denominator. *)
Lemma denominator64_absorbed :
  denominator64 0 1e-300%float = Ok 0.1%float /\
  denominator64 1 1e-300%float = Ok 0.1%float.
Proof. split; vm_compute; reflexivity. Qed.

(** C5, as stated, fails on binary64: whatever the C library answers for
    [pow], [objective(1, 1e-300, 1)] is not below [objective(0, 1e-300, 1)],
    although [alpha > 0] and [0 <= 0 < 1]. *)
Lemma objective_not_strictly_decreasing :
  ~ exists cpow : float -> float,
      forall (alpha : float) (beta s1 s2 : Z),
        PrimFloat.ltb 0%float alpha = true -> 0 <= s1 < s2 ->
        exists v1 v2,
          objective64 cpow s1 alpha beta = Ok v1 /\
          objective64 cpow s2 alpha beta = Ok v2 /\
          PrimFloat.ltb v2 v1 = true.
Proof.
  intros [cpow Hclaim].
  destruct (Hclaim 1e-300%float 1 0 1) as (v1 & v2 & H1 & H2 & Hlt).
  - vm_compute. reflexivity.
  - lia.
  - rewrite objective64_eq in H1, H2.
    destruct denominator64_absorbed as [D0 D1].
    rewrite D0 in H1. rewrite D1 in H2.
    rewrite H1 in H2. injection H2 as ->.
    rewrite ltb_irrefl in Hlt. discriminate.
Qed.

(** C5 (amended).  Read over exact rationals, [objective] is strictly
    decreasing in the step for every [alpha > 0] and every [beta], and its
    denominator is positive, so the power never raises.  On binary64, where
    the notebook runs it, the same holds for the hyperparameters and steps
    the notebook uses (alpha in [0.001, 0.01, 0.1], beta in [1, 2, 3],
    steps of [range(10)]), for every C library whose [pow] errs by less
    than one unit in the last place. *)
Theorem objective_strictly_decreasing :
  (forall (alpha : Q) (beta s1 s2 : Z),
      (0 < alpha)%Q -> 0 <= s1 < s2 ->
      exists d1 d2 v1 v2 : Q,
        denominatorQ s1 alpha = Ok d1 /\ (0 < d1)%Q /\
        denominatorQ s2 alpha = Ok d2 /\ (0 < d2)%Q /\
        objectiveQ s1 alpha beta = Ok v1 /\
        objectiveQ s2 alpha beta = Ok v2 /\
        (v2 < v1)%Q)
  /\
  (forall (cpow : float -> float) (alpha : float) (beta s1 s2 : Z),
      Float64.faithful_pow cpow ->
      In alpha alpha_grid -> In beta beta_choices ->
      In s1 steps -> In s2 steps -> s1 < s2 ->
      exists d1 d2 v1 v2 : float,
        denominator64 s1 alpha = Ok d1 /\ PrimFloat.ltb 0%float d1 = true /\
        denominator64 s2 alpha = Ok d2 /\ PrimFloat.ltb 0%float d2 = true /\
        objective64 cpow s1 alpha beta = Ok v1 /\
        objective64 cpow s2 alpha beta = Ok v2 /\
        PrimFloat.ltb v2 v1 = true).
Proof.
  split.
  - intros alpha beta s1 s2 Ha [Hs1 Hs12].
    pose proof (denominatorQ_pos s1 alpha Ha Hs1) as P1.
    pose proof (denominatorQ_pos s2 alpha Ha ltac:(lia)) as P2.
    pose proof (denominatorQ_mono s1 s2 alpha Ha Hs12) as M.
    eexists; eexists; eexists; eexists.
    split; [apply denominatorQ_eq|]. split; [exact P1|].
    split; [apply denominatorQ_eq|]. split; [exact P2|].
    split; [apply objectiveQ_eq; [apply denominatorQ_eq | exact P1]|].
    split; [apply objectiveQ_eq; [apply denominatorQ_eq | exact P2]|].
    apply Qplus_lt_l.
    apply -> Qinv_lt_contravar; assumption.
  - intros cpow alpha beta s1 s2 Hpow Ha Hb H1 H2 Hlt.
    apply cell_check_sound; [assumption|].
    pose proof grid_check_true as G. unfold grid_check in G.
    rewrite forallb_forall in G. specialize (G alpha Ha).
    rewrite forallb_forall in G. specialize (G beta Hb).
    rewrite forallb_forall in G. specialize (G s1 H1).
    rewrite forallb_forall in G. specialize (G s2 H2).
    apply Z.ltb_lt in Hlt. rewrite Hlt in G. exact G.
Qed.

(** The correctly rounded reciprocal is one admissible [pow]. *)
Lemma recip_faithful : Float64.faithful_pow Float64.recip.
Proof. intros x _ _. right. left. reflexivity. Defined.

(** Witness for C5: [alpha = 1/1000], [beta = 2], steps 3 and 7 over the
    rationals; [alpha = 0.01], [beta = 2], steps 3 and 7 on binary64. *)
Lemma objective_strictly_decreasing_witness :
  (exists d1 d2 v1 v2 : Q,
      denominatorQ 3 (1 # 1000) = Ok d1 /\ (0 < d1)%Q /\
      denominatorQ 7 (1 # 1000) = Ok d2 /\ (0 < d2)%Q /\
      objectiveQ 3 (1 # 1000) 2 = Ok v1 /\
      objectiveQ 7 (1 # 1000) 2 = Ok v2 /\ (v2 < v1)%Q)
  /\
  (exists d1 d2 v1 v2 : float,
      denominator64 3 0.01%float = Ok d1 /\ PrimFloat.ltb 0%float d1 = true /\
      denominator64 7 0.01%float = Ok d2 /\ PrimFloat.ltb 0%float d2 = true /\
      objective64 Float64.recip 3 0.01%float 2 = Ok v1 /\
      objective64 Float64.recip 7 0.01%float 2 = Ok v2 /\
      PrimFloat.ltb v2 v1 = true).
Proof.
  split.
  - apply (proj1 objective_strictly_decreasing (1 # 1000)%Q 2 3 7).
    + reflexivity.
    + lia.
  - apply (proj2 objective_strictly_decreasing Float64.recip 0.01%float 2 3 7).
    + exact recip_faithful.
    + simpl. right. left. reflexivity.
    + simpl. right. left. reflexivity.
    + simpl. do 3 right. left. reflexivity.
    + simpl. do 7 right. left. reflexivity.
    + lia.
Defined.

End TuneFacts.

(* ===================================================================== *)
(** ** The configuration builders *)
(* ===================================================================== *)

Module ConfigFacts.
Import RaySGD.
Local Open Scope string_scope.

Lemma floordiv_nonzero (a b : Z) : b <> 0 -> floordiv a b = Ok (a / b).
Proof.
  intros Hb. unfold floordiv.
  destruct (Z.eqb_spec b 0) as [E|_]; [contradiction|reflexivity].
Qed.

Lemma floordiv_zero (a : Z) : floordiv a 0 = Err ZeroDivisionError.
Proof. reflexivity. Qed.

(** [floordiv] is Python's [//]: the remainder it leaves has the sign of
    the divisor and is smaller in magnitude. *)
Lemma floordiv_floor (a b q : Z) :
  floordiv a b = Ok q ->
  exists r, a = b * q + r /\ (0 <= r < b \/ b < r <= 0).
Proof.
  unfold floordiv. destruct (Z.eqb_spec b 0) as [E|Hb]; [discriminate|].
  intros [= <-]. exists (a mod b). split.
  - apply Z.div_mod. exact Hb.
  - destruct (Z.lt_ge_cases 0 b) as [Hpos|Hneg].
    + left. apply Z.mod_pos_bound. exact Hpos.
    + right. apply Z.mod_neg_bound. lia.
Qed.

Lemma create_config_eq (batch_size : Z) :
  batch_size <> 0 ->
  create_config batch_size
  = Ok (VDict [ ("batch_size", VInt batch_size);
                ("fit_config", VDict [("steps_per_epoch", VInt (1000 / batch_size))]);
                ("evaluate_config", VDict [("steps", VInt (400 / batch_size))]) ]).
Proof.
  intros Hb. unfold create_config, NUM_TRAIN_SAMPLES, NUM_TEST_SAMPLES.
  rewrite !floordiv_nonzero by exact Hb. reflexivity.
Qed.

Lemma create_diamonds_config_eq (batch_size : Z) :
  batch_size <> 0 ->
  create_diamonds_config batch_size
  = Ok (VDict [ ("batch_size", VInt batch_size);
                ("fit_config", VDict [("steps_per_epoch", VInt (40000 / batch_size))]);
                ("evaluate_config", VDict [("steps", VInt (13940 / batch_size))]) ]).
Proof.
  intros Hb. unfold create_diamonds_config.
  rewrite !floordiv_nonzero by exact Hb. reflexivity.
Qed.

(** C8.  For a nonzero [batch_size] both builders return a dictionary whose
    [fit_config.steps_per_epoch] and [evaluate_config.steps] are the floor
    quotients of 1000 and 400 (respectively 40000 and 13940) by
    [batch_size]; no division by zero is reached.  For [batch_size = 0]
    both raise [ZeroDivisionError]. *)
Theorem create_config_steps (batch_size : Z) :
  batch_size <> 0 ->
  (exists cfg,
      create_config batch_size = Ok cfg /\
      getitem2 cfg "fit_config" "steps_per_epoch" = Ok (VInt (1000 / batch_size)) /\
      getitem2 cfg "evaluate_config" "steps" = Ok (VInt (400 / batch_size))) /\
  (exists cfg,
      create_diamonds_config batch_size = Ok cfg /\
      getitem2 cfg "fit_config" "steps_per_epoch" = Ok (VInt (40000 / batch_size)) /\
      getitem2 cfg "evaluate_config" "steps" = Ok (VInt (13940 / batch_size))) /\
  create_config 0 = Err ZeroDivisionError /\
  create_diamonds_config 0 = Err ZeroDivisionError.
Proof.
  intros Hb. repeat split.
  - eexists. split; [apply create_config_eq; exact Hb|]. split; reflexivity.
  - eexists. split; [apply create_diamonds_config_eq; exact Hb|]. split; reflexivity.
Qed.

(** Witness for C8 at the notebooks' default, [batch_size = 128]:
    7 and 3 steps for the toy data, 312 and 108 for the diamonds. *)
Lemma create_config_steps_witness :
  (exists cfg,
      create_config 128 = Ok cfg /\
      getitem2 cfg "fit_config" "steps_per_epoch" = Ok (VInt 7) /\
      getitem2 cfg "evaluate_config" "steps" = Ok (VInt 3)) /\
  (exists cfg,
      create_diamonds_config 128 = Ok cfg /\
      getitem2 cfg "fit_config" "steps_per_epoch" = Ok (VInt 312) /\
      getitem2 cfg "evaluate_config" "steps" = Ok (VInt 108)) /\
  create_config 0 = Err ZeroDivisionError /\
  create_diamonds_config 0 = Err ZeroDivisionError.
Proof. apply (create_config_steps 128). lia. Defined.

End ConfigFacts.

(* ===================================================================== *)
(** ** [linear_dataset] *)
(* ===================================================================== *)

Module NumpyFacts.
Import Numpy.

Lemma firstn_one_skipn {A : Type} (l : list A) (i : nat) (d : A) :
  (i < List.length l)%nat -> firstn 1 (skipn i l) = [nth i l d].
Proof.
  revert i. induction l as [|a l IH]; intros i Hi; simpl in Hi.
  - lia.
  - destruct i as [|i]; simpl.
    + reflexivity.
    + apply IH. lia.
Qed.

Lemma of_int_two : Float64.of_int 2 = Ok 2%float.
Proof. vm_compute. reflexivity. Qed.

Lemma rand_ok (size : Z) (g : generator) :
  0 <= size ->
  rand size g
  = (Ok {| shape := [size];
           data := map (samples g) (seq (consumed g) (Z.to_nat size)) |},
     {| samples := samples g; consumed := (consumed g + Z.to_nat size)%nat |}).
Proof.
  intros Hs. unfold rand.
  destruct (Z.ltb_spec size 0) as [Hneg|_]; [lia|reflexivity].
Qed.

(** A column: [reshape((-1, 1))] of [n] elements has shape [(n, 1)]. *)
Lemma reshape_rows_one (a : ndarray) :
  reshape_rows a 1
  = Ok {| shape := [Z.of_nat (List.length (data a)); 1]; data := data a |}.
Proof.
  unfold reshape_rows. simpl (1 <=? 0).
  rewrite Z.mod_1_r, Z.div_1_r. reflexivity.
Qed.

(** Row [i] of a column is its [i]-th element. *)
Lemma row_column (l : list float) (i : Z) :
  0 <= i < Z.of_nat (List.length l) ->
  row {| shape := [Z.of_nat (List.length l); 1]; data := l |} i
  = Ok [nth (Z.to_nat i) l 0%float].
Proof.
  intros [Hlo Hhi]. unfold row. simpl shape.
  destruct (Z.ltb_spec i 0) as [Hneg|_]; [lia|].
  destruct (Z.leb_spec 0 i) as [_|Hneg]; [|lia].
  destruct (Z.ltb_spec i (Z.of_nat (List.length l))) as [_|Hge]; [|lia].
  simpl andb. cbv iota. rewrite Z.mul_1_r.
  change (Z.to_nat 1) with 1%nat. simpl data.
  rewrite (firstn_one_skipn l (Z.to_nat i) 0%float) by lia.
  reflexivity.
Qed.

Lemma linear_dataset_eq (size : Z) (g : generator) :
  0 <= size ->
  let xs := map (samples g) (seq (consumed g) (Z.to_nat size)) in
  linear_dataset size g
  = (Ok ({| shape := [size; 1]; data := xs |},
         {| shape := [size; 1]; data := map (PrimFloat.mul 2%float) xs |}),
     {| samples := samples g; consumed := (consumed g + Z.to_nat size)%nat |}).
Proof.
  intros Hs xs. unfold linear_dataset. rewrite (rand_ok size g Hs). fold xs.
  unfold scalar_mul. rewrite of_int_two. simpl rbind.
  rewrite !reshape_rows_one. simpl rbind. simpl data.
  rewrite length_map. unfold xs at 1 3. rewrite length_map, length_seq.
  rewrite Z2Nat.id by exact Hs. reflexivity.
Qed.

(** C3.  For every [size >= 0], [linear_dataset(size)] returns two arrays
    of shape [(size, 1)], and row [i] of [y] is twice row [i] of [x] for
    every [0 <= i < size], whatever the generator draws. *)
Theorem linear_dataset_law (size : Z) (g : generator) :
  0 <= size ->
  exists x y g',
    linear_dataset size g = (Ok (x, y), g') /\
    shape x = [size; 1] /\ shape y = [size; 1] /\
    forall i, 0 <= i < size ->
      exists xi, row x i = Ok [xi] /\ row y i = Ok [PrimFloat.mul 2%float xi].
Proof.
  intros Hs. eexists. eexists. eexists.
  split; [apply linear_dataset_eq; exact Hs|].
  split; [reflexivity|]. split; [reflexivity|].
  intros i Hi.
  set (xs := map (samples g) (seq (consumed g) (Z.to_nat size))).
  assert (Hlen : Z.of_nat (List.length xs) = size).
  { unfold xs. rewrite length_map, length_seq. apply Z2Nat.id. exact Hs. }
  exists (nth (Z.to_nat i) xs 0%float). split.
  - rewrite <- Hlen at 1. apply row_column. rewrite Hlen. exact Hi.
  - assert (Hlen2 : Z.of_nat (List.length (map (PrimFloat.mul 2%float) xs)) = size)
      by (rewrite length_map; exact Hlen).
    rewrite <- Hlen2 at 1. rewrite row_column by (rewrite Hlen2; exact Hi).
    f_equal. f_equal.
    rewrite (nth_indep _ 0%float (PrimFloat.mul 2%float 0%float))
      by (rewrite length_map; lia).
    apply map_nth.
Qed.

(** Witness for C3: three samples of the alternating generator. *)
Lemma linear_dataset_law_witness :
  exists x y g',
    linear_dataset 3 alternating = (Ok (x, y), g') /\
    shape x = [3; 1] /\ shape y = [3; 1] /\
    forall i, 0 <= i < 3 ->
      exists xi, row x i = Ok [xi] /\ row y i = Ok [PrimFloat.mul 2%float xi].
Proof. apply (linear_dataset_law 3 alternating). lia. Defined.

End NumpyFacts.

(* ===================================================================== *)
(** ** The [sed] line of the start script *)
(* ===================================================================== *)

Module BinderFacts.
Import Binder.

(** *** Prefixes *)

Lemma strip_prefix_app (p s : text) : strip_prefix p (p ++ s) = Some s.
Proof.
  induction p as [|a p IH]; simpl.
  - destruct s; reflexivity.
  - rewrite Ascii.eqb_refl. exact IH.
Qed.

Lemma strip_prefix_Some (p s r : text) :
  strip_prefix p s = Some r -> s = p ++ r.
Proof.
  revert s. induction p as [|a p IH]; intros s H.
  - destruct s; simpl in H; injection H as <-; reflexivity.
  - destruct s as [|b s]; simpl in H; [discriminate|].
    destruct (Ascii.eqb_spec a b) as [->|_]; [|discriminate].
    simpl. f_equal. apply IH. exact H.
Qed.

Lemma strip_prefix_None (p s : text) :
  strip_prefix p s = None -> forall r, s <> p ++ r.
Proof.
  intros H r E. subst s. rewrite strip_prefix_app in H. discriminate.
Qed.

(** *** Parsing the replacement *)

Lemma plain_app (a b : text) : plain (a ++ b) = plain a && plain b.
Proof. apply forallb_app. Qed.

Lemma parse_replacement_plain (s tail : text) :
  plain s = true ->
  parse_replacement "|"%char (s ++ "|"%char :: tail) = Some (map Lit s, tail).
Proof.
  induction s as [|c s IH]; intros Hp.
  - reflexivity.
  - simpl in Hp. apply andb_prop in Hp. destruct Hp as [Hc Hs].
    unfold plain_char in Hc. apply negb_true_iff in Hc.
    apply orb_false_elim in Hc. destruct Hc as [Hc Hnl].
    apply orb_false_elim in Hc. destruct Hc as [Hc Hbs].
    apply orb_false_elim in Hc. destruct Hc as [Hbar Hamp].
    simpl. rewrite Hbar, Hnl, Hamp, Hbs. rewrite (IH Hs). reflexivity.
Qed.

Lemma instantiate_literal (s matched : text) : instantiate (map Lit s) matched = s.
Proof.
  unfold instantiate. induction s as [|c s IH]; simpl; [|rewrite IH]; reflexivity.
Qed.

Lemma proxy_location_plain (env : environment) :
  plain (expand env "JUPYTERHUB_BASE_URL") = true ->
  plain (expand env "JUPYTERHUB_USER") = true ->
  plain (proxy_location env) = true.
Proof.
  intros Hb Hu. unfold proxy_location.
  rewrite !plain_app, Hb, Hu. reflexivity.
Qed.

(** *** The scan *)

Section Scan.
Variable pat : text.
Variable items : list ritem.
Hypothesis pat_nonempty : pat <> [].

Let G := substitute pat items true.

Lemma strip_prefix_shorter (c : ascii) (tl rest : text) :
  strip_prefix pat (c :: tl) = Some rest -> (List.length rest <= List.length tl)%nat.
Proof.
  intros H. apply strip_prefix_Some in H.
  destruct pat as [|a p]; [contradiction|].
  simpl in H. injection H as _ ->. rewrite length_app. lia.
Qed.

Lemma substitute_fuel_enough (f1 f2 : nat) (line : text) :
  (List.length line <= f1)%nat -> (List.length line <= f2)%nat ->
  substitute_fuel f1 pat items true line = substitute_fuel f2 pat items true line.
Proof.
  revert f2 line. induction f1 as [|f1 IH]; intros f2 line H1 H2.
  - destruct line; [|simpl in H1; lia]. destruct f2; reflexivity.
  - destruct f2 as [|f2].
    + destruct line; [reflexivity|simpl in H2; lia].
    + destruct line as [|c tl]; [reflexivity|].
      simpl in H1, H2. cbn [substitute_fuel].
      destruct (strip_prefix pat (c :: tl)) as [rest|] eqn:E.
      * pose proof (strip_prefix_shorter c tl rest E).
        f_equal. apply IH; lia.
      * f_equal. apply IH; lia.
Qed.

Lemma G_match (line rest : text) :
  line <> [] -> strip_prefix pat line = Some rest ->
  G line = instantiate items pat ++ G rest.
Proof.
  intros Hne E. destruct line as [|c tl]; [contradiction|].
  unfold G, substitute. cbn [List.length substitute_fuel]. rewrite E.
  f_equal. apply substitute_fuel_enough; [|lia].
  apply (strip_prefix_shorter c tl rest E).
Qed.

Lemma G_step (c : ascii) (tl : text) :
  strip_prefix pat (c :: tl) = None -> G (c :: tl) = c :: G tl.
Proof.
  intros E. unfold G, substitute. cbn [List.length substitute_fuel]. rewrite E.
  reflexivity.
Qed.

Lemma G_pat_app (rest : text) : G (pat ++ rest) = instantiate items pat ++ G rest.
Proof.
  apply G_match.
  - destruct pat; [contradiction|discriminate].
  - apply strip_prefix_app.
Qed.

Lemma not_occurs_nil : ~ occurs pat [].
Proof.
  intros (pre & post & E). symmetry in E.
  apply app_eq_nil in E. destruct E as [_ E].
  apply app_eq_nil in E. destruct E as [E _]. contradiction.
Qed.

(** The scan cuts the text at the matches: the pieces between them are
    copied, each match is replaced, and no piece contains the pattern. *)
Lemma G_decomposition (n : nat) (s : text) :
  (List.length s <= n)%nat ->
  exists first more,
    s = join pat first more /\
    G s = join (instantiate items pat) first more /\
    Forall (fun piece => ~ occurs pat piece) (first :: more).
Proof.
  revert s. induction n as [|n IH]; intros s Hn.
  - destruct s; [|simpl in Hn; lia].
    exists [], []. repeat split. constructor; [apply not_occurs_nil|constructor].
  - destruct s as [|c tl].
    + exists [], []. repeat split. constructor; [apply not_occurs_nil|constructor].
    + simpl in Hn. destruct (strip_prefix pat (c :: tl)) as [rest|] eqn:E.
      * pose proof (strip_prefix_shorter c tl rest E) as Hlen.
        destruct (IH rest ltac:(lia)) as (first & more & Hs & HG & Hfree).
        exists [], (first :: more). split; [|split].
        -- apply strip_prefix_Some in E. rewrite E, Hs at 1.
           unfold join. simpl. rewrite <- app_assoc. reflexivity.
        -- rewrite (G_match (c :: tl) rest ltac:(discriminate) E), HG.
           unfold join. simpl. rewrite <- app_assoc. reflexivity.
        -- constructor; [apply not_occurs_nil|exact Hfree].
      * destruct (IH tl ltac:(lia)) as (first & more & Hs & HG & Hfree).
        exists (c :: first), more. split; [|split].
        -- rewrite Hs at 1. reflexivity.
        -- rewrite (G_step c tl E), HG. reflexivity.
        -- pose proof (Forall_inv Hfree) as Hfirst.
           pose proof (Forall_inv_tail Hfree) as Hmore.
           constructor; [|exact Hmore].
           intros (pre & post & Hocc). destruct pre as [|a pre].
           ++ simpl in Hocc.
              apply (strip_prefix_None pat (c :: tl) E
                       (post ++ flat_map (fun p => pat ++ p) more)).
              rewrite Hs. unfold join. rewrite app_comm_cons, Hocc.
              rewrite <- app_assoc. reflexivity.
           ++ simpl in Hocc. injection Hocc as _ Hocc.
              apply Hfirst. exists pre, post. exact Hocc.
Qed.

(** *** Line by line *)

Hypothesis pat_one_line : ~ In newline pat.

Lemma lines_nonempty (s : text) : lines s <> [].
Proof.
  destruct s as [|c tl]; simpl; [discriminate|].
  destruct (Ascii.eqb c newline); [discriminate|].
  destruct (lines tl); discriminate.
Qed.

Lemma lines_cons (c : ascii) (tl l0 : text) (ls : list text) :
  c <> newline -> lines tl = l0 :: ls -> lines (c :: tl) = (c :: l0) :: ls.
Proof.
  intros Hc E. simpl. rewrite E.
  destruct (Ascii.eqb_spec c newline) as [->|_]; [contradiction|reflexivity].
Qed.

Lemma lines_app_one_line (p rest l0 : text) (ls : list text) :
  ~ In newline p -> lines rest = l0 :: ls -> lines (p ++ rest) = (p ++ l0) :: ls.
Proof.
  intros Hp E. induction p as [|a p IH]; [exact E|].
  simpl app. apply lines_cons.
  - intros ->. apply Hp. left. reflexivity.
  - apply IH. intros Hin. apply Hp. right. exact Hin.
Qed.

Lemma lines_head_prefix (s l0 : text) (ls : list text) :
  lines s = l0 :: ls -> exists t, s = l0 ++ t.
Proof.
  revert l0 ls. induction s as [|c tl IH]; intros l0 ls E; simpl in E.
  - injection E as <- _. exists []. reflexivity.
  - destruct (Ascii.eqb c newline).
    + injection E as <- _. exists (c :: tl). reflexivity.
    + destruct (lines tl) as [|l1 ls1] eqn:E1.
      * exfalso. exact (lines_nonempty tl E1).
      * injection E as <- _. destruct (IH l1 ls1 eq_refl) as [t Ht].
        exists t. simpl. f_equal. exact Ht.
Qed.

Lemma unlines_app_head (a b : text) (r : list text) :
  unlines ((a ++ b) :: r) = a ++ unlines (b :: r).
Proof.
  destruct r; simpl; [reflexivity|]. rewrite <- app_assoc. reflexivity.
Qed.

(** Running the command on every line is the same as one scan of the whole
    file, because the pattern cannot reach across a newline. *)
Lemma sed_lines_scan (n : nat) (s : text) :
  (List.length s <= n)%nat -> sed_lines pat items true s = G s.
Proof.
  unfold sed_lines. fold G.
  revert s. induction n as [|n IH]; intros s Hn.
  - destruct s; [reflexivity|simpl in Hn; lia].
  - destruct s as [|c tl]; [reflexivity|]. simpl in Hn.
    destruct (strip_prefix pat (c :: tl)) as [rest|] eqn:E.
    + pose proof (strip_prefix_shorter c tl rest E) as Hlen.
      rewrite (G_match (c :: tl) rest ltac:(discriminate) E).
      rewrite <- (IH rest) by lia.
      apply strip_prefix_Some in E. rewrite E.
      destruct (lines rest) as [|l0 ls] eqn:El; [exfalso; exact (lines_nonempty rest El)|].
      rewrite (lines_app_one_line pat rest l0 ls pat_one_line El).
      cbn [map]. rewrite G_pat_app. apply unlines_app_head.
    + rewrite (G_step c tl E). rewrite <- (IH tl) by lia.
      destruct (lines tl) as [|l0 ls] eqn:El; [exfalso; exact (lines_nonempty tl El)|].
      destruct (Ascii.eqb_spec c newline) as [->|Hc].
      * cbn [lines]. rewrite Ascii.eqb_refl, El. reflexivity.
      * rewrite (lines_cons c tl l0 ls Hc El). cbn [map].
        assert (E0 : strip_prefix pat (c :: l0) = None).
        { destruct (strip_prefix pat (c :: l0)) as [r|] eqn:E0; [|reflexivity].
          exfalso. apply strip_prefix_Some in E0.
          destruct (lines_head_prefix tl l0 ls El) as [t Ht].
          apply (strip_prefix_None pat (c :: tl) E (r ++ t)).
          rewrite Ht, app_comm_cons, E0, <- app_assoc. reflexivity. }
        rewrite (G_step c l0 E0).
        change (c :: G l0) with ([c] ++ G l0).
        rewrite unlines_app_head. reflexivity.
Qed.

End Scan.

(** *** Every occurrence is a cut *)

Lemma border_free_unbordered (p : text) : border_free p = true -> unbordered p.
Proof.
  intros Hc u v w Hu Hv.
  destruct v as [|a v]; [left; reflexivity|].
  destruct u as [|b u]; [right; reflexivity|].
  exfalso. unfold border_free in Hc. rewrite forallb_forall in Hc.
  specialize (Hc (List.length (a :: v))).
  assert (Hlen : List.length p = (List.length (b :: u) + List.length (a :: v))%nat)
    by (rewrite Hu at 1; apply length_app).
  assert (Hfirst : firstn (List.length (a :: v)) p = a :: v).
  { rewrite Hv at 1. rewrite firstn_app, Nat.sub_diag, firstn_all.
    simpl. rewrite app_nil_r. reflexivity. }
  assert (Hskip : skipn (List.length p - List.length (a :: v)) p = a :: v).
  { replace (List.length p - List.length (a :: v))%nat with (List.length (b :: u)) by lia.
    rewrite Hu at 1. rewrite skipn_app, Nat.sub_diag, skipn_all.
    reflexivity. }
  rewrite Hfirst, Hskip in Hc.
  destruct (list_eq_dec Ascii.ascii_dec (a :: v) (a :: v)) as [_|Hne];
    [|apply Hne; reflexivity].
  assert (Hin : In (List.length (a :: v)) (seq 1 (List.length p - 1))).
  { apply in_seq. simpl in Hlen |- *. lia. }
  specialize (Hc Hin). discriminate Hc.
Qed.

Lemma join_cons (sep first p : text) (more : list text) :
  join sep first (p :: more) = first ++ sep ++ join sep p more.
Proof. unfold join. simpl. rewrite <- app_assoc. reflexivity. Qed.

Lemma join_nil (sep first : text) : join sep first [] = first.
Proof. unfold join. simpl. apply app_nil_r. Qed.

Lemma app_self_longer (p l r : text) : p = l ++ p ++ r -> l = [].
Proof.
  intros H. apply (f_equal (@List.length ascii)) in H.
  rewrite !length_app in H. destruct l; [reflexivity|simpl in H; lia].
Qed.

(** In a text cut into pieces free of the pattern, an occurrence of an
    unbordered pattern can only be one of the separators. *)
Lemma occurrence_is_cut (pat : text) (more : list text) :
  unbordered pat ->
  forall first pre post,
    Forall (fun piece => ~ occurs pat piece) (first :: more) ->
    join pat first more = pre ++ pat ++ post ->
    exists k, (k < List.length more)%nat /\ pre = join pat first (firstn k more).
Proof.
  intros Hub. induction more as [|p more IH]; intros first pre post Hfree Hocc.
  - exfalso. rewrite join_nil in Hocc.
    apply (Forall_inv Hfree). exists pre, post. exact Hocc.
  - pose proof (Forall_inv Hfree) as Hfirst.
    pose proof (Forall_inv_tail Hfree) as Hrest.
    rewrite join_cons in Hocc.
    assert (Hafter : forall l', join pat p more = l' ++ pat ++ post ->
              exists k, (k < List.length (p :: more))%nat /\
                        first ++ pat ++ l' = join pat first (firstn k (p :: more))).
    { intros l' HJ. destruct (IH p l' post Hrest HJ) as (k & Hk & Hl').
      exists (Datatypes.S k). split; [simpl; lia|].
      cbn [firstn]. rewrite join_cons, <- Hl'. reflexivity. }
    apply app_eq_app in Hocc. destruct Hocc as (l & [[E1 E2]|[E1 E2]]).
    + (* the occurrence starts inside [first] or at its end *)
      destruct l as [|a l].
      * exists 0%nat. split; [simpl; lia|].
        cbn [firstn]. rewrite join_nil, E1, app_nil_r. reflexivity.
      * exfalso. apply app_eq_app in E2. destruct E2 as (l' & [[E3 E4]|[E3 E4]]).
        -- apply app_eq_app in E4. destruct E4 as (l2 & [[E5 E6]|[E5 E6]]).
           ++ destruct (Hub (a :: l) l' l2 E3 E5) as [->|Hnil]; [|discriminate Hnil].
              rewrite app_nil_r in E3. apply Hfirst. exists pre, [].
              rewrite app_nil_r, E3. exact E1.
           ++ rewrite E5 in E3. apply app_self_longer in E3. discriminate E3.
        -- apply Hfirst. exists pre, l'. rewrite E1, E3. reflexivity.
    + (* the occurrence starts behind [first] *)
      destruct l as [|a l].
      * exists 0%nat. split; [simpl; lia|].
        cbn [firstn]. rewrite join_nil, E1, app_nil_r. reflexivity.
      * apply app_eq_app in E2. destruct E2 as (l' & [[E3 E4]|[E3 E4]]).
        -- (* it starts inside the separator *)
           apply app_eq_app in E4. destruct E4 as (l2 & [[E5 E6]|[E5 E6]]).
           ++ destruct (Hub (a :: l) l' l2 E3 E5) as [->|Hnil]; [|discriminate Hnil].
              rewrite app_nil_r in E3. simpl in E5. subst l2.
              destruct (Hafter [] E6) as (k & Hk & Hpre).
              exists k. split; [exact Hk|].
              rewrite <- Hpre, E1, <- E3, app_nil_r. reflexivity.
           ++ exfalso. rewrite E5 in E3. apply app_self_longer in E3. discriminate E3.
        -- (* it starts behind the separator *)
           destruct (Hafter l' E4) as (k & Hk & Hpre).
           exists k. split; [exact Hk|].
           rewrite <- Hpre, E1, E3. reflexivity.
Qed.

(** *** The script *)

Lemma placeholder_nonempty : PLACEHOLDER <> [].
Proof. discriminate. Qed.

Lemma placeholder_one_line : ~ In newline PLACEHOLDER.
Proof.
  intros H. vm_compute in H.
  repeat (destruct H as [H|H]; [discriminate H|]). exact H.
Qed.

Lemma placeholder_unbordered : unbordered PLACEHOLDER.
Proof. apply border_free_unbordered. vm_compute. reflexivity. Qed.

Lemma start_script_plain (env : environment) (content : text) :
  plain (expand env "JUPYTERHUB_BASE_URL") = true ->
  plain (expand env "JUPYTERHUB_USER") = true ->
  start_script env content
  = Some (sed_lines PLACEHOLDER (map Lit (proxy_location env)) true content).
Proof.
  intros Hb Hu. unfold start_script, expression_tail.
  change (txt "|g") with ("|"%char :: ["g"%char]).
  rewrite (parse_replacement_plain _ _ (proxy_location_plain env Hb Hu)).
  reflexivity.
Qed.

(** C4, as stated, fails: for the user name [a&b] the placeholder is not
    replaced by the proxy location [/user/a&b/proxy/8787]; [sed] reads the
    [&] as the matched text and writes the placeholder back between [a]
    and [b]. *)
Lemma start_script_ampersand :
  start_script (hub "a&b") PLACEHOLDER
    = Some (txt "/user/aDASK_DASHBOARD_URLb/proxy/8787")
  /\ proxy_location (hub "a&b") = txt "/user/a&b/proxy/8787"
  /\ start_script (hub "a&b") PLACEHOLDER <> Some (proxy_location (hub "a&b")).
Proof.
  split; [vm_compute; reflexivity|].
  split; [vm_compute; reflexivity|].
  vm_compute. discriminate.
Qed.

(** C4 (amended).  When the values of [JUPYTERHUB_BASE_URL] and
    [JUPYTERHUB_USER] contain none of the characters [|], [&], backslash
    and newline, the [sed] line replaces every occurrence of
    [DASK_DASHBOARD_URL] in the file by the proxy location and copies
    every other character: the file is cut into pieces free of the
    placeholder, every occurrence of the placeholder in the file is one of
    the cuts, and the result is the same pieces joined by the proxy
    location. *)
Theorem start_script_replaces (env : environment) (content : text) :
  plain (expand env "JUPYTERHUB_BASE_URL") = true ->
  plain (expand env "JUPYTERHUB_USER") = true ->
  exists first more,
    content = join PLACEHOLDER first more /\
    start_script env content = Some (join (proxy_location env) first more) /\
    Forall (fun piece => ~ occurs PLACEHOLDER piece) (first :: more) /\
    (forall pre post,
        content = pre ++ PLACEHOLDER ++ post ->
        exists k, (k < List.length more)%nat /\
                  pre = join PLACEHOLDER first (firstn k more)).
Proof.
  intros Hb Hu.
  rewrite (start_script_plain env content Hb Hu).
  rewrite (sed_lines_scan PLACEHOLDER _ placeholder_nonempty placeholder_one_line
             (List.length content) content (le_n _)).
  destruct (G_decomposition PLACEHOLDER (map Lit (proxy_location env))
              placeholder_nonempty (List.length content) content (le_n _))
    as (first & more & Hs & HG & Hfree).
  exists first, more. split; [exact Hs|].
  split; [rewrite HG, instantiate_literal; reflexivity|].
  split; [exact Hfree|].
  intros pre post Hocc. rewrite Hs in Hocc.
  exact (occurrence_is_cut PLACEHOLDER more placeholder_unbordered
                           first pre post Hfree Hocc).
Qed.

(** Witness for C4: user [alice] under base URL [/], on the two-line
    sample file. *)
Lemma start_script_replaces_witness :
  exists first more,
    sample_workspace = join PLACEHOLDER first more /\
    start_script (hub "alice") sample_workspace
      = Some (join (proxy_location (hub "alice")) first more) /\
    Forall (fun piece => ~ occurs PLACEHOLDER piece) (first :: more) /\
    (forall pre post,
        sample_workspace = pre ++ PLACEHOLDER ++ post ->
        exists k, (k < List.length more)%nat /\
                  pre = join PLACEHOLDER first (firstn k more)).
Proof.
  apply (start_script_replaces (hub "alice")); vm_compute; reflexivity.
Defined.

(** The sample file after the script, for user [alice]. *)
Lemma start_script_sample :
  start_script (hub "alice") sample_workspace
  = Some (txt "a /user/alice/proxy/8787/status b" ++ newline
          :: txt "/user/alice/proxy/8787/user/alice/proxy/8787").
Proof. vm_compute. reflexivity. Qed.

End BinderFacts.

(* ===================================================================== *)
(** ** Programs and their traces *)
(* ===================================================================== *)

Module ProgFacts.

(** Every run against a library is one of the program's traces. *)
Lemma run_exec {S R : Type} (lib : behaviour S) (p : prog R) (s : S) :
  exec p (trace (run lib p s)) (outcome (run lib p s)).
Proof.
  revert s. induction p as [r|e|X c k IH]; intros s; simpl.
  - split; reflexivity.
  - split; reflexivity.
  - destruct (lib X c s) as [[x|e] s']; simpl.
    + left. exists x, (trace (run lib (k x) s')). split; [reflexivity|apply IH].
    + right. exists e. split; reflexivity.
Qed.

Lemma exec_bind {A B : Type} (p : prog A) (f : A -> prog B)
      (tr : list event) (res : result B) :
  exec (bind p f) tr res ->
  (exists a t1 t2, exec p t1 (Ok a) /\ exec (f a) t2 res /\ tr = t1 ++ t2)
  \/ (exists e, exec p tr (Err e) /\ res = Err e).
Proof.
  revert tr. induction p as [r|e|X c k IH]; intros tr H; simpl in H.
  - left. exists r, [], tr. simpl. repeat split. exact H.
  - right. exists e. simpl. destruct H as [-> ->]. repeat split.
  - destruct H as [(x & tr' & -> & H)|(e & -> & ->)].
    + destruct (IH x tr' H) as [(a & t1 & t2 & H1 & H2 & ->)|(e & H1 & ->)].
      * left. exists a, (Event c (Ok x) :: t1), t2. simpl.
        split; [|split; [exact H2|reflexivity]].
        left. exists x, t1. split; [reflexivity|exact H1].
      * right. exists e. split; [|reflexivity]. simpl.
        left. exists x, tr'. split; [reflexivity|exact H1].
    + right. exists e. split; [|reflexivity]. simpl.
      right. exists e. split; reflexivity.
Qed.

(** A completed run of [bind p f] is a completed run of [p] followed by a
    run of [f]. *)
Lemma exec_bind_ok {A B : Type} (p : prog A) (f : A -> prog B)
      (tr : list event) (b : B) :
  exec (bind p f) tr (Ok b) ->
  exists a t1 t2, exec p t1 (Ok a) /\ exec (f a) t2 (Ok b) /\ tr = t1 ++ t2.
Proof.
  intros H. apply exec_bind in H.
  destruct H as [H|(e & _ & H)]; [exact H|discriminate H].
Qed.

Lemma exec_perform {X : Type} (c : call X) (tr : list event) (res : result X) :
  exec (perform c) tr res -> tr = [Event c res].
Proof.
  simpl. intros [(x & tr' & -> & -> & ->)|(e & -> & ->)]; reflexivity.
Qed.

Lemma exec_lift {A : Type} (r : result A) (tr : list event) (res : result A) :
  exec (lift r) tr res -> tr = [] /\ res = r.
Proof. destruct r; simpl; intros [-> ->]; split; reflexivity. Qed.


(** *** Reading a concatenated trace *)

Lemma persisted_app (a b : list event) : persisted (a ++ b) = persisted a ++ persisted b.
Proof. apply flat_map_app. Qed.

Lemma output_app (a b : list event) : output (a ++ b) = output a ++ output b.
Proof. apply flat_map_app. Qed.

Lemma rl_train_calls_app (a b : list event) :
  rl_train_calls (a ++ b) = (rl_train_calls a + rl_train_calls b)%nat.
Proof. unfold rl_train_calls. rewrite filter_app, length_app. reflexivity. Qed.

End ProgFacts.

(* ===================================================================== *)
(** ** The DQN training cell *)
(* ===================================================================== *)

Module DQNFacts.
Import DQN ProgFacts.

(** One iteration that completes: one [train], one [save], one [print]. *)
Lemma dqn_iteration_ok (trainer : nat) (n : Z) (last cp : string) (tr : list event) :
  exec (dqn_iteration trainer n last) tr (Ok cp) ->
  exists result,
    tr = [ Event (DQNTrainer_train trainer) (Ok result);
           Event (DQNTrainer_save trainer checkpoint_dir) (Ok cp);
           Event (Print (PFormat fmt [VInt n;
                                      VFloat (episode_reward_min result);
                                      VFloat (episode_reward_mean result);
                                      VFloat (episode_reward_max result)])) (Ok tt) ].
Proof.
  simpl. intros [(result & t1 & -> & H)|(e & _ & H)]; [|discriminate H].
  destruct H as [(path & t2 & -> & H)|(e & _ & H)]; [|discriminate H].
  destruct H as [(u & t3 & -> & -> & H)|(e & _ & H)]; [|discriminate H].
  injection H as <-. destruct u. exists result. reflexivity.
Qed.

(** An iteration never makes more than one [train] call. *)
Lemma dqn_iteration_le (trainer : nat) (n : Z) (last : string)
      (tr : list event) (res : result string) :
  exec (dqn_iteration trainer n last) tr res -> (rl_train_calls tr <= 1)%nat.
Proof.
  simpl. intros [(result & t1 & -> & H)|(e & -> & _)]; [|cbv; lia].
  destruct H as [(path & t2 & -> & H)|(e & -> & _)]; [|cbv; lia].
  destruct H as [(u & t3 & -> & -> & _)|(e & -> & _)]; cbv; lia.
Qed.

Lemma dqn_loop_ok (trainer : nat) (l : list Z) (init cp : string) (tr : list event) :
  exec (for_each_with l (dqn_iteration trainer) init) tr (Ok cp) ->
  rl_train_calls tr = List.length l /\
  List.length (output tr) = List.length l /\
  exists paths,
    List.length paths = List.length l /\
    persisted tr = map (Checkpoint checkpoint_dir) paths.
Proof.
  revert init tr. induction l as [|n l IH]; intros init tr H.
  - simpl in H. destruct H as [-> _].
    repeat split. exists []. repeat split.
  - cbn [for_each_with] in H. apply exec_bind_ok in H.
    destruct H as (cp1 & t1 & t2 & H1 & H2 & ->).
    apply dqn_iteration_ok in H1. destruct H1 as [result ->].
    destruct (IH cp1 t2 H2) as (Hc & Ho & paths & Hlen & Hp).
    rewrite rl_train_calls_app, output_app, persisted_app, length_app, Hc, Ho, Hp.
    split; [reflexivity|]. split; [reflexivity|].
    exists (cp1 :: paths). split; [simpl; rewrite Hlen; reflexivity|].
    reflexivity.
Qed.

Lemma dqn_loop_le (trainer : nat) (l : list Z) (init : string)
      (tr : list event) (res : result string) :
  exec (for_each_with l (dqn_iteration trainer) init) tr res ->
  (rl_train_calls tr <= List.length l)%nat.
Proof.
  revert init tr. induction l as [|n l IH]; intros init tr H.
  - simpl in H. destruct H as [-> _]. cbv. lia.
  - cbn [for_each_with] in H. apply exec_bind in H.
    destruct H as [(cp1 & t1 & t2 & H1 & H2 & ->)|(e & H1 & _)].
    + apply dqn_iteration_le in H1. apply IH in H2.
      rewrite rl_train_calls_app. simpl. lia.
    + apply dqn_iteration_le in H1. simpl. lia.
Qed.

(** *** The configuration assignments *)

Lemma assoc_set_same (k : string) (v : value) (items : list (string * value)) :
  assoc k (assoc_set k v items) = Some v.
Proof.
  induction items as [|[k' v'] items IH]; simpl.
  - rewrite String.eqb_refl. reflexivity.
  - destruct (String.eqb k k') eqn:E; simpl.
    + rewrite String.eqb_refl. reflexivity.
    + rewrite E. exact IH.
Qed.

Lemma assoc_set_other (k k' : string) (v : value) (items : list (string * value)) :
  String.eqb k' k = false ->
  assoc k' (assoc_set k v items) = assoc k' items.
Proof.
  intros Hne. induction items as [|[k0 v0] items IH]; simpl.
  - rewrite Hne. reflexivity.
  - destruct (String.eqb_spec k k0) as [<-|Hk]; simpl.
    + rewrite Hne. reflexivity.
    + rewrite IH. reflexivity.
Qed.

(** X3.  On a default configuration that has a dictionary under ["model"],
    the five assignments succeed and the four settings read back as
    assigned: [log_level] is [WARN], [num_workers] is 2,
    [model.fcnet_hiddens] is [[40, 20]], [num_cpus_per_worker] is 0. *)
Lemma dqn_config_assigns (items model : list (string * value)) :
  assoc "model" items = Some (VDict model) ->
  exists config,
    dqn_config (VDict items) = Ok config /\
    getitem config "log_level" = Ok (VStr "WARN") /\
    getitem config "num_workers" = Ok (VInt 2) /\
    getitem2 config "model" "fcnet_hiddens" = Ok (VList [VInt 40; VInt 20]) /\
    getitem config "num_cpus_per_worker" = Ok (VInt 0).
Proof.
  intros Hm. unfold dqn_config. cbn [setitem rbind getitem].
  rewrite !assoc_set_other by reflexivity. rewrite Hm.
  cbn [setitem rbind]. eexists. split; [reflexivity|].
  unfold getitem2. cbn [getitem rbind].
  rewrite !(assoc_set_other "num_cpus_per_worker") by reflexivity.
  rewrite !(assoc_set_other "model") by reflexivity.
  rewrite !assoc_set_same. cbn [rbind getitem].
  rewrite !(assoc_set_other "num_workers") by reflexivity.
  rewrite !assoc_set_same.
  repeat split; reflexivity.
Qed.

(** *** The loop *)

Lemma length_range (n : nat) : List.length (range n) = n.
Proof. unfold range. rewrite length_map, length_seq. reflexivity. Qed.

(** The traces of the whole cell. *)
Lemma dqn_training_exec_ok (config : value) (tr : list event) (cp : string) :
  exec (dqn_training config) tr (Ok cp) ->
  rl_train_calls tr = N_ITER /\
  List.length (output tr) = S N_ITER /\
  exists paths,
    List.length paths = N_ITER /\
    persisted tr = map (Checkpoint checkpoint_dir) paths.
Proof.
  unfold dqn_training. intros H.
  apply exec_bind_ok in H. destruct H as (trainer & t1 & t2 & H1 & H & ->).
  apply exec_perform in H1. subst t1.
  apply exec_bind_ok in H. destruct H as (last & t3 & t4 & H3 & H & ->).
  apply dqn_loop_ok in H3. destruct H3 as (Hc & Ho & paths & Hlen & Hp).
  rewrite length_range in Hc, Ho, Hlen.
  apply exec_bind_ok in H. destruct H as (u & t5 & t6 & H5 & H & ->).
  apply exec_perform in H5. subst t5.
  simpl in H. destruct H as [-> _].
  rewrite !rl_train_calls_app, !output_app, !persisted_app, !length_app, Hc, Ho, Hp.
  split; [reflexivity|]. split; [reflexivity|].
  exists paths. split; [exact Hlen|]. cbn. rewrite app_nil_r. reflexivity.
Qed.

Lemma dqn_training_exec_le (config : value) (tr : list event) (res : result string) :
  exec (dqn_training config) tr res -> (rl_train_calls tr <= N_ITER)%nat.
Proof.
  unfold dqn_training. intros H.
  apply exec_bind in H.
  destruct H as [(trainer & t1 & t2 & H1 & H & ->)|(e & H1 & _)];
    apply exec_perform in H1; subst; [|cbv; lia].
  apply exec_bind in H.
  destruct H as [(last & t3 & t4 & H3 & H & ->)|(e & H3 & _)];
    apply dqn_loop_le in H3; rewrite length_range in H3;
    [|rewrite rl_train_calls_app; cbn; lia].
  apply exec_bind in H.
  destruct H as [(u & t5 & t6 & H5 & H & ->)|(e & H5 & _)];
    apply exec_perform in H5; subst.
  - simpl in H. destruct H as [-> _].
    rewrite !rl_train_calls_app. cbn. lia.
  - rewrite !rl_train_calls_app. cbn. lia.
Qed.

End DQNFacts.

(* ===================================================================== *)
(** ** The RaySGD training functions *)
(* ===================================================================== *)

Module TrainingFacts.
Import RaySGD Training ProgFacts.
Local Open Scope string_scope.

(** Take the next call of a completed run. *)
Ltac next_call H :=
  cbn [bind perform exec] in H;
  destruct H as [(? & ? & -> & H)|(? & _ & H)]; [|discriminate H].

(** A completed run of [train_example]: nine calls, the last one printing
    the verdict on the two validation results. *)
Lemma train_example_exec_ok (num_replicas batch_size : Z) (use_gpu : bool)
      (tr : list event) :
  exec (train_example num_replicas batch_size use_gpu) tr (Ok tt) ->
  exists config trainer start_stats end_stats r1 r2,
    create_config batch_size = Ok config /\
    tr = [ Event (TFTrainer "simple_model" "simple_dataset"
                            num_replicas use_gpu true config) (Ok trainer);
           Event (TFTrainer_validate trainer) (Ok start_stats);
           Event (Print (PStats start_stats)) (Ok tt);
           Event (TFTrainer_train trainer) (Ok r1);
           Event (TFTrainer_train trainer) (Ok r2);
           Event (TFTrainer_validate trainer) (Ok end_stats);
           Event (Print (PStats end_stats)) (Ok tt);
           Event (Print (PFormat "dLoss: {dloss}, dMSE: {dmse}"
                                 [VFloat (dloss start_stats end_stats);
                                  VFloat (dmse start_stats end_stats)])) (Ok tt);
           Event (Print (PText (verdict start_stats end_stats))) (Ok tt) ].
Proof.
  unfold train_example. intros H.
  destruct (create_config batch_size) as [config|e] eqn:Ec;
    [|destruct H as [_ H]; discriminate H].
  cbn [lift bind] in H.
  next_call H. rename x into trainer.
  next_call H. rename x into start_stats.
  next_call H. destruct x.
  next_call H. rename x into r1.
  next_call H. rename x into r2.
  next_call H. rename x into end_stats.
  next_call H. destruct x.
  next_call H. destruct x.
  exists config, trainer, start_stats, end_stats, r1, r2.
  split; [reflexivity|].
  unfold verdict.
  destruct (loss_increased start_stats end_stats);
    apply exec_perform in H; subst; reflexivity.
Qed.

(** One pass of the loop of [train_diamonds_mlflow] that completes logs two
    metrics when [i] is even and nothing otherwise. *)
Lemma mlflow_step_ok (trainer : nat) (run_id : string) (i : Z) (tr : list event) :
  exec (mlflow_step trainer run_id i) tr (Ok tt) ->
  Forall2 (logged run_id) (persisted tr) (expected_metrics [i]).
Proof.
  unfold mlflow_step, expected_metrics. intros H.
  next_call H. rename x into train_stats.
  cbn [flat_map]. rewrite app_nil_r.
  destruct (Z.eqb (i mod 2) 0).
  - next_call H. rename x into val_stats.
    next_call H. destruct x.
    apply exec_perform in H. subst.
    cbn. constructor; [eexists; reflexivity|].
    constructor; [eexists; reflexivity|constructor].
  - destruct H as [-> _]. cbn. constructor.
Qed.

Lemma expected_metrics_cons (i : Z) (l : list Z) :
  expected_metrics (i :: l) = (expected_metrics [i] ++ expected_metrics l)%list.
Proof. unfold expected_metrics. cbn [flat_map]. rewrite app_nil_r. reflexivity. Qed.

Lemma mlflow_loop_ok (trainer : nat) (run_id : string) (l : list Z) (tr : list event) :
  exec (for_each l (mlflow_step trainer run_id)) tr (Ok tt) ->
  Forall2 (logged run_id) (persisted tr) (expected_metrics l).
Proof.
  revert tr. induction l as [|i l IH]; intros tr H.
  - destruct H as [-> _]. constructor.
  - cbn [for_each] in H. apply exec_bind in H.
    destruct H as [(u & t1 & t2 & H1 & H2 & ->)|(e & _ & H)]; [|discriminate H].
    destruct u. rewrite persisted_app, expected_metrics_cons.
    apply Forall2_app; [exact (mlflow_step_ok trainer run_id i t1 H1)|exact (IH t2 H2)].
Qed.

(** What a completed run of [train_diamonds_mlflow] sends to the tracking
    store: the run, two metrics at every even step, the termination. *)
Lemma train_diamonds_mlflow_exec_ok (experiment_id : string)
      (num_replicas batch_size : Z) (use_gpu : bool) (tr : list event) :
  exec (train_diamonds_mlflow experiment_id num_replicas batch_size use_gpu) tr (Ok tt) ->
  exists run_id metrics,
    persisted tr
      = (RunCreated experiment_id run_id :: metrics ++ [RunTerminated run_id])%list /\
    Forall2 (logged run_id) metrics
            (flat_map (fun i => [("validation_loss", i); ("training_loss", i)])
                      logged_steps).
Proof.
  unfold train_diamonds_mlflow. intros H.
  destruct (create_diamonds_config batch_size) as [config|e] eqn:Ec;
    [|destruct H as [_ H]; discriminate H].
  cbn [lift bind] in H.
  next_call H. rename x into trainer.
  next_call H. rename x into start_stats.
  next_call H. destruct x.
  next_call H. rename x into run_id.
  apply exec_bind in H.
  destruct H as [(u & t1 & t2 & H1 & H & ->)|(e & _ & H)]; [|discriminate H].
  destruct u. apply mlflow_loop_ok in H1.
  next_call H. destruct x.
  next_call H. rename x into end_stats.
  apply exec_perform in H. subst.
  exists run_id, (persisted t1). split.
  - unfold persisted. cbn [flat_map written app]. rewrite flat_map_app.
    cbn [flat_map written app]. reflexivity.
  - exact H1.
Qed.

End TrainingFacts.

(* ===================================================================== *)
(** ** The training function of the Tune notebook *)
(* ===================================================================== *)

Module TuningFacts.
Import TuneRun Tuning ProgFacts.

Lemma reported_app (a b : list event) : reported (a ++ b) = reported a ++ reported b.
Proof. apply flat_map_app. Qed.

Lemma report_loop_ok (cpow : float -> float) (alpha : float) (beta : Z)
      (l : list Z) (tr : list event) :
  exec (for_each l (fun step =>
          bind (lift (objective64 cpow step alpha beta))
               (fun score => perform (Tune_report score)))) tr (Ok tt) ->
  Forall2 (fun step score => objective64 cpow step alpha beta = Ok score)
          l (reported tr).
Proof.
  revert tr. induction l as [|step l IH]; intros tr H.
  - destruct H as [-> _]. constructor.
  - cbn [for_each] in H. apply exec_bind in H.
    destruct H as [(u & t1 & t2 & H1 & H2 & ->)|(e & _ & H)]; [|discriminate H].
    destruct (objective64 cpow step alpha beta) as [score|e] eqn:E;
      [|destruct H1 as [_ H1]; discriminate H1].
    cbn [lift bind] in H1. apply exec_perform in H1. subst t1.
    rewrite reported_app. cbn [reported flat_map reports app].
    constructor; [exact E|]. apply IH. destruct u. exact H2.
Qed.

(** A completed run of [training_function] reports the ten values of
    [objective], whatever Tune does with them. *)
Lemma training_function_exec_ok (cpow : float -> float) (alpha : float) (beta : Z)
      (tr : list event) :
  exec (training_function cpow (tune_config alpha beta)) tr (Ok tt) ->
  Forall2 (fun step score => objective64 cpow step alpha beta = Ok score)
          steps (reported tr).
Proof.
  unfold training_function, tune_config. cbn [getitem assoc String.eqb lift bind].
  simpl (lift _). cbn [bind]. apply report_loop_ok.
Qed.

End TuningFacts.

(* ===================================================================== *)
(** ** What the notebooks do, for every behaviour of the libraries *)
(* ===================================================================== *)

Module NotebookFacts.
Import RaySGD Training DQN Tuning TuneRun Numpy Example.
Import ProgFacts DQNFacts TrainingFacts TuningFacts NumpyFacts.
Local Open Scope string_scope.

Lemma succeeded_unit (r : result unit) : succeeded r = true -> r = Ok tt.
Proof. destruct r as [[]|e]; [reflexivity|discriminate]. Qed.

Lemma succeeded_ok {A : Type} (r : result A) : succeeded r = true -> exists a, r = Ok a.
Proof. destruct r as [a|e]; [exists a; reflexivity|discriminate]. Qed.

(** *** C1 *)


(** Against a library whose [validate] raises, [train_example] stops at
    the first validation: two calls, and the exception as its outcome. *)
Lemma train_example_propagates :
  outcome (run broken (train_example 1 128 false) 0%nat)
    = Err (LibraryError "validate") /\
  List.length (trace (run broken (train_example 1 128 false) 0%nat)) = 2%nat.
Proof. split; vm_compute; reflexivity. Qed.



(** *** C6 *)

(** C6, as stated, fails: against a library that never raises, one run of
    the training cell invokes [trainer.train()] fifty times, not once. *)
Lemma dqn_training_not_single_call :
  ~ (forall (S : Type) (lib : behaviour S) (s : S) (config : value),
        succeeded (outcome (run lib (dqn_training config) s)) = true ->
        rl_train_calls (trace (run lib (dqn_training config) s)) = 1%nat).
Proof.
  intros H.
  specialize (H nat improving 0%nat (VDict [])).
  vm_compute in H. specialize (H eq_refl). discriminate H.
Qed.

(** C6 (amended).  After the configuration assignments and the creation of
    the trainer, the training cell runs a loop of its own over
    [range(N_ITER)], [N_ITER = 50]: no run invokes [trainer.train()] more
    than 50 times, and a run that completes invokes it exactly 50 times,
    saves 50 checkpoints into [checkpoints] and prints 51 lines. *)
Theorem dqn_training_invocations :
  forall (S : Type) (lib : behaviour S) (s : S) (config : value),
    (rl_train_calls (trace (run lib (dqn_training config) s)) <= N_ITER)%nat /\
    (succeeded (outcome (run lib (dqn_training config) s)) = true ->
     rl_train_calls (trace (run lib (dqn_training config) s)) = N_ITER /\
     List.length (output (trace (run lib (dqn_training config) s))) = Datatypes.S N_ITER /\
     exists paths,
       List.length paths = N_ITER /\
       persisted (trace (run lib (dqn_training config) s))
       = map (Checkpoint checkpoint_dir) paths).
Proof.
  intros S lib s config.
  pose proof (run_exec lib (dqn_training config) s) as H.
  split.
  - exact (dqn_training_exec_le config _ _ H).
  - intros Hok. destruct (succeeded_ok _ Hok) as [cp E]. rewrite E in H.
    exact (dqn_training_exec_ok config _ cp H).
Qed.

(** Witness for C6: the cell against the library whose loss falls. *)
Lemma dqn_training_invocations_witness :
  rl_train_calls (trace (run improving (dqn_training (VDict [])) 0%nat)) = 50%nat /\
  List.length (output (trace (run improving (dqn_training (VDict [])) 0%nat))) = 51%nat /\
  exists paths,
    List.length paths = 50%nat /\
    persisted (trace (run improving (dqn_training (VDict [])) 0%nat))
    = map (Checkpoint "checkpoints") paths.
Proof.
  apply (proj2 (dqn_training_invocations nat improving 0%nat (VDict []))).
  vm_compute. reflexivity.
Defined.

(** *** C7 *)

(** C7, as stated, fails: a run of the DQN training cell leaves
    checkpoints behind. *)
Lemma dqn_training_writes_checkpoints :
  ~ (forall (S : Type) (lib : behaviour S) (s : S) (config : value),
        persisted (trace (run lib (dqn_training config) s)) = []).
Proof.
  intros H.
  specialize (H nat improving 0%nat (VDict [])).
  vm_compute in H. discriminate H.
Qed.

(** C7 (amended).  The notebooks do write state that outlives the session,
    through the libraries: a completed run of the DQN training cell leaves
    [N_ITER = 50] checkpoints under [checkpoints] and nothing else, and a
    completed run of [train_diamonds_mlflow] leaves in the MLflow tracking
    store one run, created and terminated, with the metrics
    [validation_loss] and [training_loss] at each even step of
    [range(32)]. *)
Theorem notebooks_persist :
  forall (S : Type) (lib : behaviour S) (s : S) (config : value)
         (experiment_id : string) (num_replicas batch_size : Z) (use_gpu : bool),
    (succeeded (outcome (run lib (dqn_training config) s)) = true ->
     exists paths,
       List.length paths = N_ITER /\
       persisted (trace (run lib (dqn_training config) s))
       = map (Checkpoint checkpoint_dir) paths)
    /\
    (succeeded (outcome (run lib (train_diamonds_mlflow experiment_id num_replicas
                                                         batch_size use_gpu) s)) = true ->
     exists run_id metrics,
       persisted (trace (run lib (train_diamonds_mlflow experiment_id num_replicas
                                                        batch_size use_gpu) s))
       = (RunCreated experiment_id run_id :: metrics ++ [RunTerminated run_id])%list /\
       Forall2 (logged run_id) metrics
               (flat_map (fun i => [("validation_loss", i); ("training_loss", i)])
                         logged_steps)).
Proof.
  intros S lib s config experiment_id num_replicas batch_size use_gpu. split.
  - intros Hok.
    pose proof (run_exec lib (dqn_training config) s) as H.
    destruct (succeeded_ok _ Hok) as [cp E]. rewrite E in H.
    destruct (dqn_training_exec_ok config _ cp H) as (_ & _ & Hp). exact Hp.
  - intros Hok.
    pose proof (run_exec lib (train_diamonds_mlflow experiment_id num_replicas
                                                    batch_size use_gpu) s) as H.
    rewrite (succeeded_unit _ Hok) in H.
    exact (train_diamonds_mlflow_exec_ok _ _ _ _ _ H).
Qed.

(** Witness for C7: both runs against the library whose loss rises. *)
Lemma notebooks_persist_witness :
  (exists paths,
      List.length paths = 50%nat /\
      persisted (trace (run worsening (dqn_training (VDict [])) 0%nat))
      = map (Checkpoint "checkpoints") paths)
  /\
  (exists run_id metrics,
      persisted (trace (run worsening (train_diamonds_mlflow "7" 1 128 false) 0%nat))
      = (RunCreated "7" run_id :: metrics ++ [RunTerminated run_id])%list /\
      Forall2 (logged run_id) metrics
              (flat_map (fun i => [("validation_loss", i); ("training_loss", i)])
                        logged_steps)).
Proof.
  pose proof (notebooks_persist nat worsening 0%nat (VDict []) "7" 1 128 false)
    as (Hq & Hm).
  split; [apply Hq|apply Hm]; vm_compute; reflexivity.
Defined.

(** *** C2 *)

Lemma two_times_one : PrimFloat.mul 2%float 1%float <> 1%float.
Proof.
  intros H.
  apply (f_equal (fun f => PrimFloat.eqb f 1%float)) in H.
  vm_compute in H. discriminate H.
Qed.

(** C2, as stated, fails: the pairs [linear_dataset] returns obey a law of
    the repository's own, [y = 2 * x], whatever the library's generator
    draws; not every property of its results is left to the library. *)
Lemma linear_dataset_has_law :
  ~ (forall P : ndarray -> ndarray -> Prop,
        (forall size g x y g', linear_dataset size g = (Ok (x, y), g') -> P x y) ->
        forall x y, P x y).
Proof.
  intros H.
  specialize (H (fun x y => data y = map (PrimFloat.mul 2%float) (data x))).
  assert (Hlaw : forall size g x y g',
             linear_dataset size g = (Ok (x, y), g') ->
             data y = map (PrimFloat.mul 2%float) (data x)).
  { intros size g x y g' E.
    destruct (Z.lt_ge_cases size 0) as [Hneg|Hpos].
    - unfold linear_dataset, rand in E.
      destruct (Z.ltb_spec size 0) as [_|Hge]; [discriminate E|lia].
    - rewrite (linear_dataset_eq size g Hpos) in E.
      injection E as Ex Ey _. subst x y. reflexivity. }
  specialize (H Hlaw {| shape := [1; 1]; data := [1%float] |}
                     {| shape := [1; 1]; data := [1%float] |}).
  apply (f_equal (fun l => nth 0 l 0%float)) in H. cbn [data map nth] in H.
  apply two_times_one. symmetry. exact H.
Qed.

(** C2 (amended).  The repository's own code implements a data-generating
    law and a closed-form computation that hold whatever the libraries do:
    for every [size >= 0] and every state of NumPy's generator,
    [linear_dataset] returns [size] samples [x] and [y = 2 * x]
    elementwise; a completed [training_function] reports to Tune exactly
    the values [objective(step, alpha, beta)] for the steps of [range(10)],
    in order; and over exact rationals [objective] is the closed form
    [1 / (1/10 + alpha * step / 100) + beta / 10] wherever [alpha > 0] and
    [step >= 0]. *)
Theorem repository_laws :
  (forall (size : Z) (g : generator),
      0 <= size ->
      exists x y g',
        linear_dataset size g = (Ok (x, y), g') /\
        Z.of_nat (List.length (data x)) = size /\
        data y = map (PrimFloat.mul 2%float) (data x))
  /\
  (forall (S : Type) (lib : behaviour S) (s : S)
          (cpow : float -> float) (alpha : float) (beta : Z),
      succeeded (outcome (run lib (training_function cpow (tune_config alpha beta)) s))
      = true ->
      Forall2 (fun step score => objective64 cpow step alpha beta = Ok score)
              steps
              (reported (trace (run lib (training_function cpow
                                                           (tune_config alpha beta)) s))))
  /\
  (forall (alpha : Q) (step beta : Z),
      (0 < alpha)%Q -> 0 <= step ->
      objectiveQ step alpha beta
      = Ok (/ ((1 # 10) + alpha * inject_Z step / inject_Z 100)
            + inject_Z beta * (1 # 10))%Q).
Proof.
  split; [|split].
  - intros size g Hs. eexists. eexists. eexists.
    split; [apply linear_dataset_eq; exact Hs|].
    split; [|reflexivity].
    simpl. rewrite length_map, length_seq. apply Z2Nat.id. exact Hs.
  - intros S lib s cpow alpha beta Hok.
    pose proof (run_exec lib (training_function cpow (tune_config alpha beta)) s) as H.
    rewrite (succeeded_unit _ Hok) in H.
    exact (training_function_exec_ok cpow alpha beta _ H).
  - intros alpha step beta Ha Hs.
    apply TuneFacts.objectiveQ_eq.
    + apply TuneFacts.denominatorQ_eq.
    + apply TuneFacts.denominatorQ_pos; assumption.
Qed.

(** Witness for C2: three samples of the alternating generator; the point
    [alpha = 0.01], [beta = 2] of the grid; [alpha = 1/1000] at step 3. *)
Lemma repository_laws_witness :
  (exists x y g',
      linear_dataset 3 alternating = (Ok (x, y), g') /\
      Z.of_nat (List.length (data x)) = 3 /\
      data y = map (PrimFloat.mul 2%float) (data x))
  /\
  Forall2 (fun step score => objective64 Float64.recip step 0.01%float 2 = Ok score)
          steps
          (reported (trace (run improving
                                (training_function Float64.recip
                                                   (tune_config 0.01%float 2)) 0%nat)))
  /\
  objectiveQ 3 (1 # 1000) 2
  = Ok (/ ((1 # 10) + (1 # 1000) * inject_Z 3 / inject_Z 100) + inject_Z 2 * (1 # 10))%Q.
Proof.
  pose proof repository_laws as (Hl & Ht & Hq).
  split; [|split].
  - apply (Hl 3 alternating). lia.
  - apply (Ht nat improving 0%nat Float64.recip 0.01%float 2).
    vm_compute. reflexivity.
  - apply (Hq (1 # 1000)%Q 3 2); [reflexivity|lia].
Defined.

End NotebookFacts.

(* ===================================================================== *)
(** ** More on the configuration builders *)
(* ===================================================================== *)

Module ConfigMore.
Import RaySGD ConfigFacts.
Local Open Scope string_scope.

Lemma quotient_covers (n b : Z) :
  0 <= n -> 0 < b -> 0 <= n / b /\ n / b * b <= n < (n / b + 1) * b.
Proof.
  intros Hn Hb.
  pose proof (Z.div_pos n b Hn Hb).
  pose proof (Z.mul_div_le n b Hb).
  pose proof (Z.mul_succ_div_gt n b Hb).
  nia.
Qed.

(** X1.  For a positive [batch_size] the step counts of both builders are
    the number of whole batches in the data: [steps * batch_size] does not
    exceed the number of samples (1000 and 400, 40000 and 13940), and one
    more batch would. *)
Theorem config_steps_cover (batch_size : Z) :
  0 < batch_size ->
  exists cfg dcfg spe st dspe dst,
    create_config batch_size = Ok cfg /\
    getitem2 cfg "fit_config" "steps_per_epoch" = Ok (VInt spe) /\
    getitem2 cfg "evaluate_config" "steps" = Ok (VInt st) /\
    (0 <= spe /\ spe * batch_size <= NUM_TRAIN_SAMPLES < (spe + 1) * batch_size) /\
    (0 <= st /\ st * batch_size <= NUM_TEST_SAMPLES < (st + 1) * batch_size) /\
    create_diamonds_config batch_size = Ok dcfg /\
    getitem2 dcfg "fit_config" "steps_per_epoch" = Ok (VInt dspe) /\
    getitem2 dcfg "evaluate_config" "steps" = Ok (VInt dst) /\
    (0 <= dspe /\ dspe * batch_size <= 40000 < (dspe + 1) * batch_size) /\
    (0 <= dst /\ dst * batch_size <= 13940 < (dst + 1) * batch_size).
Proof.
  intros Hb.
  assert (Hne : batch_size <> 0) by lia.
  eexists. eexists. eexists. eexists. eexists. eexists.
  split; [apply create_config_eq; exact Hne|].
  split; [reflexivity|]. split; [reflexivity|].
  split; [apply quotient_covers; [unfold NUM_TRAIN_SAMPLES; lia|exact Hb]|].
  split; [apply quotient_covers; [unfold NUM_TEST_SAMPLES; lia|exact Hb]|].
  split; [apply create_diamonds_config_eq; exact Hne|].
  split; [reflexivity|]. split; [reflexivity|].
  split; apply quotient_covers; (lia || exact Hb).
Qed.

(** Witness for X1 at the default [batch_size = 128]. *)
Lemma config_steps_cover_witness :
  exists cfg dcfg spe st dspe dst,
    create_config 128 = Ok cfg /\
    getitem2 cfg "fit_config" "steps_per_epoch" = Ok (VInt spe) /\
    getitem2 cfg "evaluate_config" "steps" = Ok (VInt st) /\
    (0 <= spe /\ spe * 128 <= NUM_TRAIN_SAMPLES < (spe + 1) * 128) /\
    (0 <= st /\ st * 128 <= NUM_TEST_SAMPLES < (st + 1) * 128) /\
    create_diamonds_config 128 = Ok dcfg /\
    getitem2 dcfg "fit_config" "steps_per_epoch" = Ok (VInt dspe) /\
    getitem2 dcfg "evaluate_config" "steps" = Ok (VInt dst) /\
    (0 <= dspe /\ dspe * 128 <= 40000 < (dspe + 1) * 128) /\
    (0 <= dst /\ dst * 128 <= 13940 < (dst + 1) * 128).
Proof. apply (config_steps_cover 128). lia. Defined.

(** X2.  Out-of-range batch sizes raise nothing.  A batch larger than the
    training data gives [create_config] zero steps per epoch and zero
    evaluation steps; a negative batch size gives negative step counts. *)
Theorem config_steps_degenerate (batch_size : Z) :
  (NUM_TRAIN_SAMPLES < batch_size ->
   create_config batch_size
   = Ok (VDict [ ("batch_size", VInt batch_size);
                 ("fit_config", VDict [("steps_per_epoch", VInt 0)]);
                 ("evaluate_config", VDict [("steps", VInt 0)]) ]))
  /\
  (batch_size < 0 ->
   exists cfg spe st,
     create_config batch_size = Ok cfg /\
     getitem2 cfg "fit_config" "steps_per_epoch" = Ok (VInt spe) /\
     getitem2 cfg "evaluate_config" "steps" = Ok (VInt st) /\
     spe < 0 /\ st < 0).
Proof.
  unfold NUM_TRAIN_SAMPLES. split; intros Hb.
  - rewrite create_config_eq by lia.
    rewrite (Z.div_small 1000 batch_size) by lia.
    rewrite (Z.div_small 400 batch_size) by lia. reflexivity.
  - eexists. eexists. eexists.
    split; [apply create_config_eq; lia|].
    split; [reflexivity|]. split; [reflexivity|].
    split.
    + pose proof (Z.div_mod 1000 batch_size ltac:(lia)).
      pose proof (Z.mod_neg_bound 1000 batch_size Hb). nia.
    + pose proof (Z.div_mod 400 batch_size ltac:(lia)).
      pose proof (Z.mod_neg_bound 400 batch_size Hb). nia.
Qed.

(** Witness for X2: a batch of 2000 samples, and a batch size of -128. *)
Lemma config_steps_degenerate_witness :
  create_config 2000
  = Ok (VDict [ ("batch_size", VInt 2000);
                ("fit_config", VDict [("steps_per_epoch", VInt 0)]);
                ("evaluate_config", VDict [("steps", VInt 0)]) ])
  /\
  exists cfg spe st,
    create_config (-128) = Ok cfg /\
    getitem2 cfg "fit_config" "steps_per_epoch" = Ok (VInt spe) /\
    getitem2 cfg "evaluate_config" "steps" = Ok (VInt st) /\
    spe < 0 /\ st < 0.
Proof.
  split.
  - apply (proj1 (config_steps_degenerate 2000)). reflexivity.
  - apply (proj2 (config_steps_degenerate (-128))). reflexivity.
Defined.

End ConfigMore.

(* ===================================================================== *)
(** ** More on the DQN configuration cell *)
(* ===================================================================== *)

Module DQNMore.
Import DQN DQNFacts.

(** Witness for X3: a default configuration with two other settings and a
    model dictionary that already has hidden layers. *)
Lemma dqn_config_assigns_witness :
  exists config,
    dqn_config (VDict [ ("gamma"%string, VFloat 0.99%float);
                        ("model"%string,
                         VDict [("fcnet_hiddens"%string, VList [VInt 256; VInt 256])]);
                        ("num_workers"%string, VInt 0) ]) = Ok config /\
    getitem config "log_level" = Ok (VStr "WARN") /\
    getitem config "num_workers" = Ok (VInt 2) /\
    getitem2 config "model" "fcnet_hiddens" = Ok (VList [VInt 40; VInt 20]) /\
    getitem config "num_cpus_per_worker" = Ok (VInt 0).
Proof.
  apply (dqn_config_assigns _ [("fcnet_hiddens"%string, VList [VInt 256; VInt 256])]).
  reflexivity.
Defined.

Lemma assoc_set_id (k : string) (v : value) (items : list (string * value)) :
  assoc k items = Some v -> assoc_set k v items = items.
Proof.
  induction items as [|[k' v'] items IH]; simpl; intros H; [discriminate H|].
  destruct (String.eqb_spec k k') as [<-|Hk].
  - injection H as <-. reflexivity.
  - rewrite (IH H). reflexivity.
Qed.

Lemma eqb_false (k k' : string) : k <> k' -> String.eqb k k' = false.
Proof. intros H. apply String.eqb_neq. exact H. Qed.

Lemma dqn_config_eq (items model : list (string * value)) :
  assoc "model" items = Some (VDict model) ->
  dqn_config (VDict items)
  = Ok (VDict
          (assoc_set "num_cpus_per_worker" (VInt 0)
             (assoc_set "model"
                (VDict (assoc_set "fcnet_hiddens" (VList [VInt 40; VInt 20]) model))
                (assoc_set "num_workers" (VInt 2)
                   (assoc_set "log_level" (VStr "WARN") items))))).
Proof.
  intros Hm. unfold dqn_config. cbn [setitem rbind getitem].
  rewrite !assoc_set_other by reflexivity. rewrite Hm. reflexivity.
Qed.

(** X4.  The configuration cell changes nothing else: every other key of
    the default configuration, and every other key of its model
    dictionary, reads after the assignments as it read before. *)
Theorem dqn_config_frame (items model : list (string * value)) (k k' : string) :
  assoc "model" items = Some (VDict model) ->
  k <> "log_level"%string -> k <> "num_workers"%string ->
  k <> "model"%string -> k <> "num_cpus_per_worker"%string ->
  k' <> "fcnet_hiddens"%string ->
  exists config,
    dqn_config (VDict items) = Ok config /\
    getitem config k = getitem (VDict items) k /\
    getitem2 config "model" k' = getitem (VDict model) k'.
Proof.
  intros Hm H1 H2 H3 H4 H5. eexists.
  split; [apply dqn_config_eq; exact Hm|].
  unfold getitem2. cbn [getitem rbind]. split.
  - rewrite !assoc_set_other by (apply eqb_false; assumption). reflexivity.
  - rewrite (assoc_set_other "num_cpus_per_worker") by reflexivity.
    rewrite assoc_set_same. cbn [rbind getitem].
    rewrite assoc_set_other by (apply eqb_false; assumption). reflexivity.
Qed.

(** Witness for X4: the setting [gamma] and the model setting
    [fcnet_activation] of a small default configuration. *)
Lemma dqn_config_frame_witness :
  exists config,
    dqn_config (VDict [ ("gamma"%string, VFloat 0.99%float);
                        ("model"%string,
                         VDict [("fcnet_activation"%string, VStr "tanh")]) ])
    = Ok config /\
    getitem config "gamma"
    = getitem (VDict [ ("gamma"%string, VFloat 0.99%float);
                       ("model"%string,
                        VDict [("fcnet_activation"%string, VStr "tanh")]) ]) "gamma" /\
    getitem2 config "model" "fcnet_activation"
    = getitem (VDict [("fcnet_activation"%string, VStr "tanh")]) "fcnet_activation".
Proof.
  apply (dqn_config_frame _ [("fcnet_activation"%string, VStr "tanh")]);
    (reflexivity || discriminate).
Defined.

(** X5.  The cell fails on a default configuration without a ["model"]
    entry: [config['model']['fcnet_hiddens'] = ...] raises
    [KeyError('model')].  Where it succeeds it is idempotent: running the
    assignments again on their own result leaves it unchanged. *)
Theorem dqn_config_rerun (items : list (string * value)) :
  (assoc "model" items = None ->
   dqn_config (VDict items) = Err (KeyError "model"))
  /\
  (forall config,
      dqn_config (VDict items) = Ok config -> dqn_config config = Ok config).
Proof.
  split.
  - intros Hm. unfold dqn_config. cbn [setitem rbind getitem].
    rewrite !assoc_set_other by reflexivity. rewrite Hm. reflexivity.
  - intros config H.
    destruct (assoc "model" items) as [m|] eqn:Hm.
    + destruct m as [z|f|b|s|l|model|id];
        try (unfold dqn_config in H; cbn [setitem rbind getitem] in H;
             rewrite !assoc_set_other in H by reflexivity;
             rewrite Hm in H; discriminate H).
      rewrite (dqn_config_eq items model Hm) in H. injection H as <-.
      set (M := VDict (assoc_set "fcnet_hiddens" (VList [VInt 40; VInt 20]) model)).
      set (L := assoc_set "num_cpus_per_worker" (VInt 0)
                  (assoc_set "model" M
                     (assoc_set "num_workers" (VInt 2)
                        (assoc_set "log_level" (VStr "WARN") items)))).
      assert (Hll : assoc "log_level" L = Some (VStr "WARN")).
      { unfold L. rewrite !assoc_set_other by reflexivity. apply assoc_set_same. }
      assert (Hnw : assoc "num_workers" L = Some (VInt 2)).
      { unfold L. rewrite !assoc_set_other by reflexivity. apply assoc_set_same. }
      assert (HM : assoc "model" L = Some M).
      { unfold L. rewrite !assoc_set_other by reflexivity. apply assoc_set_same. }
      assert (Hnc : assoc "num_cpus_per_worker" L = Some (VInt 0)).
      { unfold L. apply assoc_set_same. }
      unfold dqn_config. cbn [setitem rbind getitem].
      rewrite (assoc_set_id _ _ _ Hll), (assoc_set_id _ _ _ Hnw), HM.
      unfold M at 1. cbn [setitem rbind].
      rewrite (assoc_set_id "fcnet_hiddens" (VList [VInt 40; VInt 20])
                 (assoc_set "fcnet_hiddens" (VList [VInt 40; VInt 20]) model))
        by apply assoc_set_same.
      fold M. rewrite (assoc_set_id _ _ _ HM), (assoc_set_id _ _ _ Hnc).
      reflexivity.
    + exfalso. unfold dqn_config in H. cbn [setitem rbind getitem] in H.
      rewrite !assoc_set_other in H by reflexivity.
      rewrite Hm in H. discriminate H.
Qed.

(** Witness for X5: an empty default configuration, and one with an empty
    model dictionary. *)
Lemma dqn_config_rerun_witness :
  dqn_config (VDict []) = Err (KeyError "model") /\
  dqn_config (VDict [ ("model"%string,
                       VDict [("fcnet_hiddens"%string, VList [VInt 40; VInt 20])]);
                      ("log_level"%string, VStr "WARN");
                      ("num_workers"%string, VInt 2);
                      ("num_cpus_per_worker"%string, VInt 0) ])
  = Ok (VDict [ ("model"%string,
                 VDict [("fcnet_hiddens"%string, VList [VInt 40; VInt 20])]);
                ("log_level"%string, VStr "WARN");
                ("num_workers"%string, VInt 2);
                ("num_cpus_per_worker"%string, VInt 0) ]).
Proof.
  split.
  - apply (proj1 (dqn_config_rerun [])). reflexivity.
  - apply (proj2 (dqn_config_rerun [("model"%string, VDict [])])). reflexivity.
Defined.

End DQNMore.

(* ===================================================================== *)
(** ** The toy data: which samples go where *)
(* ===================================================================== *)

Module DatasetFacts.
Import RaySGD Numpy Datasets NumpyFacts ConfigFacts.

Lemma nth_map_seq {A : Type} (f : nat -> A) (c n i : nat) (d : A) :
  (i < n)%nat -> nth i (map f (seq c n)) d = f (c + i)%nat.
Proof.
  intros Hi.
  rewrite (nth_indep (map f (seq c n)) d (f 0%nat))
    by (rewrite length_map, length_seq; exact Hi).
  rewrite map_nth, seq_nth by exact Hi. reflexivity.
Qed.

(** X6.  [linear_dataset(size)] takes exactly [size] samples from NumPy's
    generator, the next ones in its stream, in order: element [i] of [x] is
    the sample at position [consumed + i], and the generator has moved on
    by [size].  A negative [size] raises [ValueError] and takes none. *)
Theorem linear_dataset_draws (size : Z) (g : generator) :
  (size < 0 -> linear_dataset size g = (Err ValueError, g))
  /\
  (0 <= size ->
   exists x y g',
     linear_dataset size g = (Ok (x, y), g') /\
     samples g' = samples g /\
     consumed g' = (consumed g + Z.to_nat size)%nat /\
     forall i, (i < Z.to_nat size)%nat ->
       nth i (data x) 0%float = samples g (consumed g + i)%nat).
Proof.
  split; intros Hs.
  - unfold linear_dataset, rand.
    destruct (Z.ltb_spec size 0) as [_|Hge]; [reflexivity|lia].
  - eexists. eexists. eexists.
    split; [apply linear_dataset_eq; exact Hs|].
    split; [reflexivity|]. split; [reflexivity|].
    intros i Hi. cbn [data]. apply nth_map_seq. exact Hi.
Qed.

(** Witness for X6: a negative size, and three samples. *)
Lemma linear_dataset_draws_witness :
  linear_dataset (-1) alternating = (Err ValueError, alternating)
  /\
  exists x y g',
    linear_dataset 3 alternating = (Ok (x, y), g') /\
    samples g' = samples alternating /\
    consumed g' = (consumed alternating + Z.to_nat 3)%nat /\
    forall i, (i < Z.to_nat 3)%nat ->
      nth i (data x) 0%float = samples alternating (consumed alternating + i)%nat.
Proof.
  split.
  - apply (proj1 (linear_dataset_draws (-1) alternating)). reflexivity.
  - apply (proj2 (linear_dataset_draws 3 alternating)). lia.
Defined.

(** The two draws of [simple_dataset], written out: they come before the
    pipelines are built, so they are made whatever the batch size is. *)
Lemma simple_dataset_eq (config batch_size : value) (g : generator) :
  getitem config "batch_size" = Ok batch_size ->
  let n_train := Z.to_nat NUM_TRAIN_SAMPLES in
  let n_test := Z.to_nat NUM_TEST_SAMPLES in
  let train := map (samples g) (seq (consumed g) n_train) in
  let test := map (samples g) (seq (consumed g + n_train) n_test) in
  simple_dataset config g
  = (rbind (batch batch_size
              (repeat (shuffle NUM_TRAIN_SAMPLES
                 (from_tensor_slices
                    {| shape := [NUM_TRAIN_SAMPLES; 1]; data := train |}
                    {| shape := [NUM_TRAIN_SAMPLES; 1];
                       data := map (PrimFloat.mul 2%float) train |}))))
       (fun train_dataset =>
     rbind (batch batch_size
              (repeat
                 (from_tensor_slices
                    {| shape := [NUM_TEST_SAMPLES; 1]; data := test |}
                    {| shape := [NUM_TEST_SAMPLES; 1];
                       data := map (PrimFloat.mul 2%float) test |})))
       (fun test_dataset => Ok (train_dataset, test_dataset))),
     {| samples := samples g;
        consumed := (consumed g + n_train + n_test)%nat |}).
Proof.
  intros Hk n_train n_test train test. unfold simple_dataset. rewrite Hk.
  rewrite (linear_dataset_eq NUM_TRAIN_SAMPLES g) by (unfold NUM_TRAIN_SAMPLES; lia).
  rewrite (linear_dataset_eq NUM_TEST_SAMPLES) by (unfold NUM_TEST_SAMPLES; lia).
  reflexivity.
Qed.

Lemma batch_positive (n : Z) (d : dataset) :
  0 < n < 2 ^ 63 -> batch (VInt n) d = Ok (batched n d).
Proof.
  intros Hn. unfold batch.
  destruct (Z.ltb_spec n (- 2 ^ 63)); [lia|].
  destruct (Z.leb_spec (2 ^ 63) n); [lia|].
  destruct (Z.leb_spec n 0); [lia|]. reflexivity.
Qed.

Lemma batch_not_positive (n : Z) (d : dataset) :
  - 2 ^ 63 <= n <= 0 -> batch (VInt n) d = Err (LibraryError "InvalidArgumentError").
Proof.
  intros Hn. unfold batch.
  destruct (Z.ltb_spec n (- 2 ^ 63)); [lia|].
  destruct (Z.leb_spec (2 ^ 63) n); [lia|].
  destruct (Z.leb_spec n 0); [reflexivity|lia].
Qed.

(** X7.  [simple_dataset] draws the training and the test data from
    disjoint, consecutive parts of the generator's stream, the 1000
    training samples first and the 400 test samples right behind them, and
    it does so before it builds the pipelines.  With a positive [int]
    batch size both targets are twice their inputs, only the training data
    is shuffled (with a buffer that holds all of it) and both pipelines
    are batched by the configured size.  With a batch size that is zero or
    negative [batch] raises [InvalidArgumentError], after the 1400 samples
    have been taken from the generator. *)
Theorem simple_dataset_draws (config : value) (batch_size : Z) (g : generator) :
  getitem config "batch_size" = Ok (VInt batch_size) ->
  (0 < batch_size < 2 ^ 63 ->
   exists x_train y_train x_test y_test g',
     simple_dataset config g
     = (Ok (batched batch_size
              (repeat (shuffle NUM_TRAIN_SAMPLES (from_tensor_slices x_train y_train))),
            batched batch_size (repeat (from_tensor_slices x_test y_test))), g') /\
     shape x_train = [NUM_TRAIN_SAMPLES; 1] /\ shape y_train = [NUM_TRAIN_SAMPLES; 1] /\
     shape x_test = [NUM_TEST_SAMPLES; 1] /\ shape y_test = [NUM_TEST_SAMPLES; 1] /\
     data x_train
     = map (samples g) (seq (consumed g) (Z.to_nat NUM_TRAIN_SAMPLES)) /\
     data x_test
     = map (samples g) (seq (consumed g + Z.to_nat NUM_TRAIN_SAMPLES)
                            (Z.to_nat NUM_TEST_SAMPLES)) /\
     data y_train = map (PrimFloat.mul 2%float) (data x_train) /\
     data y_test = map (PrimFloat.mul 2%float) (data x_test) /\
     consumed g'
     = (consumed g + Z.to_nat NUM_TRAIN_SAMPLES + Z.to_nat NUM_TEST_SAMPLES)%nat)
  /\
  (- 2 ^ 63 <= batch_size <= 0 ->
   exists g',
     simple_dataset config g = (Err (LibraryError "InvalidArgumentError"), g') /\
     samples g' = samples g /\
     consumed g'
     = (consumed g + Z.to_nat NUM_TRAIN_SAMPLES + Z.to_nat NUM_TEST_SAMPLES)%nat).
Proof.
  intros Hk. split; intros Hb.
  - eexists. eexists. eexists. eexists. eexists.
    split.
    + rewrite (simple_dataset_eq config (VInt batch_size) g Hk).
      rewrite !(batch_positive batch_size) by exact Hb. reflexivity.
    + repeat split.
  - eexists. split.
    + rewrite (simple_dataset_eq config (VInt batch_size) g Hk).
      rewrite (batch_not_positive batch_size) by exact Hb. reflexivity.
    + split; reflexivity.
Qed.

(** Witness for X7: configurations that only have a batch size, 128 and
    0. *)
Lemma simple_dataset_draws_witness :
  (exists x_train y_train x_test y_test g',
     simple_dataset (VDict [("batch_size"%string, VInt 128)]) alternating
     = (Ok (batched 128
              (repeat (shuffle NUM_TRAIN_SAMPLES (from_tensor_slices x_train y_train))),
            batched 128 (repeat (from_tensor_slices x_test y_test))), g') /\
     shape x_train = [NUM_TRAIN_SAMPLES; 1] /\ shape y_train = [NUM_TRAIN_SAMPLES; 1] /\
     shape x_test = [NUM_TEST_SAMPLES; 1] /\ shape y_test = [NUM_TEST_SAMPLES; 1] /\
     data x_train
     = map (samples alternating)
           (seq (consumed alternating) (Z.to_nat NUM_TRAIN_SAMPLES)) /\
     data x_test
     = map (samples alternating)
           (seq (consumed alternating + Z.to_nat NUM_TRAIN_SAMPLES)
                (Z.to_nat NUM_TEST_SAMPLES)) /\
     data y_train = map (PrimFloat.mul 2%float) (data x_train) /\
     data y_test = map (PrimFloat.mul 2%float) (data x_test) /\
     consumed g'
     = (consumed alternating + Z.to_nat NUM_TRAIN_SAMPLES
        + Z.to_nat NUM_TEST_SAMPLES)%nat)
  /\
  (exists g',
     simple_dataset (VDict [("batch_size"%string, VInt 0)]) alternating
     = (Err (LibraryError "InvalidArgumentError"), g') /\
     samples g' = samples alternating /\
     consumed g'
     = (consumed alternating + Z.to_nat NUM_TRAIN_SAMPLES
        + Z.to_nat NUM_TEST_SAMPLES)%nat).
Proof.
  split.
  - apply (proj1 (simple_dataset_draws (VDict [("batch_size"%string, VInt 128)])
                    128 alternating eq_refl)).
    lia.
  - apply (proj2 (simple_dataset_draws (VDict [("batch_size"%string, VInt 0)])
                    0 alternating eq_refl)).
    lia.
Defined.

(** X8.  A configuration without a ["batch_size"] entry makes
    [simple_dataset] raise [KeyError('batch_size')] before it draws any
    sample.  Every configuration that [create_config] returns has the
    entry, but not every one is accepted: for a positive batch size
    [simple_dataset] succeeds on it and batches both pipelines by that
    size, for a negative batch size, which [create_config] accepts,
    [simple_dataset] raises [InvalidArgumentError]. *)
Theorem simple_dataset_config (g : generator) :
  (forall items,
      assoc "batch_size" items = None ->
      simple_dataset (VDict items) g = (Err (KeyError "batch_size"), g))
  /\
  (forall batch_size cfg,
      create_config batch_size = Ok cfg ->
      0 < batch_size < 2 ^ 63 ->
      exists train test g',
        simple_dataset cfg g
        = (Ok (batched batch_size train, batched batch_size test), g'))
  /\
  (forall batch_size,
      - 2 ^ 63 <= batch_size < 0 ->
      exists cfg g',
        create_config batch_size = Ok cfg /\
        simple_dataset cfg g = (Err (LibraryError "InvalidArgumentError"), g')).
Proof.
  split; [|split].
  - intros items Hk. unfold simple_dataset, getitem. rewrite Hk. reflexivity.
  - intros batch_size cfg Hc Hb.
    rewrite (create_config_eq batch_size) in Hc by lia. injection Hc as <-.
    eexists. eexists. eexists.
    erewrite simple_dataset_eq by reflexivity.
    rewrite !(batch_positive batch_size) by exact Hb. reflexivity.
  - intros batch_size Hb.
    eexists. eexists. split; [apply create_config_eq; lia|].
    erewrite simple_dataset_eq by reflexivity.
    rewrite (batch_not_positive batch_size) by lia. reflexivity.
Qed.

(** Witness for X8: an empty configuration, [create_config(128)] and
    [create_config(-128)]. *)
Lemma simple_dataset_config_witness :
  simple_dataset (VDict []) alternating = (Err (KeyError "batch_size"), alternating)
  /\
  (exists train test g',
    simple_dataset
      (VDict [ ("batch_size"%string, VInt 128);
               ("fit_config"%string, VDict [("steps_per_epoch"%string, VInt 7)]);
               ("evaluate_config"%string, VDict [("steps"%string, VInt 3)]) ])
      alternating
    = (Ok (batched 128 train, batched 128 test), g'))
  /\
  (exists cfg g',
      create_config (-128) = Ok cfg /\
      simple_dataset cfg alternating
      = (Err (LibraryError "InvalidArgumentError"), g')).
Proof.
  split; [|split].
  - apply (proj1 (simple_dataset_config alternating) []). reflexivity.
  - apply (proj1 (proj2 (simple_dataset_config alternating)) 128);
      [reflexivity|lia].
  - apply (proj2 (proj2 (simple_dataset_config alternating)) (-128)). lia.
Defined.

End DatasetFacts.

(* ===================================================================== *)
(** ** More on the [sed] line: untouched files, reruns, rejected values *)
(* ===================================================================== *)

Module BinderMore.
Import Binder BinderValues BinderFacts.

Lemma occurs_cons (p s : text) (c : ascii) : occurs p s -> occurs p (c :: s).
Proof. intros (pre & post & ->). exists (c :: pre), post. reflexivity. Qed.

Lemma occurs_within (p l s pre post : text) :
  s = pre ++ l ++ post -> occurs p l -> occurs p s.
Proof.
  intros -> (a & b & ->). exists (pre ++ a), (b ++ post).
  rewrite <- !app_assoc. reflexivity.
Qed.

(** A line without a match goes through the command unchanged, whatever
    the replacement and the flags. *)
Lemma substitute_no_match (pat : text) (items : list ritem) (global : bool)
      (fuel : nat) (line : text) :
  ~ occurs pat line -> substitute_fuel fuel pat items global line = line.
Proof.
  revert line. induction fuel as [|fuel IH]; intros line Hno; [reflexivity|].
  destruct line as [|c tl]; [reflexivity|]. cbn [substitute_fuel].
  destruct (strip_prefix pat (c :: tl)) as [rest|] eqn:E.
  - exfalso. apply Hno. apply strip_prefix_Some in E.
    exists [], rest. exact E.
  - f_equal. apply IH. intros H. apply Hno. apply occurs_cons. exact H.
Qed.

Lemma unlines_lines (s : text) : unlines (lines s) = s.
Proof.
  induction s as [|c tl IH]; [reflexivity|].
  destruct (lines tl) as [|l0 ls] eqn:El; [exfalso; exact (lines_nonempty tl El)|].
  destruct (Ascii.eqb_spec c newline) as [->|Hc].
  - cbn [lines]. rewrite Ascii.eqb_refl, El.
    change (unlines ([] :: l0 :: ls)) with (newline :: unlines (l0 :: ls)).
    rewrite IH. reflexivity.
  - rewrite (lines_cons c tl l0 ls Hc El).
    change (c :: l0) with ([c] ++ l0). rewrite unlines_app_head, IH. reflexivity.
Qed.

Lemma lines_within (s l : text) :
  In l (lines s) -> exists pre post, s = pre ++ l ++ post.
Proof.
  revert l. induction s as [|c tl IH]; intros l Hin.
  - destruct Hin as [<-|[]]. exists [], []. reflexivity.
  - destruct (lines tl) as [|l0 ls] eqn:El; [exfalso; exact (lines_nonempty tl El)|].
    destruct (Ascii.eqb_spec c newline) as [->|Hc].
    + cbn [lines] in Hin. rewrite Ascii.eqb_refl, El in Hin.
      destruct Hin as [<-|Hin].
      * exists [], (newline :: tl). reflexivity.
      * destruct (IH l Hin) as (pre & post & E).
        exists (newline :: pre), post. rewrite E at 1. reflexivity.
    + rewrite (lines_cons c tl l0 ls Hc El) in Hin.
      destruct Hin as [<-|Hin].
      * destruct (lines_head_prefix tl l0 ls El) as [t Ht].
        exists [], t. rewrite Ht at 1. reflexivity.
      * destruct (IH l (or_intror Hin)) as (pre & post & E).
        exists (c :: pre), post. rewrite E at 1. reflexivity.
Qed.

Lemma sed_lines_no_match (pat : text) (items : list ritem) (global : bool)
      (content : text) :
  ~ occurs pat content -> sed_lines pat items global content = content.
Proof.
  intros Hno. unfold sed_lines.
  rewrite (map_ext_in _ (fun l => l)).
  - rewrite map_id. apply unlines_lines.
  - intros l Hin. apply substitute_no_match. intros Hocc. apply Hno.
    destruct (lines_within content l Hin) as (pre & post & E).
    exact (occurs_within pat l content pre post E Hocc).
Qed.




(** *** Running the script again *)

(** Joining pieces free of the pattern with a separator that shares no
    character with the pattern cannot create an occurrence. *)
Lemma join_free (pat sep : text) :
  pat <> [] -> sep <> [] ->
  (forall c, In c sep -> ~ In c pat) ->
  forall more first,
    Forall (fun piece => ~ occurs pat piece) (first :: more) ->
    ~ occurs pat (join sep first more).
Proof.
  intros Hpat Hsep Hdis. induction more as [|p more IH]; intros first Hfree.
  - rewrite join_nil. exact (Forall_inv Hfree).
  - pose proof (Forall_inv Hfree) as Hfirst.
    pose proof (IH p (Forall_inv_tail Hfree)) as HJ.
    rewrite join_cons. intros (pre & post & E).
    apply app_eq_app in E. destruct E as (l & [[E1 E2]|[E1 E2]]).
    + (* the occurrence starts inside [first] *)
      apply app_eq_app in E2. destruct E2 as (l' & [[E3 E4]|[E3 E4]]).
      * destruct l' as [|c l'].
        -- apply Hfirst. exists pre, []. rewrite app_nil_r in E3 |- *.
           rewrite E3. exact E1.
        -- destruct sep as [|r sep]; [contradiction|].
           simpl in E4. injection E4 as Er _. subst r.
           apply (Hdis c (or_introl eq_refl)). rewrite E3.
           apply in_or_app. right. left. reflexivity.
      * apply Hfirst. exists pre, l'. rewrite E1, E3. reflexivity.
    + (* the occurrence starts behind [first] *)
      apply app_eq_app in E2. destruct E2 as (l' & [[E3 E4]|[E3 E4]]).
      * destruct l' as [|c l'].
        -- apply HJ. exists [], post. simpl in E4 |- *. symmetry. exact E4.
        -- destruct pat as [|p0 pat]; [contradiction|].
           simpl in E4. injection E4 as Ep _. subst p0.
           apply (Hdis c); [|left; reflexivity].
           rewrite E3. apply in_or_app. right. left. reflexivity.
      * apply HJ. exists l', post. exact E4.
Qed.

Lemma foreign_disjoint (s : text) :
  foreign s = true -> forall c, In c s -> ~ In c PLACEHOLDER.
Proof.
  unfold foreign. rewrite forallb_forall. intros H c Hin Hp.
  specialize (H c Hin). unfold foreign_char in H.
  apply negb_true_iff in H.
  assert (Hex : existsb (Ascii.eqb c) PLACEHOLDER = true).
  { apply existsb_exists. exists c. split; [exact Hp|apply Ascii.eqb_refl]. }
  rewrite Hex in H. discriminate H.
Qed.

Lemma proxy_location_foreign (env : environment) :
  foreign (expand env "JUPYTERHUB_BASE_URL") = true ->
  foreign (expand env "JUPYTERHUB_USER") = true ->
  foreign (proxy_location env) = true.
Proof.
  intros Hb Hu. unfold proxy_location, foreign.
  rewrite !forallb_app. fold (foreign (expand env "JUPYTERHUB_BASE_URL")).
  fold (foreign (expand env "JUPYTERHUB_USER")). rewrite Hb, Hu. reflexivity.
Qed.

Lemma proxy_location_nonempty (env : environment) : proxy_location env <> [].
Proof.
  unfold proxy_location. intros E.
  apply app_eq_nil in E. destruct E as [_ E]. discriminate E.
Qed.

(** X10.  When the two values are plain and contain no character of the
    placeholder (no capital letter among D, A, S, H, B, O, R, U, L, K and
    no underscore), the rewritten file contains no placeholder any more,
    and running the script a second time leaves it as the first run
    wrote it. *)
Theorem start_script_idempotent (env : environment) (content : text) :
  plain (expand env "JUPYTERHUB_BASE_URL") = true ->
  plain (expand env "JUPYTERHUB_USER") = true ->
  foreign (expand env "JUPYTERHUB_BASE_URL") = true ->
  foreign (expand env "JUPYTERHUB_USER") = true ->
  exists out,
    start_script env content = Some out /\
    ~ occurs PLACEHOLDER out /\
    start_script env out = Some out.
Proof.
  intros Hb Hu Fb Fu.
  rewrite (start_script_plain env content Hb Hu).
  rewrite (sed_lines_scan PLACEHOLDER _ placeholder_nonempty placeholder_one_line
             (List.length content) content (le_n _)).
  destruct (G_decomposition PLACEHOLDER (map Lit (proxy_location env))
              placeholder_nonempty (List.length content) content (le_n _))
    as (first & more & Hs & HG & Hfree).
  rewrite HG, instantiate_literal.
  assert (Hno : ~ occurs PLACEHOLDER (join (proxy_location env) first more)).
  { apply join_free.
    - exact placeholder_nonempty.
    - apply proxy_location_nonempty.
    - apply foreign_disjoint. apply proxy_location_foreign; assumption.
    - exact Hfree. }
  eexists. split; [reflexivity|]. split; [exact Hno|].
  rewrite (start_script_plain env _ Hb Hu). f_equal.
  apply sed_lines_no_match. exact Hno.
Qed.

(** Witness for X10: the sample file, user [alice]. *)
Lemma start_script_idempotent_witness :
  exists out,
    start_script (hub "alice") sample_workspace = Some out /\
    ~ occurs PLACEHOLDER out /\
    start_script (hub "alice") out = Some out.
Proof.
  apply (start_script_idempotent (hub "alice")); vm_compute; reflexivity.
Defined.

(** *** Values that [sed] rejects *)


Lemma parse_flags_long (a b : ascii) (s : text) : parse_flags (a :: b :: s) = None.
Proof. reflexivity. Qed.



End BinderMore.

(* ===================================================================== *)
(** ** More on the training functions *)
(* ===================================================================== *)

Module TrainingMore.
Import RaySGD Training Diamonds Example ProgFacts TrainingFacts.

Lemma tf_train_calls_app (a b : list event) :
  tf_train_calls (a ++ b) = (tf_train_calls a + tf_train_calls b)%nat.
Proof. unfold tf_train_calls. rewrite filter_app, length_app. reflexivity. Qed.

Lemma validate_calls_app (a b : list event) :
  validate_calls (a ++ b) = (validate_calls a + validate_calls b)%nat.
Proof. unfold validate_calls. rewrite filter_app, length_app. reflexivity. Qed.

Lemma metrics_logged_app (a b : list event) :
  metrics_logged (a ++ b) = (metrics_logged a + metrics_logged b)%nat.
Proof.
  unfold metrics_logged. rewrite persisted_app, filter_app, length_app. reflexivity.
Qed.

Lemma run_terminated_app (a b : list event) :
  run_terminated (a ++ b) = run_terminated a || run_terminated b.
Proof. unfold run_terminated. rewrite persisted_app. apply existsb_app. Qed.

Lemma tf_train_calls_cons (e : event) (l : list event) :
  tf_train_calls (e :: l)
  = ((if is_tf_train e then 1 else 0) + tf_train_calls l)%nat.
Proof. unfold tf_train_calls. simpl. destruct (is_tf_train e); reflexivity. Qed.

Lemma validate_calls_cons (e : event) (l : list event) :
  validate_calls (e :: l)
  = ((if is_validate e then 1 else 0) + validate_calls l)%nat.
Proof. unfold validate_calls. simpl. destruct (is_validate e); reflexivity. Qed.

Lemma persisted_cons (e : event) (l : list event) :
  persisted (e :: l) = written e ++ persisted l.
Proof. reflexivity. Qed.

Lemma output_cons (e : event) (l : list event) :
  output (e :: l) = prints e ++ output l.
Proof. reflexivity. Qed.

Lemma metrics_logged_cons (e : event) (l : list event) :
  metrics_logged (e :: l)
  = (List.length (filter is_metric (written e)) + metrics_logged l)%nat.
Proof.
  unfold metrics_logged. rewrite persisted_cons, filter_app, length_app. reflexivity.
Qed.

Lemma run_terminated_cons (e : event) (l : list event) :
  run_terminated (e :: l) = existsb is_terminated (written e) || run_terminated l.
Proof. unfold run_terminated. rewrite persisted_cons. apply existsb_app. Qed.

(** Take the next call of any run: it is answered, or it raises and ends
    the run (then [H] says so). *)
Ltac any_call H :=
  cbn [bind perform exec] in H;
  destruct H as [(? & ? & -> & H)|(? & -> & H)].

(** Bring the counts of a concatenated trace to numbers. *)
Ltac tally :=
  repeat (rewrite ?tf_train_calls_app, ?validate_calls_app, ?metrics_logged_app,
           ?run_terminated_app, ?tf_train_calls_cons, ?validate_calls_cons,
           ?metrics_logged_cons, ?run_terminated_cons,
           ?persisted_app, ?output_app, ?persisted_cons, ?output_cons,
           ?length_app).

(** Close the goals about a trace that has been written out. *)
Ltac wrap_up :=
  repeat split; intros; cbn in *; try discriminate; try reflexivity; try lia.

(** *** A zero batch size *)

(** X12.  With [batch_size = 0] the three training functions raise
    [ZeroDivisionError] while building their configuration: no trainer is
    created, no library is called, nothing reaches MLflow. *)
Theorem zero_batch_size_raises :
  forall (S : Type) (lib : behaviour S) (s : S)
         (experiment_id : string) (num_replicas : Z) (use_gpu : bool),
    run lib (train_example num_replicas 0 use_gpu) s
    = {| outcome := Err ZeroDivisionError; final := s; trace := [] |} /\
    run lib (train_diamonds num_replicas 0 use_gpu) s
    = {| outcome := Err ZeroDivisionError; final := s; trace := [] |} /\
    run lib (train_diamonds_mlflow experiment_id num_replicas 0 use_gpu) s
    = {| outcome := Err ZeroDivisionError; final := s; trace := [] |}.
Proof. intros. repeat split. Qed.

(** *** [train_diamonds] *)




(** *** [train_diamonds_mlflow] *)

Lemma mlflow_step_any (trainer : nat) (run_id : string) (i : Z)
      (tr : list event) (res : result unit) :
  exec (mlflow_step trainer run_id i) tr res ->
  run_terminated tr = false /\
  (tf_train_calls tr <= 1)%nat /\
  (succeeded res = true ->
   tf_train_calls tr = 1%nat /\
   metrics_logged tr = List.length (expected_metrics [i]) /\
   validate_calls tr = List.length (filter (fun i => Z.eqb (i mod 2) 0) [i])).
Proof.
  unfold mlflow_step, expected_metrics. intros H. cbn [flat_map filter].
  any_call H; [|subst res; wrap_up].
  destruct (Z.eqb (i mod 2) 0).
  - any_call H; [|subst res; wrap_up].
    any_call H; [|subst res; wrap_up].
    any_call H; [|subst res; wrap_up].
    destruct H as [-> ->]. wrap_up.
  - destruct H as [-> ->]. wrap_up.
Qed.

Lemma mlflow_loop_any (trainer : nat) (run_id : string) (l : list Z)
      (tr : list event) (res : result unit) :
  exec (for_each l (mlflow_step trainer run_id)) tr res ->
  run_terminated tr = false /\
  (tf_train_calls tr <= List.length l)%nat /\
  (succeeded res = true ->
   tf_train_calls tr = List.length l /\
   metrics_logged tr = List.length (expected_metrics l) /\
   validate_calls tr = List.length (filter (fun i => Z.eqb (i mod 2) 0) l)).
Proof.
  revert tr. induction l as [|i l IH]; intros tr H.
  - destruct H as [-> ->]. wrap_up.
  - cbn [for_each] in H. apply exec_bind in H.
    destruct H as [(u & t1 & t2 & H1 & H2 & ->)|(e & H1 & ->)].
    + apply mlflow_step_any in H1. destruct H1 as (Ht1 & Hle1 & Hok1).
      destruct (Hok1 eq_refl) as (Htf1 & Hm1 & Hv1).
      destruct (IH t2 H2) as (Ht2 & Hle2 & Hok2).
      tally. rewrite Ht1, Ht2, Htf1, Hm1, Hv1.
      split; [reflexivity|]. split; [simpl; lia|].
      intros Hs. destruct (Hok2 Hs) as (Htf2 & Hm2 & Hv2).
      rewrite Htf2, Hm2, Hv2, (expected_metrics_cons i l), length_app.
      repeat split. cbn [filter]. destruct (Z.eqb (i mod 2) 0); reflexivity.
    + apply mlflow_step_any in H1. destruct H1 as (Ht1 & Hle1 & _).
      split; [exact Ht1|]. split; [simpl; lia|discriminate].
Qed.

(** X14.  [train_diamonds_mlflow] terminates its MLflow run only after the
    whole loop: in every run in which the run was terminated,
    [trainer.train()] was invoked 32 times and 32 metrics were logged, so
    an exception inside the loop leaves the MLflow run unterminated.  A
    run that completes terminates it and validates 18 times (before, at
    the 16 even steps, and after). *)
Theorem train_diamonds_mlflow_terminates :
  forall (S : Type) (lib : behaviour S) (s : S)
         (experiment_id : string) (num_replicas batch_size : Z) (use_gpu : bool),
    let r := run lib (train_diamonds_mlflow experiment_id num_replicas
                                            batch_size use_gpu) s in
    (run_terminated (trace r) = true ->
     tf_train_calls (trace r) = 32%nat /\ metrics_logged (trace r) = 32%nat) /\
    (succeeded (outcome r) = true ->
     run_terminated (trace r) = true /\ validate_calls (trace r) = 18%nat).
Proof.
  intros S lib s experiment_id num_replicas batch_size use_gpu r.
  pose proof (run_exec lib (train_diamonds_mlflow experiment_id num_replicas
                                                  batch_size use_gpu) s) as H.
  fold r in H. revert H. generalize (trace r) (outcome r). clear r.
  intros tr res H. unfold train_diamonds_mlflow in H.
  destruct (create_diamonds_config batch_size) as [config|e];
    [|destruct H as [-> ->]; wrap_up].
  cbn [lift bind] in H.
  any_call H; [|subst res; wrap_up].
  any_call H; [|subst res; wrap_up].
  any_call H; [|subst res; wrap_up].
  any_call H; [|subst res; wrap_up].
  apply exec_bind in H.
  destruct H as [(u & t1 & t2 & H1 & H & ->)|(e & H1 & ->)];
    apply mlflow_loop_any in H1; destruct H1 as (Hterm & Hle & Hok).
  - destruct (Hok eq_refl) as (Htf & Hm & Hv). clear Hok Hle.
    change (List.length (range 32)) with 32%nat in Htf.
    change (List.length (expected_metrics (range 32))) with 32%nat in Hm.
    change (List.length (filter (fun i => Z.eqb (i mod 2) 0) (range 32)))
      with 16%nat in Hv.
    any_call H; [|subst res; tally; rewrite Hterm, Htf, Hm; wrap_up].
    any_call H; [|subst res; tally; rewrite Hterm, Htf, Hm; wrap_up].
    any_call H; [|subst res; tally; rewrite Hterm, Htf, Hm; wrap_up].
    destruct H as [-> ->].
    tally. rewrite Hterm, Htf, Hm, Hv. wrap_up.
  - clear Hok. tally. rewrite Hterm. wrap_up.
Qed.

(** Witness for X14: a run that completes. *)
Lemma train_diamonds_mlflow_terminates_witness :
  (tf_train_calls
     (trace (run improving (train_diamonds_mlflow "1" 1 128 false) 0%nat)) = 32%nat /\
   metrics_logged
     (trace (run improving (train_diamonds_mlflow "1" 1 128 false) 0%nat)) = 32%nat)
  /\
  (run_terminated
     (trace (run improving (train_diamonds_mlflow "1" 1 128 false) 0%nat)) = true /\
   validate_calls
     (trace (run improving (train_diamonds_mlflow "1" 1 128 false) 0%nat)) = 18%nat).
Proof.
  pose proof (train_diamonds_mlflow_terminates nat improving 0%nat "1" 1 128 false)
    as (Ht & Hc).
  split; [apply Ht|apply Hc]; vm_compute; reflexivity.
Defined.

(** A run whose eleventh library call raises (a [trainer.train()] inside
    the loop): the MLflow run was created and stays unterminated. *)
Lemma train_diamonds_mlflow_interrupted :
  outcome (run (failing_at 10) (train_diamonds_mlflow "1" 1 128 false) 0%nat)
    = Err (LibraryError "library call failed") /\
  run_created
    (trace (run (failing_at 10) (train_diamonds_mlflow "1" 1 128 false) 0%nat)) = true /\
  run_terminated
    (trace (run (failing_at 10) (train_diamonds_mlflow "1" 1 128 false) 0%nat)) = false.
Proof. repeat split; vm_compute; reflexivity. Qed.

End TrainingMore.

(* ===================================================================== *)
(** ** More on the DQN training cell *)
(* ===================================================================== *)

Module DQNRuns.
Import DQN Example ProgFacts DQNFacts.

Lemma rl_train_calls_cons (e : event) (l : list event) :
  rl_train_calls (e :: l)
  = ((if is_rl_train e then 1 else 0) + rl_train_calls l)%nat.
Proof. unfold rl_train_calls. simpl. destruct (is_rl_train e); reflexivity. Qed.

Lemma last_default {A : Type} (l : list A) (a d d' : A) :
  last (a :: l) d = last (a :: l) d'.
Proof.
  revert a. induction l as [|b l IH]; intros a; [reflexivity|].
  change (last (b :: l) d = last (b :: l) d'). apply IH.
Qed.

Lemma last_cons_shift {A : Type} (l : list A) (a d : A) :
  last (a :: l) d = last l a.
Proof.
  destruct l as [|b l]; [reflexivity|].
  change (last (b :: l) d = last (b :: l) a). apply last_default.
Qed.

(** One iteration, however it ends: one [train] invocation and at most one
    checkpoint, which is there when the iteration completes. *)
Lemma dqn_iteration_any (trainer : nat) (n : Z) (last_cp : string)
      (tr : list event) (res : result string) :
  exec (dqn_iteration trainer n last_cp) tr res ->
  rl_train_calls tr = 1%nat /\
  (List.length (persisted tr) <= 1)%nat /\
  (succeeded res = true -> List.length (persisted tr) = 1%nat).
Proof.
  simpl. intros [(result & t1 & -> & H)|(e & -> & ->)];
    [|repeat split; (simpl; lia) || discriminate].
  destruct H as [(path & t2 & -> & H)|(e & -> & ->)];
    [|repeat split; (simpl; lia) || discriminate].
  destruct H as [(u & t3 & -> & -> & _)|(e & -> & _)];
    repeat split; simpl; lia.
Qed.

Lemma dqn_loop_any (trainer : nat) (l : list Z) (init : string)
      (tr : list event) (res : result string) :
  exec (for_each_with l (dqn_iteration trainer) init) tr res ->
  (List.length (persisted tr) <= rl_train_calls tr <= List.length (persisted tr) + 1)%nat /\
  (succeeded res = true -> rl_train_calls tr = List.length (persisted tr)).
Proof.
  revert init tr. induction l as [|n l IH]; intros init tr H.
  - destruct H as [-> _]. split; [cbn; lia|reflexivity].
  - cbn [for_each_with] in H. apply exec_bind in H.
    destruct H as [(cp & t1 & t2 & H1 & H2 & ->)|(e & H1 & ->)].
    + apply dqn_iteration_any in H1. destruct H1 as (Hc1 & _ & Hp1).
      specialize (Hp1 eq_refl).
      destruct (IH cp t2 H2) as (Hb & Hok).
      rewrite rl_train_calls_app, persisted_app, length_app, Hc1, Hp1.
      split; [lia|]. intros Hs. rewrite (Hok Hs). reflexivity.
    + apply dqn_iteration_any in H1. destruct H1 as (Hc1 & Hle & _).
      split; [lia|discriminate].
Qed.

Lemma dqn_loop_last (trainer : nat) (l : list Z) (init cp : string) (tr : list event) :
  exec (for_each_with l (dqn_iteration trainer) init) tr (Ok cp) ->
  exists paths,
    persisted tr = map (Checkpoint checkpoint_dir) paths /\
    List.length paths = List.length l /\
    cp = last paths init.
Proof.
  revert init tr. induction l as [|n l IH]; intros init tr H.
  - simpl in H. destruct H as [-> H]. injection H as <-.
    exists []. repeat split.
  - cbn [for_each_with] in H. apply exec_bind_ok in H.
    destruct H as (cp1 & t1 & t2 & H1 & H2 & ->).
    apply dqn_iteration_ok in H1. destruct H1 as [result ->].
    destruct (IH cp1 t2 H2) as (paths & Hp & Hlen & Hcp).
    exists (cp1 :: paths). rewrite persisted_app, Hp.
    split; [reflexivity|]. split; [simpl; rewrite Hlen; reflexivity|].
    rewrite Hcp. symmetry. apply last_cons_shift.
Qed.

(** X15.  In the DQN cell a checkpoint is saved after every training
    iteration, in every run, also one that an exception cuts short: the
    number of checkpoints is the number of [trainer.train()] invocations
    or one less (when [train] or [save] raised in the last iteration).  A run that completes returns
    and prints as last checkpoint the path that the fiftieth
    [trainer.save] answered. *)
Theorem dqn_training_checkpoints :
  forall (S : Type) (lib : behaviour S) (s : S) (config : value),
    let r := run lib (dqn_training config) s in
    (List.length (persisted (trace r)) <= rl_train_calls (trace r)
     <= List.length (persisted (trace r)) + 1)%nat /\
    (forall cp,
        outcome r = Ok cp ->
        exists paths,
          persisted (trace r) = map (Checkpoint checkpoint_dir) paths /\
          List.length paths = N_ITER /\
          cp = last paths EmptyString /\
          last (output (trace r)) (PText EmptyString)
          = PFormat "last checkpoint file: {last_checkpoint}" [VStr cp]).
Proof.
  intros S lib s config r.
  pose proof (run_exec lib (dqn_training config) s) as H.
  fold r in H. revert H. generalize (trace r) (outcome r). clear r.
  intros tr res H. unfold dqn_training in H. split.
  - apply exec_bind in H.
    destruct H as [(trainer & t1 & t2 & H1 & H & ->)|(e & H1 & _)];
      apply exec_perform in H1; subst; [|cbn; lia].
    apply exec_bind in H.
    destruct H as [(cp & t3 & t4 & H3 & H & ->)|(e & H3 & _)];
      apply dqn_loop_any in H3; destruct H3 as (Hb & Hok).
    + specialize (Hok eq_refl).
      apply exec_bind in H.
      destruct H as [(u & t5 & t6 & H5 & H & ->)|(e & H5 & _)];
        apply exec_perform in H5; subst.
      * destruct H as [-> _].
        rewrite !rl_train_calls_app, !persisted_app, !length_app, Hok. cbn. lia.
      * rewrite !rl_train_calls_app, !persisted_app, !length_app, Hok. cbn. lia.
    + rewrite !rl_train_calls_app, !persisted_app, !length_app. cbn. lia.
  - intros cp Hres. subst res.
    apply exec_bind_ok in H. destruct H as (trainer & t1 & t2 & H1 & H & ->).
    apply exec_perform in H1. subst t1.
    apply exec_bind_ok in H. destruct H as (cp' & t3 & t4 & H3 & H & ->).
    pose proof (dqn_loop_ok trainer _ _ _ _ H3) as (_ & _ & _).
    apply dqn_loop_last in H3. destruct H3 as (paths & Hp & Hlen & Hcp).
    rewrite length_range in Hlen.
    apply exec_bind_ok in H. destruct H as (u & t5 & t6 & H5 & H & ->).
    apply exec_perform in H5. subst t5.
    destruct H as [-> H]. injection H as <-.
    exists paths. rewrite !persisted_app, Hp.
    split; [cbn; rewrite ?app_nil_r; reflexivity|].
    split; [exact Hlen|]. split; [exact Hcp|].
    rewrite !output_app. cbn [output flat_map prints app].
    apply last_last.
Qed.

(** Witness for X15: the run against the library whose loss falls. *)
Lemma dqn_training_checkpoints_witness :
  exists paths,
    persisted (trace (run improving (dqn_training (VDict [])) 0%nat))
    = map (Checkpoint checkpoint_dir) paths /\
    List.length paths = N_ITER /\
    "checkpoints/checkpoint"%string = last paths EmptyString /\
    last (output (trace (run improving (dqn_training (VDict [])) 0%nat)))
         (PText EmptyString)
    = PFormat "last checkpoint file: {last_checkpoint}"
              [VStr "checkpoints/checkpoint"].
Proof.
  apply (proj2 (dqn_training_checkpoints nat improving 0%nat (VDict []))).
  vm_compute. reflexivity.
Defined.

(** A run whose ninth library call raises (the third [trainer.save]):
    three training iterations were started, two checkpoints exist. *)
Lemma dqn_training_interrupted :
  rl_train_calls
    (trace (run (Diamonds.failing_at 8) (dqn_training (VDict [])) 0%nat)) = 3%nat /\
  List.length
    (persisted (trace (run (Diamonds.failing_at 8) (dqn_training (VDict [])) 0%nat)))
  = 2%nat.
Proof. split; vm_compute; reflexivity. Qed.

End DQNRuns.

(* ===================================================================== *)
(** ** More on the Tune notebook *)
(* ===================================================================== *)

Module TuningMore.
Import Tune TuneRun Tuning Example ProgFacts TuneFacts TuningFacts.

Lemma grid_cell (alpha : float) (beta s1 s2 : Z) :
  In alpha alpha_grid -> In beta beta_choices ->
  In s1 steps -> In s2 steps -> s1 < s2 ->
  cell_check alpha beta s1 s2 = true.
Proof.
  intros Ha Hb H1 H2 Hlt.
  pose proof grid_check_true as G. unfold grid_check in G.
  rewrite forallb_forall in G. specialize (G alpha Ha).
  rewrite forallb_forall in G. specialize (G beta Hb).
  rewrite forallb_forall in G. specialize (G s1 H1).
  rewrite forallb_forall in G. specialize (G s2 H2).
  apply Z.ltb_lt in Hlt. rewrite Hlt in G. exact G.
Qed.

Lemma in_steps (s : Z) : In s steps <-> 0 <= s < 10.
Proof.
  unfold steps. rewrite in_map_iff. split.
  - intros (n & <- & Hn). apply in_seq in Hn. lia.
  - intros Hs. exists (Z.to_nat s). split; [lia|]. apply in_seq. lia.
Qed.

(** On the notebook's grid [objective] returns at every step of the loop. *)
Lemma objective64_grid_ok (cpow : float -> float) (alpha : float) (beta s : Z) :
  Float64.faithful_pow cpow ->
  In alpha alpha_grid -> In beta beta_choices -> In s steps ->
  exists v, objective64 cpow s alpha beta = Ok v.
Proof.
  intros Hpow Ha Hb Hs.
  pose proof (proj1 (in_steps s) Hs) as Hr.
  destruct (Z.eq_dec s 0) as [->|Hnz].
  - destruct (cell_check_sound cpow alpha beta 0 1 Hpow) as
        (d1 & d2 & v1 & v2 & _ & _ & _ & _ & E & _).
    + apply grid_cell; try assumption; [apply in_steps|]; lia.
    + exists v1. exact E.
  - destruct (cell_check_sound cpow alpha beta 0 s Hpow) as
        (d1 & d2 & v1 & v2 & _ & _ & _ & _ & _ & E & _).
    + apply grid_cell; try assumption; [apply in_steps|]; lia.
    + exists v2. exact E.
Qed.

(** The loop of [training_function] from step [a] on, however it ends:
    the [i]-th loss that reached Tune is [objective] at step [a + i], and
    when [objective] returns at every step only [tune.report] can raise. *)
Lemma report_loop_any (cpow : float -> float) (alpha : float) (beta : Z)
      (n a : nat) (tr : list event) (res : result unit) :
  (forall step, In step (map Z.of_nat (seq a n)) ->
                exists v, objective64 cpow step alpha beta = Ok v) ->
  exec (for_each (map Z.of_nat (seq a n)) (fun step =>
          bind (lift (objective64 cpow step alpha beta))
               (fun score => perform (Tune_report score)))) tr res ->
  (List.length (reported tr) <= n)%nat /\
  (forall i v, nth_error (reported tr) i = Some v ->
               objective64 cpow (Z.of_nat (a + i)) alpha beta = Ok v) /\
  (forall e, res = Err e ->
             exists v tr', tr = tr' ++ [Event (Tune_report v) (Err e)]).
Proof.
  revert a tr. induction n as [|n IH]; intros a tr Hobj H.
  - destruct H as [-> ->]. repeat split.
    + cbn. lia.
    + intros [|i] v Hi; discriminate Hi.
    + intros e He. discriminate He.
  - cbn [seq map for_each] in H.
    destruct (Hobj (Z.of_nat a)) as [v0 E]; [cbn; left; reflexivity|].
    rewrite E in H. cbn [lift] in H.
    apply exec_bind in H.
    destruct H as [(u & t1 & t2 & H1 & H2 & ->)|(e & H1 & ->)].
    + cbn [bind] in H1. apply exec_perform in H1. subst t1.
      destruct (IH (S a) t2) as (Hlen & Hnth & Herr).
      { intros step Hs. apply Hobj. cbn [seq map]. right. exact Hs. }
      { exact H2. }
      rewrite reported_app. cbn [reported flat_map reports app].
      fold (reported t2). repeat split.
      * cbn. lia.
      * intros [|i] v Hi.
        -- injection Hi as <-. rewrite Nat.add_0_r. exact E.
        -- replace (a + S i)%nat with (S a + i)%nat by lia.
           apply Hnth. exact Hi.
      * intros e He. destruct (Herr e He) as (v & tr' & ->).
        exists v, (Event (Tune_report v0) (Ok u) :: tr'). reflexivity.
    + cbn [bind] in H1. apply exec_perform in H1. subst tr.
      repeat split.
      * cbn. lia.
      * intros [|i] v Hi; discriminate Hi.
      * intros e' He'. injection He' as <-. exists v0, []. reflexivity.
Qed.

(** X16.  [training_function] on the notebook's grid, for every reaction
    of Tune and every C library whose [pow] errs by less than one unit in
    the last place: the losses that reach Tune are the values of
    [objective] at steps 0, 1, 2, ... in this order, at most ten of them,
    and each is strictly below every one reported before it; the function
    raises only the exception that [tune.report] raised, [objective] never
    does. *)
Theorem training_function_reports_decreasing :
  forall (S : Type) (lib : behaviour S) (s : S)
         (cpow : float -> float) (alpha : float) (beta : Z),
    Float64.faithful_pow cpow ->
    In alpha alpha_grid -> In beta beta_choices ->
    let r := run lib (training_function cpow (tune_config alpha beta)) s in
    (List.length (reported (trace r)) <= 10)%nat /\
    (forall i v, nth_error (reported (trace r)) i = Some v ->
                 objective64 cpow (Z.of_nat i) alpha beta = Ok v) /\
    (forall i j vi vj,
        (i < j)%nat ->
        nth_error (reported (trace r)) i = Some vi ->
        nth_error (reported (trace r)) j = Some vj ->
        PrimFloat.ltb vj vi = true) /\
    (forall e, outcome r = Err e ->
               exists v tr', trace r = tr' ++ [Event (Tune_report v) (Err e)]).
Proof.
  intros S lib s cpow alpha beta Hpow Ha Hb r.
  pose proof (run_exec lib (training_function cpow (tune_config alpha beta)) s) as H.
  fold r in H. revert H. generalize (trace r) (outcome r). clear r.
  intros tr res H.
  unfold training_function, tune_config in H.
  cbn [getitem assoc String.eqb lift bind] in H. simpl (lift _) in H.
  cbn [bind] in H.
  apply (report_loop_any cpow alpha beta 10 0) in H.
  - destruct H as (Hlen & Hnth & Herr).
    split; [exact Hlen|]. split; [exact Hnth|]. split; [|exact Herr].
    intros i j vi vj Hij Hi Hj.
    assert (Hj10 : (j < 10)%nat).
    { apply Nat.lt_le_trans with (m := List.length (reported tr)); [|exact Hlen].
      apply nth_error_Some. rewrite Hj. discriminate. }
    apply Hnth in Hi. apply Hnth in Hj. cbn [Nat.add] in Hi, Hj.
    destruct (cell_check_sound cpow alpha beta (Z.of_nat i) (Z.of_nat j) Hpow) as
        (d1 & d2 & v1 & v2 & _ & _ & _ & _ & E1 & E2 & Hlt).
    + apply grid_cell; try assumption; [apply in_steps|apply in_steps|]; lia.
    + rewrite Hi in E1. rewrite Hj in E2.
      injection E1 as <-. injection E2 as <-. exact Hlt.
  - intros step Hs. apply objective64_grid_ok; assumption.
Qed.

(** Witness for X16: [alpha = 0.01], [beta = 2], the correctly rounded
    reciprocal as [pow], a Tune that accepts every report. *)
Lemma training_function_reports_decreasing_witness :
  let r := run improving
               (training_function Float64.recip (tune_config 0.01%float 2)) 0%nat in
  (List.length (reported (trace r)) <= 10)%nat /\
  (forall i v, nth_error (reported (trace r)) i = Some v ->
               objective64 Float64.recip (Z.of_nat i) 0.01%float 2 = Ok v) /\
  (forall i j vi vj,
      (i < j)%nat ->
      nth_error (reported (trace r)) i = Some vi ->
      nth_error (reported (trace r)) j = Some vj ->
      PrimFloat.ltb vj vi = true) /\
  (forall e, outcome r = Err e ->
             exists v tr', trace r = tr' ++ [Event (Tune_report v) (Err e)]).
Proof.
  apply (training_function_reports_decreasing nat improving 0%nat
           Float64.recip 0.01%float 2).
  - exact recip_faithful.
  - simpl. right. left. reflexivity.
  - simpl. right. left. reflexivity.
Defined.

(** X17.  [training_function] reads ["alpha"] first and ["beta"] second,
    before the loop: a configuration without ["alpha"] raises
    [KeyError("alpha")], one with ["alpha"] but without ["beta"] raises
    [KeyError("beta")], and in both cases nothing was reported to Tune:
    the library was not called at all. *)
Theorem training_function_missing_key :
  forall (S : Type) (lib : behaviour S) (s : S) (cpow : float -> float)
         (items : list (string * value)),
    let r := run lib (training_function cpow (VDict items)) s in
    (assoc "alpha" items = None ->
     outcome r = Err (KeyError "alpha") /\ trace r = [] /\ final r = s) /\
    (assoc "alpha" items <> None -> assoc "beta" items = None ->
     outcome r = Err (KeyError "beta") /\ trace r = [] /\ final r = s).
Proof.
  intros S lib s cpow items r. subst r. unfold training_function.
  cbn [getitem]. split.
  - intros Ha. rewrite Ha. cbn. repeat split.
  - intros Ha Hb. destruct (assoc "alpha" items) as [a|]; [|contradiction].
    rewrite Hb. cbn. repeat split.
Qed.

(** Witness for X17: the empty configuration, and one with only alpha. *)
Lemma training_function_missing_key_witness :
  (outcome (run improving (training_function Float64.recip (VDict [])) 0%nat)
   = Err (KeyError "alpha")) /\
  (outcome (run improving
              (training_function Float64.recip
                 (VDict [("alpha"%string, VFloat 0.01%float)])) 0%nat)
   = Err (KeyError "beta")).
Proof.
  split.
  - apply (proj1 (training_function_missing_key nat improving 0%nat
                    Float64.recip [])).
    reflexivity.
  - apply (proj2 (training_function_missing_key nat improving 0%nat
                    Float64.recip [("alpha"%string, VFloat 0.01%float)])).
    + discriminate.
    + reflexivity.
Defined.

End TuningMore.

(* ===================================================================== *)
(** ** More on [objective] *)
(* ===================================================================== *)

Module TuneMore.
Import Tune TuneRun TuneFacts.

Lemma of_int_err (z : Z) (e : exn) : Float64.of_int z = Err e -> e = OverflowError.
Proof.
  unfold Float64.of_int.
  destruct (is_infinity (SF2Prim (binary_normalize prec emax z 0 false)));
    intros H; [injection H as <-; reflexivity|discriminate H].
Qed.

Lemma of_int_hundred : Float64.of_int 100 = Ok 100%float.
Proof. vm_compute. reflexivity. Qed.

Lemma div_hundred (x : float) :
  Float64.div x 100%float = Ok (PrimFloat.div x 100%float).
Proof. reflexivity. Qed.

(** The denominator converts [step], divides by the float 100 and adds;
    only the conversion can raise. *)
Lemma denominator64_eq (step : Z) (alpha : float) :
  denominator64 step alpha
  = rbind (Float64.of_int step) (fun s =>
      Ok (PrimFloat.add 0.1%float
            (PrimFloat.div (PrimFloat.mul alpha s) 100%float))).
Proof.
  unfold denominator64, denominator.
  cbn [num_of_int num_div num_add num_mul num_tenth Float64.number].
  destruct (Float64.of_int step) as [s|e]; [|reflexivity].
  cbn [rbind]. rewrite of_int_hundred. cbn [rbind]. rewrite div_hundred.
  reflexivity.
Qed.

(** A float that compares equal to zero is a zero: neither NaN nor
    infinite. *)
Lemma eqb_zero_shape (d : float) :
  PrimFloat.eqb d 0%float = true -> is_nan d = false /\ is_infinity d = false.
Proof.
  unfold is_nan, is_infinity. rewrite !eqb_spec, abs_spec.
  change (Prim2SF 0%float) with (S754_zero false).
  change (Prim2SF infinity) with (S754_infinity false).
  destruct (Prim2SF d) as [s|s| |s m e]; try destruct s; cbn;
    try discriminate; intros _; split; reflexivity.
Qed.

Lemma pow_neg1_cases (cpow : float -> float) (d : float) :
  if PrimFloat.eqb d 0%float
  then Float64.pow_neg1 cpow d = Err ZeroDivisionError
  else Float64.pow_neg1 cpow d = Err OverflowError
       \/ exists r, Float64.pow_neg1 cpow d = Ok r.
Proof.
  destruct (PrimFloat.eqb d 0%float) eqn:Ez.
  - destruct (eqb_zero_shape d Ez) as [Hn Hi].
    unfold Float64.pow_neg1. rewrite Hn, Hi, Ez. reflexivity.
  - unfold Float64.pow_neg1. rewrite Ez.
    destruct (is_nan d); [right; eexists; reflexivity|].
    destruct (is_infinity d); [right; eexists; reflexivity|].
    destruct (is_infinity (cpow d)); [left|right; eexists]; reflexivity.
Qed.

(** X18.  What [objective] can raise on binary64, for every C library:
    [ZeroDivisionError] exactly when the base [0.1 + alpha * step / 100]
    is a zero, otherwise only [OverflowError] (a [step] or [beta] too
    large for a float, or an infinite power); no other exception. *)
Theorem objective64_raises :
  forall (cpow : float -> float) (step : Z) (alpha : float) (beta : Z),
    (objective64 cpow step alpha beta = Err ZeroDivisionError <->
     exists d, denominator64 step alpha = Ok d /\ PrimFloat.eqb d 0%float = true) /\
    (forall e, objective64 cpow step alpha beta = Err e ->
               e = ZeroDivisionError \/ e = OverflowError).
Proof.
  intros cpow step alpha beta. rewrite objective64_eq.
  destruct (denominator64 step alpha) as [d|e0] eqn:Ed.
  - cbn [rbind]. pose proof (pow_neg1_cases cpow d) as Hp.
    destruct (PrimFloat.eqb d 0%float) eqn:Ez.
    + rewrite Hp. cbn [rbind]. split.
      * split; [intros _; exists d; split; [reflexivity|exact Ez]|reflexivity].
      * intros e He. injection He as <-. left. reflexivity.
    + assert (Hno : ~ exists d', Ok d = Ok d' /\ PrimFloat.eqb d' 0%float = true).
      { intros (d' & Hd' & Hz). injection Hd' as <-. rewrite Ez in Hz. discriminate. }
      destruct Hp as [Hp|[r Hp]]; rewrite Hp; cbn [rbind].
      * split; [split; [discriminate|intros H; destruct (Hno H)]|].
        intros e He. injection He as <-. right. reflexivity.
      * destruct (Float64.of_int beta) as [b|e1] eqn:Eb; cbn [rbind].
        -- split; [split; [discriminate|intros H; destruct (Hno H)]|].
           intros e He. discriminate He.
        -- apply of_int_err in Eb. subst e1.
           split; [split; [discriminate|intros H; destruct (Hno H)]|].
           intros e He. injection He as <-. right. reflexivity.
  - cbn [rbind]. rewrite denominator64_eq in Ed.
    destruct (Float64.of_int step) as [s|e1] eqn:Es; [discriminate Ed|].
    cbn [rbind] in Ed. injection Ed as <-. apply of_int_err in Es. subst e1.
    split.
    + split; [discriminate|intros (d & Hd & _); discriminate Hd].
    + intros e He. injection He as <-. right. reflexivity.
Qed.

(** Witness for X18: [alpha = -10.0] at step 1, where the base is
    [0.1 + (-0.1)]. *)
Lemma objective64_raises_witness :
  objective64 Float64.recip 1 (-10)%float 2 = Err ZeroDivisionError.
Proof.
  apply (proj1 (objective64_raises Float64.recip 1 (-10)%float 2)).
  exists 0%float. split; vm_compute; reflexivity.
Defined.

End TuneMore.

(* ===================================================================== *)
(** ** The sanity check of [train_example] on a diverged training *)
(* ===================================================================== *)

Module SanityCheck.
Import RaySGD Training Example ProgFacts TrainingFacts.

Lemma is_nan_SF (x : float) : is_nan x = true -> Prim2SF x = S754_nan.
Proof.
  unfold is_nan. rewrite eqb_spec. unfold SFeqb.
  destruct (Prim2SF x) as [s|s| |s m e]; [| |reflexivity|];
    simpl; try destruct s;
    rewrite ?Z.compare_refl, ?Pos.compare_cont_refl; discriminate.
Qed.

(** [nan - y > 0] is false. *)
Lemma sub_nan_not_positive (x y : float) :
  is_nan x = true -> PrimFloat.ltb 0%float (PrimFloat.sub x y) = false.
Proof.
  intros H. rewrite ltb_spec, sub_spec, (is_nan_SF x H).
  change (Prim2SF 0%float) with (S754_zero false).
  reflexivity.
Qed.

(** X20.  The sanity check of [train_example] compares with [>], which is
    false on NaN: a completed run whose second validation answers NaN for
    both statistics (a diverged training) prints [success!]. *)
Theorem train_example_nan_passes :
  forall (S : Type) (lib : behaviour S) (s : S)
         (num_replicas batch_size : Z) (use_gpu : bool),
    let r := run lib (train_example num_replicas batch_size use_gpu) s in
    forall (start_stats end_stats : validation_stats) (rest : list printed),
      succeeded (outcome r) = true ->
      output (trace r) = PStats start_stats :: PStats end_stats :: rest ->
      is_nan (validation_loss end_stats) = true ->
      is_nan (validation_mean_squared_error end_stats) = true ->
      messages (trace r) = [sanity_passed].
Proof.
  intros S lib s num_replicas batch_size use_gpu r start_stats end_stats rest
         Hok Hout Hl Hm.
  pose proof (run_exec lib (train_example num_replicas batch_size use_gpu) s) as H.
  fold r in H. revert H Hok Hout. generalize (trace r) (outcome r). clear r.
  intros tr res H Hok Hout.
  destruct res as [[]|e]; [|discriminate Hok].
  apply train_example_exec_ok in H.
  destruct H as (config & trainer & st & en & r1 & r2 & _ & ->).
  cbn in Hout.
  assert (Hst : st = start_stats).
  { apply (f_equal (fun l => nth 0 l (PText EmptyString))) in Hout.
    cbn in Hout. congruence. }
  assert (Hen : en = end_stats).
  { apply (f_equal (fun l => nth 1 l (PText EmptyString))) in Hout.
    cbn in Hout. congruence. }
  subst st en. cbn. unfold verdict, loss_increased, dloss, dmse.
  rewrite (sub_nan_not_positive _ _ Hl), (sub_nan_not_positive _ _ Hm).
  reflexivity.
Qed.

(** Witness for X20: a library whose every statistic is NaN. *)
Lemma train_example_nan_passes_witness :
  messages (trace (run (scripted (fun _ => nan)) (train_example 1 128 false) 0%nat))
  = [sanity_passed].
Proof.
  apply (train_example_nan_passes nat (scripted (fun _ => nan)) 0%nat 1 128 false
           {| validation_loss := nan; validation_mean_squared_error := nan |}
           {| validation_loss := nan; validation_mean_squared_error := nan |}
           [PFormat "dLoss: {dloss}, dMSE: {dmse}" [VFloat nan; VFloat nan];
            PText sanity_passed]).
  - vm_compute. reflexivity.
  - vm_compute. reflexivity.
  - vm_compute. reflexivity.
  - vm_compute. reflexivity.
Defined.

End SanityCheck.

(* ===================================================================== *)
(** ** The configuration cells on shared dictionaries *)
(* ===================================================================== *)

Module StoreFacts.
Import Store.
Local Open Scope store_scope.

Lemma nth_error_put_same (a : nat) (d : dict) (h : store) :
  (a < List.length h)%nat -> nth_error (put a d h) a = Some d.
Proof.
  revert a. induction h as [|d0 h IH]; intros a Ha; [simpl in Ha; lia|].
  destruct a as [|a]; [reflexivity|]. simpl. apply IH. simpl in Ha. lia.
Qed.

Lemma nth_error_put_other (a b : nat) (d : dict) (h : store) :
  a <> b -> nth_error (put a d h) b = nth_error h b.
Proof.
  revert a b. induction h as [|d0 h IH]; intros a b Hab; [reflexivity|].
  destruct a as [|a], b as [|b]; simpl; try reflexivity; try congruence.
  apply IH. congruence.
Qed.

Lemma length_put (a : nat) (d : dict) (h : store) :
  List.length (put a d h) = List.length h.
Proof.
  revert a. induction h as [|d0 h IH]; intros a; [reflexivity|].
  destruct a as [|a]; simpl; [reflexivity|]. rewrite IH. reflexivity.
Qed.

Lemma put_app_l (a : nat) (d : dict) (h t : store) :
  (a < List.length h)%nat -> put a d (h ++ t) = put a d h ++ t.
Proof.
  revert a. induction h as [|d0 h IH]; intros a Ha; [simpl in Ha; lia|].
  destruct a as [|a]; [reflexivity|]. simpl. rewrite IH; [reflexivity|].
  simpl in Ha. lia.
Qed.

Lemma put_app_r (d c : dict) (h t : store) :
  put (List.length h) d (h ++ c :: t) = h ++ d :: t.
Proof. induction h as [|d0 h IH]; simpl; [reflexivity|]. rewrite IH. reflexivity. Qed.

Lemma nth_error_last (h : store) (c : dict) :
  nth_error (h ++ [c]) (List.length h) = Some c.
Proof. rewrite nth_error_app2, Nat.sub_diag; [reflexivity|lia]. Qed.

Lemma lookup_update_same (k : string) (v : item) (d : dict) :
  lookup k (update k v d) = Some v.
Proof.
  induction d as [|[k' v'] d IH]; simpl.
  - rewrite String.eqb_refl. reflexivity.
  - destruct (String.eqb k k') eqn:E; simpl.
    + rewrite String.eqb_refl. reflexivity.
    + rewrite E. exact IH.
Qed.

Lemma lookup_update_other (k k' : string) (v : item) (d : dict) :
  k <> k' -> lookup k' (update k v d) = lookup k' d.
Proof.
  intros Hk. assert (Hkk : String.eqb k' k = false)
    by (apply String.eqb_neq; congruence).
  induction d as [|[k0 v0] d IH]; simpl.
  - rewrite Hkk. reflexivity.
  - destruct (String.eqb k k0) eqn:E; simpl.
    + apply String.eqb_eq in E. subst k0. rewrite Hkk. reflexivity.
    + rewrite IH. reflexivity.
Qed.

(** *** Running the statements *)

Lemma and_then_ok {A B : Type} (m : action A) (f : A -> action B)
      (h h' : store) (a : A) :
  m h = (Ok a, h') -> and_then m f h = f a h'.
Proof. unfold and_then. intros ->. reflexivity. Qed.

Lemma and_then_err {A B : Type} (m : action A) (f : A -> action B)
      (h h' : store) (e : exn) :
  m h = (Err e, h') -> and_then m f h = (Err e, h').
Proof. unfold and_then. intros ->. reflexivity. Qed.

Lemma copy_run (a : nat) (h : store) (d : dict) :
  nth_error h a = Some d -> copy a h = (Ok (List.length h), h ++ [d]).
Proof. unfold copy, and_then, fetch. intros ->. reflexivity. Qed.

Lemma setitem_run (a : nat) (k : string) (v : item) (h : store) (d : dict) :
  nth_error h a = Some d -> setitem a k v h = (Ok tt, put a (update k v d) h).
Proof. unfold setitem, and_then, fetch. intros ->. reflexivity. Qed.

Lemma getitem_run (a : nat) (k : string) (h : store) (d : dict) :
  nth_error h a = Some d ->
  getitem a k h = (match lookup k d with
                   | Some v => Ok v
                   | None => Err (KeyError k)
                   end, h).
Proof.
  unfold getitem, and_then, fetch. intros ->.
  destruct (lookup k d); reflexivity.
Qed.

(** The cell up to the lookup of ["model"]: a copy with two keys set. *)
Lemma config_cell_prefix (d : nat) (h : store) (dflt : dict) :
  nth_error h d = Some dflt ->
  config_cell d h
  = match lookup "model" dflt with
    | Some model =>
        (model <- subscriptable model ;;
         setitem model "fcnet_hiddens" (IList [40; 20]) ;;
         setitem (List.length h) "num_cpus_per_worker" (IInt 0) ;;
         ret (List.length h))
          (h ++ [update "num_workers" (IInt 2)
                   (update "log_level" (IStr "WARN") dflt)])
    | None =>
        (Err (KeyError "model"),
         h ++ [update "num_workers" (IInt 2)
                 (update "log_level" (IStr "WARN") dflt)])
    end.
Proof.
  intros Hd. unfold config_cell.
  rewrite (and_then_ok _ _ _ _ _ (copy_run d h dflt Hd)).
  rewrite (and_then_ok _ _ _ _ _
             (setitem_run _ "log_level" (IStr "WARN") _ _ (nth_error_last h dflt))).
  rewrite put_app_r.
  rewrite (and_then_ok _ _ _ _ _
             (setitem_run _ "num_workers" (IInt 2) _ _ (nth_error_last h _))).
  rewrite put_app_r.
  pose proof (getitem_run (List.length h) "model" _ _ (nth_error_last h
               (update "num_workers" (IInt 2)
                  (update "log_level" (IStr "WARN") dflt)))) as Hg.
  rewrite !lookup_update_other in Hg by discriminate.
  destruct (lookup "model" dflt) as [model|].
  - rewrite (and_then_ok _ _ _ _ _ Hg). reflexivity.
  - rewrite (and_then_err _ _ _ _ _ Hg). reflexivity.
Qed.

(** A completed run of the cell. *)
Lemma config_cell_run (d m : nat) (h : store) (dflt md : dict) :
  nth_error h d = Some dflt ->
  lookup "model" dflt = Some (IRef m) ->
  nth_error h m = Some md ->
  config_cell d h
  = (Ok (List.length h),
     put m (update "fcnet_hiddens" (IList [40; 20]) md) h ++ [configured dflt]).
Proof.
  intros Hd Hm Hmd.
  assert (Hlt : (m < List.length h)%nat)
    by (apply nth_error_Some; rewrite Hmd; discriminate).
  rewrite (config_cell_prefix d h dflt Hd), Hm.
  cbn [subscriptable]. unfold ret at 1. cbn [and_then].
  erewrite and_then_ok;
    [|apply setitem_run; rewrite nth_error_app1 by exact Hlt; exact Hmd].
  rewrite put_app_l by exact Hlt.
  erewrite and_then_ok;
    [|apply setitem_run; rewrite <- (length_put m (update "fcnet_hiddens" (IList [40; 20]) md) h);
      apply nth_error_last].
  pose proof (put_app_r (configured dflt)
                (update "num_workers" (IInt 2) (update "log_level" (IStr "WARN") dflt))
                (put m (update "fcnet_hiddens" (IList [40; 20]) md) h) []) as E.
  rewrite length_put in E. unfold configured in E at 1. rewrite E.
  reflexivity.
Qed.

Lemma getitem2_run (a m : nat) (k1 k2 : string) (h : store) (d dm : dict) :
  nth_error h a = Some d -> lookup k1 d = Some (IRef m) ->
  nth_error h m = Some dm ->
  getitem2 a k1 k2 h = (match lookup k2 dm with
                        | Some v => Ok v
                        | None => Err (KeyError k2)
                        end, h).
Proof.
  intros Ha Hk Hm. unfold getitem2.
  pose proof (getitem_run a k1 h d Ha) as Hg. rewrite Hk in Hg.
  rewrite (and_then_ok _ _ _ _ _ Hg). cbn [subscriptable].
  unfold ret at 1. cbn [and_then]. apply getitem_run. exact Hm.
Qed.

(** X21.  The configuration cells copy [DEFAULT_CONFIG] shallowly, so the
    assignment [config['model']['fcnet_hiddens'] = [40,20]] lands in the
    library's own ["model"] dictionary: after the cell
    [DEFAULT_CONFIG['model']['fcnet_hiddens']] reads [[40, 20]].  The keys
    of [DEFAULT_CONFIG] itself keep their bindings, [config] is a new
    dictionary, and no other dictionary of the store changes. *)
Theorem config_cell_shares_model (d m : nat) (h : store) (dflt md : dict) :
  nth_error h d = Some dflt ->
  lookup "model" dflt = Some (IRef m) ->
  nth_error h m = Some md ->
  m <> d ->
  let h' := snd (config_cell d h) in
  fst (config_cell d h) = Ok (List.length h) /\
  nth_error h (List.length h) = None /\
  nth_error h' d = Some dflt /\
  fst (getitem2 d "model" "fcnet_hiddens" h') = Ok (IList [40; 20]) /\
  nth_error h' m = Some (update "fcnet_hiddens" (IList [40; 20]) md) /\
  (forall a, a <> m -> (a < List.length h)%nat -> nth_error h' a = nth_error h a) /\
  List.length h' = S (List.length h).
Proof.
  intros Hd Hm Hmd Hne h'. subst h'.
  rewrite (config_cell_run d m h dflt md Hd Hm Hmd). cbn [fst snd].
  assert (Hlt : (m < List.length h)%nat)
    by (apply nth_error_Some; rewrite Hmd; discriminate).
  assert (Hdl : (d < List.length h)%nat)
    by (apply nth_error_Some; rewrite Hd; discriminate).
  set (md' := update "fcnet_hiddens" (IList [40; 20]) md).
  assert (Hd' : nth_error (put m md' h ++ [configured dflt]) d = Some dflt).
  { rewrite nth_error_app1 by (rewrite length_put; exact Hdl).
    rewrite nth_error_put_other by exact Hne. exact Hd. }
  assert (Hm' : nth_error (put m md' h ++ [configured dflt]) m = Some md').
  { rewrite nth_error_app1 by (rewrite length_put; exact Hlt).
    apply nth_error_put_same. exact Hlt. }
  split; [reflexivity|]. split; [apply nth_error_None; lia|].
  split; [exact Hd'|]. split; [|split; [exact Hm'|split]].
  - rewrite (getitem2_run d m _ _ _ dflt md' Hd' Hm Hm'). unfold md'.
    rewrite lookup_update_same. reflexivity.
  - intros a Ha Hal.
    rewrite nth_error_app1 by (rewrite length_put; exact Hal).
    apply nth_error_put_other. congruence.
  - rewrite length_app, length_put. simpl. lia.
Qed.

(** Witness for X21: the defaults at address 0 with their model at 1. *)
Lemma config_cell_shares_model_witness :
  fst (getitem2 0 "model" "fcnet_hiddens" sample_store) = Ok (IList [256; 256]) /\
  fst (getitem2 0 "model" "fcnet_hiddens" (snd (config_cell 0 sample_store)))
  = Ok (IList [40; 20]).
Proof.
  split; [reflexivity|].
  apply (config_cell_shares_model 0 1 sample_store
           [("num_workers"%string, IInt 0); ("log_level"%string, IStr "INFO");
            ("model"%string, IRef 1); ("lr"%string, IFloat 0.0005%float)]
           [("fcnet_hiddens"%string, IList [256; 256]);
            ("fcnet_activation"%string, IStr "tanh")]);
    [reflexivity|reflexivity|reflexivity|discriminate].
Defined.

(** X22.  What the trainer is handed: under the new [config],
    ["log_level"] is ["WARN"], ["num_workers"] is 2,
    ["num_cpus_per_worker"] is 0, ["model"] is the library's model
    dictionary itself, in which ["fcnet_hiddens"] is [[40, 20]]; every
    other key reads as in [DEFAULT_CONFIG] before the cell. *)
Theorem config_cell_reads (d m : nat) (h : store) (dflt md : dict) :
  nth_error h d = Some dflt ->
  lookup "model" dflt = Some (IRef m) ->
  nth_error h m = Some md ->
  let h' := snd (config_cell d h) in
  let config := List.length h in
  fst (getitem config "log_level" h') = Ok (IStr "WARN") /\
  fst (getitem config "num_workers" h') = Ok (IInt 2) /\
  fst (getitem config "num_cpus_per_worker" h') = Ok (IInt 0) /\
  fst (getitem config "model" h') = Ok (IRef m) /\
  fst (getitem2 config "model" "fcnet_hiddens" h') = Ok (IList [40; 20]) /\
  (forall k, k <> "log_level"%string -> k <> "num_workers"%string ->
             k <> "num_cpus_per_worker"%string ->
             fst (getitem config k h') = fst (getitem d k h)).
Proof.
  intros Hd Hm Hmd h' config. subst h' config.
  rewrite (config_cell_run d m h dflt md Hd Hm Hmd). cbn [snd].
  assert (Hlt : (m < List.length h)%nat)
    by (apply nth_error_Some; rewrite Hmd; discriminate).
  set (md' := update "fcnet_hiddens" (IList [40; 20]) md).
  assert (Hc : nth_error (put m md' h ++ [configured dflt]) (List.length h)
               = Some (configured dflt)).
  { rewrite <- (length_put m md' h). apply nth_error_last. }
  assert (Hm' : nth_error (put m md' h ++ [configured dflt]) m = Some md').
  { rewrite nth_error_app1 by (rewrite length_put; exact Hlt).
    apply nth_error_put_same. exact Hlt. }
  assert (Hmodel : lookup "model" (configured dflt) = Some (IRef m)).
  { unfold configured. rewrite !lookup_update_other by discriminate. exact Hm. }
  repeat split.
  - rewrite (getitem_run _ _ _ _ Hc). unfold configured.
    rewrite !lookup_update_other by discriminate.
    rewrite lookup_update_same. reflexivity.
  - rewrite (getitem_run _ _ _ _ Hc). unfold configured.
    rewrite lookup_update_other by discriminate.
    rewrite lookup_update_same. reflexivity.
  - rewrite (getitem_run _ _ _ _ Hc). unfold configured.
    rewrite lookup_update_same. reflexivity.
  - rewrite (getitem_run _ _ _ _ Hc), Hmodel. reflexivity.
  - rewrite (getitem2_run _ m _ _ _ _ md' Hc Hmodel Hm'). unfold md'.
    rewrite lookup_update_same. reflexivity.
  - intros k K1 K2 K3.
    rewrite (getitem_run _ _ _ _ Hc), (getitem_run _ _ _ _ Hd). unfold configured.
    rewrite !lookup_update_other by congruence. reflexivity.
Qed.

(** Witness for X22: the learning rate of the sample defaults is read
    unchanged through the new configuration. *)
Lemma config_cell_reads_witness :
  fst (getitem 2 "num_workers" (snd (config_cell 0 sample_store))) = Ok (IInt 2) /\
  fst (getitem 2 "lr" (snd (config_cell 0 sample_store)))
  = fst (getitem 0 "lr" sample_store).
Proof.
  pose proof (config_cell_reads 0 1 sample_store
                [("num_workers"%string, IInt 0); ("log_level"%string, IStr "INFO");
                 ("model"%string, IRef 1); ("lr"%string, IFloat 0.0005%float)]
                [("fcnet_hiddens"%string, IList [256; 256]);
                 ("fcnet_activation"%string, IStr "tanh")]
                eq_refl eq_refl eq_refl) as (_ & H2 & _ & _ & _ & H6).
  split; [exact H2|]. apply H6; discriminate.
Defined.

(** X23.  When [DEFAULT_CONFIG] has no ["model"] key the cell raises
    [KeyError("model")], and when ["model"] is bound to something that is
    not a dictionary it raises [TypeError]; in both cases the library's
    dictionaries are as before and the copy, with ["log_level"] and
    ["num_workers"] already set and ["num_cpus_per_worker"] not yet, stays
    behind. *)
Theorem config_cell_raises (d : nat) (h : store) (dflt : dict) :
  nth_error h d = Some dflt ->
  let half := update "num_workers" (IInt 2) (update "log_level" (IStr "WARN") dflt) in
  (lookup "model" dflt = None ->
   config_cell d h = (Err (KeyError "model"), h ++ [half])) /\
  (forall v, lookup "model" dflt = Some v -> (forall m, v <> IRef m) ->
             config_cell d h = (Err (LibraryError "TypeError"), h ++ [half])).
Proof.
  intros Hd half. subst half. split.
  - intros Hm. rewrite (config_cell_prefix d h dflt Hd), Hm. reflexivity.
  - intros v Hm Hv. rewrite (config_cell_prefix d h dflt Hd), Hm.
    destruct v as [b|z|f|s|l|m]; try reflexivity.
    destruct (Hv m eq_refl).
Qed.

(** Witness for X23: defaults without a model, and with a string for one. *)
Lemma config_cell_raises_witness :
  fst (config_cell 0 [[("num_workers"%string, IInt 0)]]) = Err (KeyError "model") /\
  fst (config_cell 0 [[("model"%string, IStr "lstm")]])
  = Err (LibraryError "TypeError").
Proof.
  split.
  - rewrite (proj1 (config_cell_raises 0 [[("num_workers"%string, IInt 0)]]
                      [("num_workers"%string, IInt 0)] eq_refl) eq_refl).
    reflexivity.
  - rewrite (proj2 (config_cell_raises 0 [[("model"%string, IStr "lstm")]]
                      [("model"%string, IStr "lstm")] eq_refl)
               (IStr "lstm") eq_refl ltac:(discriminate)).
    reflexivity.
Defined.

End StoreFacts.

(* ===================================================================== *)
(** ** Entities: built by the repository, or passed through *)
(* ===================================================================== *)

Module EntityFacts.
Import RaySGD Training Diamonds Example Entities ProgFacts ConfigFacts TrainingMore.
Local Open Scope string_scope.







End EntityFacts.
